(* ===== verification/_CoqProject ===== *)
-Q . S2P
Prelude.v
PyStr.v
PyVal.v
Regex.v
Text.v
Intent.v
Geo.v
Catalog.v
Requester.v
Validator.v
Handler.v
