(* ===== verification/Prelude.v ===== *)
(** * Atlas chat: a verification development of [src/functions/atlas_chat.py]

    The program is one Firebase HTTP function, [atlasChat] ([main.py]
    re-exports it).  For a POST carrying a chat transcript it finds the last
    user message, loads the book catalog from Firestore through a
    process-wide cache, asks an OpenAI model to pick books from that
    catalog, and repairs the model's answer into a well-formed envelope
    before returning it as JSON.  Its parts, and where they are modelled:

    - [Prelude] (this file): the [result] monad in which code that can raise
      is written ([x ← m; k] is the code's sequencing, [Err e] an exception
      in flight), the shared lemmas on lists, options and [omap], the
      order-preserving de-duplication [uniq_go]/[uniq_first] behind every
      [seen] set of the source, the hint databases [atlas] and [atlas_rw]
      and the development's tactics.
    - [PyStr], [PyVal]: Python values.  A [str] is its list of code points
      ([pystr]); [str.strip], [lower], [upper], [isalpha], [split], [join],
      slicing, [str(int)] and [repr] are functions over it, exact on the
      Latin-1 range and documented where they approximate beyond it.
      [pyval] is the JSON/Firestore fragment of Python values with dicts as
      insertion-ordered association lists; [get] is [dict.get], which
      raises [AttributeError] on a non-dict exactly as the code does.
    - [Regex]: [re.sub] for the source's patterns, each as a matcher.
    - [Text]: [_normalize_text] (lines 50-58).
    - [Intent]: [_user_wants_single] (lines 277-291) and its trigger
      specification.
    - [Geo]: [_country_string_to_iso2], [_extract_iso2_candidates],
      [_iso2_to_country_name] (lines 61-145) over an optional [pycountry]
      table given as a record of its three lookups.
    - [Catalog]: the document coercion of [_load_atlas_books_cached], the
      annotations [_places_for_book], [_iso2_sets_for_book],
      [_build_book_search_blob] (lines 148-274) and the cache: the four
      globals are the record [cache], one call of the loader is a function
      from clock, [stream()] outcome and cache to snapshot and new cache,
      and [cache_step] is the step relation of the globals over calls.
    - [Requester]: [_call_openai], [_parse_output_text_json] and
      [_recommend_with_llm] (lines 294-455), with [json.dumps],
      [json.loads] and [requests.post] as section variables.
    - [Validator]: [_sanitize_assistant_markdown], [_build_synced_markdown]
      and [_validate_payload] (lines 458-581) over any JSON value; it sees a
      catalog record only through the [RecordView] class, which [Catalog]
      instantiates for its records.
    - [Handler]: the module settings (lines 28-31), [_json_response] and
      [atlasChat] (lines 584-706) as one function from request,
      environment, clock, store outcome and cache to response, new cache
      and the payloads posted to the model, or an escaping exception.  It
      composes the components above in the code's order.

    The theorems, by group:
    - the validator's contract: whatever the model returns, the envelope is
      well formed (C1), names every recommended title after the repair
      (C2) and recommends the first one or three distinct catalog ids the
      model gave (C3), and its prose never holds three newlines in a row
      (C33); the intent test decides its trigger specification (C4);
    - the geo normaliser: de-duplication and the probed values (C5), ISO2
      shape of the codes under the table's contract (C6), its behaviour
      with and without [pycountry] (C7-C9);
    - the cache: hits, stream failures and raising refreshes (C10-C12),
      and by rule induction on [cache_step] that every reachable cache is
      consistent (C13); the record annotations: the country sets (C14) and
      the search blob, which indexes every field it is built from (C15);
    - the requester: the reply parser reads back what the model serialised
      in both reply shapes (C16) and raises only on a non-dict reply (C17),
      HTTP errors raise (C18), and the input keeps the twelve-message
      history window (C19);
    - the handler: every branch of [atlasChat] (C20-C25), at most one model
      call and only when it is due (C26), the cache invariant over any
      sequence of requests (C27), the settings read at import for every
      environment (C28), the cases in which a response is produced at all
      (C29), the response's headers and status per method (C30), the two
      configuration errors answered with status 500 (C32), and no
      [debug] entry without a debug request (C34);
    - the text normaliser equals its reference, the space-joined words of
      the lower-cased text (C31).
    Each theorem with hypotheses has a witness that applies it to a
    concrete input, evaluated by [vm_compute].  Two counterexamples to the
    specification are kept as examples beside the model, each behind a
    finding: [Geo.to_iso2_sharp_s] ("ßa" becomes "SSA") and
    [Handler.validate_not_idempotent] (re-validating the validator's output
    changes its prose, since each pass removes one layer of line markers).

    Bounds and fuel.  Every definition is structurally recursive except the
    decimal printer [digits_go], whose fuel [S (N.size_nat n)] exceeds the
    number of decimal digits of [n] (since [n < 2 ^ size n <= 10 ^ size n]);
    [show_N_spec] proves that any larger fuel gives the same digits, so
    nothing in the development can stop early for lack of fuel.  Integers
    that the code compares with limits ([status_code], the clock, the TTL)
    are [Z]; Python integers are unbounded, so no wrap-around is modelled.

    Not modelled: logging and [traceback] text (only the parts that reach a
    response, as opaque section variables); the JSON text produced by
    [json.dumps] (a parameter; the response body is kept as a [pyval]);
    Firebase initialisation in [main.py]; the internals of [pycountry],
    [requests] and Firestore, which enter as parameters; concurrent
    requests in one process (the globals are modelled for sequential
    calls, which is how one Cloud Functions instance serves them by
    default); the [alpha_3]/name tables beyond the three lookups the code
    makes. *)

From stdpp Require Export base list gmap strings.
From Stdlib Require Export ZArith NArith.

Declare Scope atlas_scope.
Delimit Scope atlas_scope with atlas.

(** ** Results of code that can raise

    A Python call either returns a value or raises an exception.  The
    development threads such calls through [result E], with stdpp's
    [MRet]/[MBind] instances so that [x ← m; k] reads like the code. *)

Inductive result (E A : Type) : Type :=
| Ok (a : A)
| Err (e : E).
Arguments Ok {E A} a.
Arguments Err {E A} e.

#[export] Instance result_ret E : MRet (result E) := λ A a, Ok a.
#[export] Instance result_bind E : MBind (result E) :=
  λ A B f m, match m with Ok a => f a | Err e => Err e end.
#[export] Instance result_fmap E : FMap (result E) :=
  λ A B f m, match m with Ok a => Ok (f a) | Err e => Err e end.

Section result_lemmas.
Context {E A B : Type}.

Lemma bind_Ok (a : A) (f : A → result E B) : (Ok a ≫= f) = f a.
Proof. reflexivity. Qed.

Lemma bind_Err (e : E) (f : A → result E B) : (Err e ≫= f) = Err e.
Proof. reflexivity. Qed.

Lemma bind_Ok_inv (m : result E A) (f : A → result E B) (b : B) :
  (m ≫= f) = Ok b → ∃ a, m = Ok a ∧ f a = Ok b.
Proof. destruct m; simpl; [eauto | discriminate]. Qed.

Lemma bind_Err_inv (m : result E A) (f : A → result E B) (e : E) :
  (m ≫= f) = Err e → m = Err e ∨ ∃ a, m = Ok a ∧ f a = Err e.
Proof. destruct m; simpl; [eauto | intros [= ->]; auto]. Qed.
End result_lemmas.

(** Traversing a list with a function that may raise, stopping at the first
    exception: a Python [for] loop whose body can raise. *)
Fixpoint mapM_res {E A B} (f : A → result E B) (l : list A) : result E (list B) :=
  match l with
  | [] => Ok []
  | x :: l' => y ← f x; ys ← mapM_res f l'; Ok (y :: ys)
  end.

Lemma mapM_res_length {E A B} (f : A → result E B) l ys :
  mapM_res f l = Ok ys → length ys = length l.
Proof.
  revert ys; induction l as [|x l IH]; simpl; intros ys H; [by injection H as <-|].
  destruct (f x); simpl in H; [|discriminate].
  destruct (mapM_res f l) eqn:E'; simpl in H; [|discriminate].
  injection H as <-. simpl. f_equal. by apply IH.
Qed.

Lemma mapM_res_Forall2 {E A B} (f : A → result E B) l ys :
  mapM_res f l = Ok ys → Forall2 (λ x y, f x = Ok y) l ys.
Proof.
  revert ys; induction l as [|x l IH]; simpl; intros ys H; [by injection H as <-|].
  destruct (f x) eqn:Ef; simpl in H; [|discriminate].
  destruct (mapM_res f l) eqn:E'; simpl in H; [|discriminate].
  injection H as <-. constructor; auto.
Qed.

Lemma mapM_res_elem {E A B} (f : A → result E B) l ys x :
  mapM_res f l = Ok ys → x ∈ l → ∃ y, f x = Ok y.
Proof.
  intros H%mapM_res_Forall2 Hx. apply list_elem_of_In in Hx.
  induction H as [|x' y l' ys' Hxy _ IH]; [done|]. destruct Hx as [<- | Hx]; eauto.
Qed.

Lemma length_omap_le {A B} (f : A → option B) l : length (omap f l) ≤ length l.
Proof.
  induction l as [|x l IH]; [simpl; lia|].
  change (omap f (x :: l)) with (match f x with Some y => y :: omap f l | None => omap f l end).
  destruct (f x); cbn [length]; lia.
Qed.

(** A loop that appends [g x] to an accumulator for each [x]. *)
Lemma fold_left_collect {A B} (f : list B → A → list B) (g : A → list B) xs out :
  (∀ out x, f out x = out ++ g x) → fold_left f xs out = out ++ (xs ≫= g).
Proof.
  intros Hf. revert out; induction xs as [|x xs IH]; intros out; simpl; [by rewrite app_nil_r|].
  by rewrite IH, Hf, <- app_assoc.
Qed.

Lemma omap_bind {A B} (f : A → option B) l : omap f l = l ≫= (λ x, option_list (f x)).
Proof. induction l as [|x l IH]; [done|]. rewrite bind_cons, <- IH. simpl. by destruct (f x). Qed.

Lemma omap_list_bind {A B C} (f : B → option C) (g : A → list B) l :
  omap f (l ≫= g) = l ≫= (λ x, omap f (g x)).
Proof. induction l as [|x l IH]; [done|]. by rewrite !bind_cons, omap_app, IH. Qed.

(** Python truthiness of a [str] or [list]: [if xs:]. *)
Definition nonempty {A} (l : list A) : bool := negb (bool_decide (l = [])).

Lemma nonempty_true {A} (l : list A) : nonempty l = true ↔ l ≠ [].
Proof. unfold nonempty. rewrite negb_true_iff. apply bool_decide_eq_false. Qed.

Lemma nonempty_false {A} (l : list A) : nonempty l = false ↔ l = [].
Proof. unfold nonempty. rewrite negb_false_iff. apply bool_decide_eq_true. Qed.

(** ** Order-preserving de-duplication

    The Python idiom [seen = set(); for x in xs: if x in seen: continue;
    seen.add(x); uniq.append(x)] keeps the first occurrence of each
    element.  (stdpp's [remove_dups] keeps the last one.) *)

Section uniq.
Context `{Countable A}.

Fixpoint uniq_go (seen : gset A) (l : list A) : list A :=
  match l with
  | [] => []
  | x :: l' =>
      if decide (x ∈ seen) then uniq_go seen l'
      else x :: uniq_go ({[x]} ∪ seen) l'
  end.

Definition uniq_first (l : list A) : list A := uniq_go ∅ l.

Lemma uniq_go_elem seen l x :
  x ∈ uniq_go seen l ↔ x ∈ l ∧ x ∉ seen.
Proof.
  revert seen; induction l as [|y l IH]; intros seen; simpl.
  - set_solver.
  - case_decide.
    + rewrite IH, elem_of_cons. naive_solver.
    + rewrite elem_of_cons, IH, elem_of_cons, elem_of_union, elem_of_singleton.
      destruct (decide (x = y)); subst; tauto.
Qed.

Lemma uniq_go_NoDup seen l : NoDup (uniq_go seen l).
Proof.
  revert seen; induction l as [|y l IH]; intros seen; simpl.
  - constructor.
  - case_decide; [done|]. constructor; [|done].
    rewrite uniq_go_elem. set_solver.
Qed.

Lemma uniq_first_elem l x : x ∈ uniq_first l ↔ x ∈ l.
Proof. unfold uniq_first. rewrite uniq_go_elem. set_solver. Qed.

Lemma uniq_first_NoDup l : NoDup (uniq_first l).
Proof. apply uniq_go_NoDup. Qed.

Lemma uniq_go_Forall (P : A → Prop) seen l :
  Forall P l → Forall P (uniq_go seen l).
Proof.
  rewrite !Forall_forall. intros HP x Hx.
  apply HP. by apply uniq_go_elem in Hx as [? _].
Qed.

Lemma uniq_first_Forall (P : A → Prop) l :
  Forall P l → Forall P (uniq_first l).
Proof. apply uniq_go_Forall. Qed.

End uniq.

(** ** Infix occurrence: the Python [needle in haystack] on sequences *)

Definition infix {A} (u v : list A) : Prop := ∃ a b, v = a ++ u ++ b.

Section infix.
Context {A : Type}.
Implicit Types u v w : list A.

Lemma infix_refl u : infix u u.
Proof. exists [], []. by rewrite app_nil_r. Qed.

Lemma infix_nil u : infix [] u.
Proof. by exists [], u. Qed.

Lemma infix_trans u v w : infix u v → infix v w → infix u w.
Proof.
  intros (a & b & ->) (c & d & ->). exists (c ++ a), (b ++ d).
  by rewrite !app_assoc.
Qed.

Lemma infix_app_l u v w : infix u v → infix u (w ++ v).
Proof. intros (a & b & ->). exists (w ++ a), b. by rewrite app_assoc. Qed.

Lemma infix_app_r u v w : infix u v → infix u (v ++ w).
Proof. intros (a & b & ->). exists a, (b ++ w). by rewrite !app_assoc. Qed.

Lemma infix_middle u a b : infix u (a ++ u ++ b).
Proof. by exists a, b. Qed.
End infix.

(** ** Automation shared by the development *)

Create HintDb atlas discriminated.
#[export] Hint Constants Transparent : atlas.
#[export] Hint Resolve infix_refl infix_nil infix_middle : atlas.
#[export] Hint Resolve uniq_first_NoDup : atlas.
Create Rewrite HintDb atlas_rw.
#[export] Hint Rewrite @bind_Ok @bind_Err : atlas_rw.

(** Split a goal on the outcome of a monadic step. *)
Ltac res_case m E :=
  destruct m as [?|?] eqn:E; simpl in *; try discriminate.

(** Decide every boolean test of the goal's [if]s, left to right. *)
Ltac case_ifs :=
  repeat match goal with
  | |- context [if ?b then _ else _] =>
      lazymatch b with
      | decide _ => case_decide
      | _ => destruct b eqn:?
      end
  end.

(** Turn boolean comparisons on [N] in the hypotheses into propositions. *)
Ltac N_bool_hyps :=
  repeat match goal with
  | H : _ = true |- _ =>
      progress rewrite ?orb_true_iff, ?andb_true_iff, ?N.leb_le, ?N.eqb_eq, ?N.ltb_lt in H
  | H : _ = false |- _ =>
      progress rewrite ?orb_false_iff, ?andb_false_iff, ?N.leb_gt, ?N.eqb_neq, ?N.ltb_ge in H
  end.

(** Case analysis of a character function defined by ranges: split every
    [if] of the goal and discard the arithmetically impossible cases. *)
Ltac char_cases :=
  repeat match goal with |- context [if ?b then _ else _] => destruct b eqn:? end;
  N_bool_hyps; try (exfalso; lia).

(** Find [u] inside a right-nested concatenation. *)
Ltac solve_infix :=
  first [ apply infix_refl
        | apply infix_app_r; solve_infix
        | apply infix_app_l; solve_infix ].
