(* ===== verification/PyStr.v ===== *)
(** * Python [str] values and the string primitives the code calls

    A Python string is modelled as the list of its Unicode code points
    ([pystr := list N]); [len] is [length], slicing [s[:n]] is [take n s].
    String literals of the source are written as Rocq literals and decoded
    from UTF-8 by [lit], so ["I couldn’t"] denotes the same code points as
    in the Python file.

    Character classes follow CPython's Unicode database exactly on the
    Latin-1 range (code points below 256): [str.isspace] (and the regex
    [\s]) on all of Unicode, [str.isalpha], [str.upper] and [str.lower] on
    Latin-1, plus the two code points outside Latin-1 whose lower case is
    ASCII (U+0130 and U+212A), which matter to [_normalize_text].  Letters
    above U+00FF count as non-alphabetic and uncased, and [\d] is [0-9].

    [str(int)] ([show_Z], the only loop with fuel) is proved to finish
    within its fuel and to emit exactly the decimal digits of its
    argument. *)

From S2P Require Import Prelude.

Abbreviation pystr := (list N).

Open Scope N_scope.

(** ** Literals *)

Fixpoint utf8_decode (bs : list N) : pystr :=
  match bs with
  | [] => []
  | b :: r =>
      if b <? 128 then b :: utf8_decode r
      else if b <? 224 then
        match r with
        | c :: r' => ((b - 192) * 64 + (c - 128)) :: utf8_decode r'
        | [] => []
        end
      else if b <? 240 then
        match r with
        | c :: d :: r' => ((b - 224) * 4096 + (c - 128) * 64 + (d - 128)) :: utf8_decode r'
        | _ => []
        end
      else
        match r with
        | c :: d :: e :: r' =>
            ((b - 240) * 262144 + (c - 128) * 4096 + (d - 128) * 64 + (e - 128))
              :: utf8_decode r'
        | _ => []
        end
  end.

Definition lit (s : string) : pystr :=
  utf8_decode (map Ascii.N_of_ascii (String.list_ascii_of_string s)).
Arguments lit s%_string : simpl never.

(** ** Character classes *)

Definition in_range (lo hi c : N) : bool := (lo <=? c) && (c <=? hi).

(** [str.isspace] and the regex class [\s] for [str] patterns. *)
Definition is_space (c : N) : bool :=
  in_range 9 13 c || in_range 28 32 c || (c =? 133) || (c =? 160)
  || (c =? 5760) || in_range 8192 8202 c || (c =? 8232) || (c =? 8233)
  || (c =? 8239) || (c =? 8287) || (c =? 12288).

Definition is_alpha_char (c : N) : bool :=
  in_range 65 90 c || in_range 97 122 c || (c =? 170) || (c =? 181)
  || (c =? 186) || in_range 192 214 c || in_range 216 246 c || in_range 248 255 c.

Definition is_digit (c : N) : bool := in_range 48 57 c.

Definition is_ascii_upper (c : N) : bool := in_range 65 90 c.

(** [str.isalpha]: non-empty and every character alphabetic. *)
Definition isalpha (s : pystr) : bool :=
  negb (bool_decide (s = [])) && forallb is_alpha_char s.

Definition upper_char (c : N) : pystr :=
  if in_range 97 122 c || in_range 224 246 c || in_range 248 254 c then [c - 32]
  else if c =? 181 then [924]
  else if c =? 223 then [83; 83]
  else if c =? 255 then [376]
  else [c].

Definition lower_char (c : N) : pystr :=
  if in_range 65 90 c || in_range 192 214 c || in_range 216 222 c then [c + 32]
  else if c =? 304 then [105; 775]
  else if c =? 8490 then [107]
  else [c].

Definition upper (s : pystr) : pystr := s ≫= upper_char.
Definition lower (s : pystr) : pystr := s ≫= lower_char.

(** ** [strip] *)

Fixpoint lstrip (s : pystr) : pystr :=
  match s with
  | c :: s' => if is_space c then lstrip s' else s
  | [] => []
  end.

Definition rstrip (s : pystr) : pystr := reverse (lstrip (reverse s)).

Definition strip (s : pystr) : pystr := rstrip (lstrip s).

(** [s.replace(a, b)] for one-character [a] and [b]. *)
Definition replace_char (a b : N) (s : pystr) : pystr :=
  map (λ c, if c =? a then b else c) s.

(** ** [startswith] and [in] *)

Fixpoint starts_with (p s : pystr) : bool :=
  match p, s with
  | [], _ => true
  | a :: p', b :: s' => (a =? b) && starts_with p' s'
  | _ :: _, [] => false
  end.

Fixpoint contains (n h : pystr) : bool :=
  starts_with n h || match h with [] => false | _ :: h' => contains n h' end.

(** ** [re.split] on a character class, and [sep.join(parts)] *)

Fixpoint split_on (p : N → bool) (s : pystr) : list pystr :=
  match s with
  | [] => [[]]
  | c :: s' =>
      if p c then [] :: split_on p s'
      else match split_on p s' with
           | w :: ws => (c :: w) :: ws
           | [] => [[c]]
           end
  end.

Fixpoint join (sep : pystr) (parts : list pystr) : pystr :=
  match parts with
  | [] => []
  | [p] => p
  | p :: ps => p ++ sep ++ join sep ps
  end.

(** ** [str(int)] and [repr(str)] *)

Fixpoint digits_go (fuel : nat) (n : N) (acc : pystr) : pystr :=
  match fuel with
  | O => acc
  | S f =>
      let acc' := (48 + n mod 10) :: acc in
      if n <? 10 then acc' else digits_go f (n / 10) acc'
  end.

(** Decimal digits of [n]; one more than [N.size_nat n] bounds their number. *)
Definition show_N (n : N) : pystr := digits_go (S (N.size_nat n)) n [].

Definition show_Z (z : Z) : pystr :=
  if (z <? 0)%Z then 45 :: show_N (Z.to_N (- z)) else show_N (Z.to_N z).

Definition hex_digit (d : N) : N := if d <? 10 then 48 + d else 87 + d.

(** Characters [repr] escapes as [\xhh] (Latin-1 non-printables). *)
Definition repr_hex_escaped (c : N) : bool :=
  (c <? 32) || in_range 127 160 c || (c =? 173).

Definition repr_char (q c : N) : pystr :=
  if c =? 92 then [92; 92]
  else if c =? q then [92; q]
  else if c =? 9 then [92; 116]
  else if c =? 10 then [92; 110]
  else if c =? 13 then [92; 114]
  else if repr_hex_escaped c then [92; 120; hex_digit (c / 16); hex_digit (c mod 16)]
  else [c].

(** [repr(s)]: single quotes unless [s] has a single and no double quote. *)
Definition repr_str (s : pystr) : pystr :=
  let q := if bool_decide (39 ∈ s) && negb (bool_decide (34 ∈ s)) then 34 else 39 in
  q :: (s ≫= repr_char q) ++ [q].

Close Scope N_scope.

(** ** Lemmas on the primitives *)

Lemma starts_with_spec p s : starts_with p s = true ↔ p `prefix_of` s.
Proof.
  revert s; induction p as [|a p IH]; intros [|b s]; simpl.
  - split; [intros _; apply prefix_nil | done].
  - split; [intros _; apply prefix_nil | done].
  - split; [done | intros H; by apply prefix_nil_not in H].
  - rewrite andb_true_iff, N.eqb_eq, IH. split.
    + intros [-> ?]. by apply prefix_cons.
    + intros H. split; [by eapply prefix_cons_inv_1 | by eapply prefix_cons_inv_2].
Qed.

Lemma contains_spec n h : contains n h = true ↔ infix n h.
Proof.
  induction h as [|c h IH]; simpl; rewrite orb_true_iff, starts_with_spec.
  - split.
    + intros [Hp|Hf]; [|discriminate]. apply prefix_nil_inv in Hp as ->. apply infix_nil.
    + intros (a & b & Hab). symmetry in Hab.
      apply app_nil in Hab as [_ [-> _]%app_nil]. left. apply prefix_nil.
  - rewrite IH. split.
    + intros [[b ->]|(a & b & ->)]; [by exists [], b | by exists (c :: a), b].
    + intros ([|d a] & b & Hab); simpl in Hab.
      * left. exists b. done.
      * injection Hab as -> ->. right. by exists a, b.
Qed.

Lemma lstrip_suffix s : ∃ w, s = w ++ lstrip s ∧ Forall (λ c, is_space c = true) w.
Proof.
  induction s as [|c s IH]; simpl; [by exists []|].
  destruct (is_space c) eqn:Hc.
  - destruct IH as (w & Hw & Hsp). exists (c :: w).
    split; [simpl; by rewrite <- Hw | by constructor].
  - by exists [].
Qed.

Lemma lstrip_head s c s' : lstrip s = c :: s' → is_space c = false.
Proof.
  induction s as [|d s IH]; simpl; [discriminate|].
  destruct (is_space d) eqn:Hd; [exact IH|]. by intros [= <- _].
Qed.

Lemma lstrip_idemp s : lstrip (lstrip s) = lstrip s.
Proof.
  destruct (lstrip s) as [|c s'] eqn:E; [done|]. simpl.
  by rewrite (lstrip_head _ _ _ E).
Qed.

Lemma lstrip_app_nonspace a b c :
  Forall (λ d, is_space d = true) a → is_space c = false → lstrip (a ++ c :: b) = c :: b.
Proof. induction 1 as [|d a Hd _ IH]; simpl; [intros Hc; by rewrite Hc|]. by rewrite Hd. Qed.

Lemma rstrip_app_nonspace a b c :
  Forall (λ d, is_space d = true) b → is_space c = false → rstrip (a ++ c :: b) = a ++ [c].
Proof.
  intros Hb Hc. unfold rstrip.
  rewrite reverse_app, reverse_cons, <- app_assoc. simpl.
  rewrite lstrip_app_nonspace; [| by apply Forall_reverse | done].
  by rewrite reverse_cons, reverse_involutive.
Qed.

Lemma strip_infix s : infix (strip s) s.
Proof.
  unfold strip, rstrip.
  destruct (lstrip_suffix s) as (w & Hw & _).
  destruct (lstrip_suffix (reverse (lstrip s))) as (v & Hv & _).
  exists w, (reverse v).
  assert (lstrip s = reverse (lstrip (reverse (lstrip s))) ++ reverse v) as Hl.
  { rewrite <- reverse_app, <- Hv. by rewrite reverse_involutive. }
  rewrite Hw at 1. f_equal. exact Hl.
Qed.

Lemma length_strip s : length (strip s) ≤ length s.
Proof.
  destruct (strip_infix s) as (a & b & Hab).
  apply (f_equal length) in Hab. rewrite !length_app in Hab. lia.
Qed.

Abbreviation all_space w := (Forall (λ d, is_space d = true) w).

Lemma lstrip_app_spaces w x : all_space w → lstrip (w ++ x) = lstrip x.
Proof. induction 1 as [|d w Hd _ IH]; simpl; [done|]. by rewrite Hd. Qed.

Lemma rstrip_app_spaces w x : all_space w → rstrip (x ++ w) = rstrip x.
Proof.
  intros Hw. unfold rstrip. rewrite reverse_app, lstrip_app_spaces; [done|].
  by apply Forall_reverse.
Qed.

Lemma strip_app_spaces_l w x : all_space w → strip (w ++ x) = strip x.
Proof. intros Hw. unfold strip. by rewrite lstrip_app_spaces. Qed.

Lemma lstrip_app a v :
  (all_space a ∧ lstrip (a ++ v) = lstrip v) ∨ lstrip (a ++ v) = lstrip a ++ v.
Proof.
  induction a as [|c a IH]; simpl; [by left|].
  destruct (is_space c) eqn:Hc; [|by right].
  destruct IH as [[Ha ->]| ->]; [left; split; [by constructor|done]|by right].
Qed.

Lemma rstrip_app x b :
  (all_space b ∧ rstrip (x ++ b) = rstrip x) ∨ rstrip (x ++ b) = x ++ rstrip b.
Proof.
  unfold rstrip. rewrite reverse_app.
  destruct (lstrip_app (reverse b) (reverse x)) as [[Hb ->]| ->].
  - left. split; [|done]. rewrite <- (reverse_involutive b). by apply Forall_reverse.
  - right. by rewrite reverse_app, reverse_involutive.
Qed.

Lemma lstrip_nonspace c s : is_space c = false → lstrip (c :: s) = c :: s.
Proof. simpl. by intros ->. Qed.

Lemma rstrip_nonspace s c : is_space c = false → rstrip (s ++ [c]) = s ++ [c].
Proof. intros Hc. rewrite (rstrip_app_nonspace s [] c); done. Qed.

(** An occurrence that neither starts nor ends with whitespace survives
    [strip]. *)
Lemma infix_strip u z c d m :
  u = c :: m → is_space c = false → last u = Some d → is_space d = false →
  infix u z → infix u (strip z).
Proof.
  intros Hu Hc Hl Hd (a & b & ->). unfold strip.
  assert (∃ a', lstrip (a ++ u ++ b) = a' ++ u ++ b) as [a' ->].
  { destruct (lstrip_app a (u ++ b)) as [[_ ->]| ->]; [|by eexists].
    exists []. subst u. by rewrite <- app_comm_cons, lstrip_nonspace. }
  destruct (last_Some u d) as [Hl' _]. destruct (Hl' Hl) as [u' ->].
  rewrite app_assoc.
  destruct (rstrip_app (a' ++ u' ++ [d]) b) as [[_ ->]| ->].
  - rewrite app_assoc, rstrip_nonspace by done. rewrite <- app_assoc.
    exists a', []. by rewrite app_nil_r.
  - exists a', (rstrip b). by rewrite <- !app_assoc.
Qed.

Lemma join_cons sep p ps :
  join sep (p :: ps) = p ++ (match ps with [] => [] | _ => sep ++ join sep ps end).
Proof. destruct ps; simpl; [by rewrite app_nil_r | done]. Qed.

Lemma join_infix sep parts p : p ∈ parts → infix p (join sep parts).
Proof.
  induction parts as [|q ps IH]; [by intros ?%not_elem_of_nil|]. rewrite join_cons.
  intros [-> | Hp]%elem_of_cons; [by apply infix_app_r, infix_refl|].
  destruct ps; [by apply not_elem_of_nil in Hp|]. by apply infix_app_l, infix_app_l, IH.
Qed.

(** ** [str(int)]: the fuel is enough, and the digits read back

    [digits_go] is the loop [while True: acc.insert(0, n % 10); if n < 10:
    break; n //= 10] with fuel.  With at least as many steps as [n] has
    decimal digits it emits exactly those digits; more fuel changes
    nothing.  [S (N.size_nat n)] is such a bound, since [n < 2 ^ size n]. *)

(** The value of a string of decimal digits, as [int] reads it. *)
Definition decimal_value (ds : pystr) : N := fold_left (λ a c, a * 10 + (c - 48))%N ds 0%N.

(** [lia] does not see through [N.modulo] and [N.div] by a constant: name
    them first. *)
Ltac lia_div10 n :=
  generalize dependent (n mod 10)%N; generalize dependent (n / 10)%N; intros; lia.

Lemma pos_size_nat_bound p : (N.pos p < 2 ^ N.of_nat (Pos.size_nat p))%N.
Proof.
  induction p as [p IH|p IH|]; cbn [Pos.size_nat]; rewrite ?Nat2N.inj_succ, ?N.pow_succ_r';
    [| |done]; lia.
Qed.

Lemma size_nat_digits_bound n : (n < 10 ^ N.of_nat (S (N.size_nat n)))%N.
Proof.
  destruct n as [|p]; [done|]. cbn [N.size_nat].
  pose proof (pos_size_nat_bound p) as Hp.
  assert (2 ^ N.of_nat (Pos.size_nat p) ≤ 10 ^ N.of_nat (Pos.size_nat p))%N
    by (apply N.pow_le_mono_l; lia).
  rewrite Nat2N.inj_succ, N.pow_succ_r'. lia.
Qed.

Lemma digits_go_spec f n :
  f ≠ 0 → (n < 10 ^ N.of_nat f)%N →
  ∃ ds, ds ≠ [] ∧ Forall (λ c, is_digit c = true) ds ∧ decimal_value ds = n ∧
        ∀ f' acc, f ≤ f' → digits_go f' n acc = ds ++ acc.
Proof.
  revert n; induction f as [|f IH]; intros n Hf Hn; [done|].
  assert (Hd : is_digit (48 + n mod 10)%N = true).
  { unfold is_digit, in_range. pose proof (N.mod_lt n 10 ltac:(lia)). apply andb_true_iff.
    rewrite !N.leb_le. lia_div10 n. }
  destruct (N.ltb_spec n 10) as [Hlt|Hge].
  - exists [(48 + n mod 10)%N]. split_and!; [done | by constructor | |].
    + unfold decimal_value. cbn. rewrite N.mod_small by done. lia.
    + intros [|f'] acc Hf'; [lia|]. cbn [digits_go]. by rewrite (proj2 (N.ltb_lt n 10) Hlt).
  - destruct f as [|f]; [cbn in Hn; lia|].
    destruct (IH (n / 10)%N) as (ds & Hne & Hds & Hv & Hgo);
      [done | rewrite Nat2N.inj_succ, N.pow_succ_r' in Hn; apply N.div_lt_upper_bound; lia|].
    exists (ds ++ [(48 + n mod 10)%N]). split_and!.
    + by destruct ds.
    + apply Forall_app. by split; [|constructor].
    + unfold decimal_value in *. rewrite fold_left_app, Hv. cbn.
      pose proof (N.div_mod' n 10). lia_div10 n.
    + intros [|f'] acc Hf'; [lia|]. cbn [digits_go]. rewrite (proj2 (N.ltb_ge n 10) Hge).
      rewrite Hgo by lia. by rewrite <- app_assoc.
Qed.

Lemma show_N_spec n :
  show_N n ≠ [] ∧ Forall (λ c, is_digit c = true) (show_N n) ∧ decimal_value (show_N n) = n ∧
  ∀ f acc, S (N.size_nat n) ≤ f → digits_go f n acc = show_N n ++ acc.
Proof.
  destruct (digits_go_spec (S (N.size_nat n)) n ltac:(done) (size_nat_digits_bound n))
    as (ds & Hne & Hds & Hv & Hgo).
  unfold show_N. rewrite Hgo, app_nil_r by done. split_and!; try done.
Qed.

