(* ===== verification/PyVal.v ===== *)
(** * Python values: the data that JSON parsing and Firestore hand the code

    [pyval] is the fragment of Python values that [json.loads],
    [request.get_json] and Firestore's [DocumentSnapshot.to_dict] produce:
    [None], booleans, integers, floats, strings, lists and dicts with string
    keys (in insertion order, which Python preserves and the code observes
    through [dict.values()]).  A float is represented by the three things
    the code observes of it: [str(x)], its truth value and [int(x)]
    ([None] when [int] raises, for infinities and NaN).

    Exceptions are the constructors of [exn]; [py A] is a computation that
    returns an [A] or raises.  The Python operations used by the source are
    defined here: truthiness and [or], [isinstance] tests, [d.get(k)],
    [str(x)] (through [repr] for non-strings) and [int(x)]. *)

From S2P Require Import Prelude PyStr.

Record pyfloat := { fl_repr : pystr; fl_nonzero : bool; fl_int : option Z }.

#[warnings="-register-all"]
Inductive pyval : Type :=
| PNone
| PBool (b : bool)
| PInt (z : Z)
| PFloat (f : pyfloat)
| PStr (s : pystr)
| PList (l : list pyval)
| PDict (d : list (pystr * pyval)).

Abbreviation pydict := (list (pystr * pyval)).

Inductive exn : Type :=
| AttributeError
| TypeError
| ValueError
| LookupError
| RuntimeError (msg : pystr)
| StoreError.

Abbreviation py A := (result exn A).

(** ** Truth values, [or], [isinstance] *)

Definition truthy (v : pyval) : bool :=
  match v with
  | PNone => false
  | PBool b => b
  | PInt z => negb (Z.eqb z 0)
  | PFloat f => fl_nonzero f
  | PStr s => negb (bool_decide (s = []))
  | PList l => negb (bool_decide (l = []))
  | PDict d => negb (bool_decide (d = []))
  end.

(** [x or y] *)
Definition py_or (x y : pyval) : pyval := if truthy x then x else y.

Definition as_str (v : pyval) : option pystr :=
  match v with PStr s => Some s | _ => None end.
Definition as_list (v : pyval) : option (list pyval) :=
  match v with PList l => Some l | _ => None end.
Definition as_dict (v : pyval) : option pydict :=
  match v with PDict d => Some d | _ => None end.

(** ** Dictionaries *)

Fixpoint assoc_get (d : pydict) (k : pystr) : option pyval :=
  match d with
  | [] => None
  | (k', v) :: d' => if decide (k = k') then Some v else assoc_get d' k
  end.

(** [k in d] *)
Definition has_key (d : pydict) (k : pystr) : bool := bool_decide (is_Some (assoc_get d k)).

(** [d.get(k)] on a dict *)
Definition dict_get (d : pydict) (k : pystr) : pyval := default PNone (assoc_get d k).

(** [v.get(k)] on any value: raises [AttributeError] unless [v] is a dict. *)
Definition get (v : pyval) (k : pystr) : py pyval :=
  match v with PDict d => Ok (dict_get d k) | _ => Err AttributeError end.

(** [for x in v]: a list's items, a dict's keys, a string's characters;
    any other value raises [TypeError]. *)
Definition py_iter (v : pyval) : py (list pyval) :=
  match v with
  | PList l => Ok l
  | PDict d => Ok (map (λ kv, PStr kv.1) d)
  | PStr s => Ok (map (λ c, PStr [c]) s)
  | _ => Err TypeError
  end.

(** [v == "s"] *)
Definition is_str_eq (v : pyval) (s : pystr) : bool :=
  match v with PStr t => bool_decide (t = s) | _ => false end.

(** [v[-n:]] *)
Definition last_n {A} (n : nat) (l : list A) : list A := drop (length l - n) l.

(** A value read field by field as a dict, [b.get(field)]: the view the
    validator has of a catalog record, which the catalog implements. *)
Class RecordView (B : Type) := record_get : B → pystr → pyval.

(** ** [repr] and [str] *)

Fixpoint py_repr (v : pyval) : pystr :=
  match v with
  | PNone => lit "None"
  | PBool true => lit "True"
  | PBool false => lit "False"
  | PInt z => show_Z z
  | PFloat f => fl_repr f
  | PStr s => repr_str s
  | PList l => lit "[" ++ join (lit ", ") (map py_repr l) ++ lit "]"
  | PDict d =>
      lit "{" ++ join (lit ", ")
        (map (λ kv, let '(k, x) := kv in repr_str k ++ lit ": " ++ py_repr x) d)
      ++ lit "}"
  end.

Definition py_str (v : pyval) : pystr :=
  match v with PStr s => s | _ => py_repr v end.

(** ** [int(x)] *)

(** Decimal digits with single underscores between digits, as [int]
    accepts them; [prev] records that the previous character was a digit. *)
Fixpoint digits_val (acc : N) (prev : bool) (s : pystr) : option N :=
  match s with
  | [] => if prev then Some acc else None
  | c :: s' =>
      if is_digit c then digits_val (acc * 10 + (c - 48))%N true s'
      else if (c =? 95)%N && prev then digits_val acc false s'
      else None
  end.

Definition int_of_str (s : pystr) : option Z :=
  match strip s with
  | c :: r =>
      if (c =? 45)%N then (λ n, (- Z.of_N n)%Z) <$> digits_val 0 false r
      else if (c =? 43)%N then Z.of_N <$> digits_val 0 false r
      else Z.of_N <$> digits_val 0 false (c :: r)
  | [] => None
  end.

Definition py_int (v : pyval) : py Z :=
  match v with
  | PInt z => Ok z
  | PBool b => Ok (if b then 1 else 0)%Z
  | PFloat f => match fl_int f with Some z => Ok z | None => Err ValueError end
  | PStr s => match int_of_str s with Some z => Ok z | None => Err ValueError end
  | PNone | PList _ | PDict _ => Err TypeError
  end.

