(* ===== verification/Regex.v ===== *)
(** * [re.sub] as the source uses it

    Every regular expression of the source is either a character-class run
    ([[^a-z0-9]+], [\s+], [\n{3,}]) or a line-anchored prefix pattern
    ([(?m)^\s*#{1,6}\s*] and the like).  For each the development gives a
    [matcher]: the length of the match Python's engine finds at a position,
    if any.  [re_sub] is the scan of [re.sub]: from left to right, at each
    position where the pattern matches (and, for a [(?m)^] pattern, where
    the position is the start of the string or follows a newline in the
    original string) the match is replaced and the scan resumes after it.

    [re_sub_run_collapse] shows that the scan with a class-run matcher is the
    one-pass run collapsing [collapse_go], which the proofs use. *)

From S2P Require Import Prelude PyStr.

Definition matcher := pystr → option nat.

Fixpoint re_sub_go (anch : bool) (m : matcher) (rep : pystr)
    (skip : nat) (bol : bool) (s : pystr) : pystr :=
  match s with
  | [] => []
  | c :: s' =>
      match skip with
      | S k => re_sub_go anch m rep k (c =? 10)%N s'
      | O =>
          match (if anch && negb bol then None else m s) with
          | Some (S k) => rep ++ re_sub_go anch m rep k (c =? 10)%N s'
          | _ => c :: re_sub_go anch m rep 0 (c =? 10)%N s'
          end
      end
  end.

(** [re.sub(pattern, rep, s)]; [anch] is set for [(?m)^] patterns. *)
Definition re_sub (anch : bool) (m : matcher) (rep s : pystr) : pystr :=
  re_sub_go anch m rep 0 true s.

(** The longest prefix of characters in a class, and the rest. *)
Fixpoint span (p : N → bool) (s : pystr) : pystr * pystr :=
  match s with
  | c :: s' => if p c then let '(a, b) := span p s' in (c :: a, b) else ([], s)
  | [] => ([], [])
  end.

Definition run_len (p : N → bool) (s : pystr) : nat := length (span p s).1.

(** [[class]+] *)
Definition m_run (p : N → bool) : matcher :=
  λ s, match run_len p s with O => None | n => Some n end.

(** ** Reference: collapsing maximal runs in one pass *)

Fixpoint collapse_go (p : N → bool) (rep : pystr) (in_run : bool) (s : pystr) : pystr :=
  match s with
  | [] => []
  | c :: s' =>
      if p c then (if in_run then [] else rep) ++ collapse_go p rep true s'
      else c :: collapse_go p rep false s'
  end.

Section span_lemmas.
Context (p : N → bool).

Lemma span_app s : (span p s).1 ++ (span p s).2 = s.
Proof.
  induction s as [|c s IH]; simpl; [done|].
  destruct (p c); [|done]. destruct (span p s). simpl in *. by f_equal.
Qed.

Lemma span_fst_Forall s : Forall (λ c, p c = true) (span p s).1.
Proof.
  induction s as [|c s IH]; simpl; [constructor|].
  destruct (p c) eqn:Hc; [|constructor]. destruct (span p s). simpl in *. by constructor.
Qed.

Lemma span_snd_head s c s' : (span p s).2 = c :: s' → p c = false.
Proof.
  induction s as [|d s IH]; simpl; [discriminate|].
  destruct (p d) eqn:Hd; [|by intros [= <- _]].
  destruct (span p s). simpl in *. exact IH.
Qed.

Lemma run_len_cons c s :
  run_len p (c :: s) = if p c then S (run_len p s) else O.
Proof.
  unfold run_len; simpl. destruct (p c); [|done]. by destruct (span p s).
Qed.
End span_lemmas.

Section re_sub_run.
Context (p : N → bool) (rep : pystr).

Lemma re_sub_go_run_collapse s :
  (∀ b, re_sub_go false (m_run p) rep (run_len p s) b s = collapse_go p rep true s) ∧
  (∀ b, re_sub_go false (m_run p) rep 0 b s = collapse_go p rep false s).
Proof.
  induction s as [|c s [IH1 IH2]]; [split; intros; simpl; by destruct (run_len p [])|].
  rewrite run_len_cons. simpl. unfold m_run. rewrite run_len_cons.
  destruct (p c); simpl; split; intros b; by rewrite ?IH1, ?IH2.
Qed.

Theorem re_sub_run_collapse s :
  re_sub false (m_run p) rep s = collapse_go p rep false s.
Proof. apply re_sub_go_run_collapse. Qed.
End re_sub_run.

(** ** Skipping over a match *)

(** One step of an unanchored scan at a position it does not skip. *)
Lemma re_sub_go_step m rep b c s :
  re_sub_go false m rep 0 b (c :: s) =
  match m (c :: s) with
  | Some (S k) => rep ++ re_sub_go false m rep k (c =? 10)%N s
  | _ => c :: re_sub_go false m rep 0 (c =? 10)%N s
  end.
Proof. reflexivity. Qed.

(** An unanchored pattern ignores the beginning-of-line flag. *)
Lemma re_sub_go_bol m rep k b b' s : re_sub_go false m rep k b s = re_sub_go false m rep k b' s.
Proof. by destruct s, k. Qed.

(** After a match of length [length l + 1] the scan resumes right after it. *)
Lemma re_sub_go_skip anch m rep l t b :
  ∃ b', re_sub_go anch m rep (length l) b (l ++ t) = re_sub_go anch m rep 0 b' t.
Proof.
  revert b; induction l as [|c l IH]; intros b; [by exists b|]. apply IH.
Qed.
