(* ===== verification/Text.v ===== *)
(** * [_normalize_text] (atlas_chat.py, lines 50-58)

    Lower-case, replace every run of characters outside [[a-z0-9]] by one
    space, collapse whitespace runs, strip.  Every call site passes a [str],
    on which [str(s or "")] is the identity, so the model takes a [pystr].

    The lemmas characterise the result as the one-pass collapse
    ([normalize_alt]) and show that normalising a substring yields a
    substring of the normalised whole ([normalize_infix]): the fact behind
    the validator's title check.  [normalize_text_words] proves the three
    passes equal to the reference [normalize_ref]: the words (maximal
    [[a-z0-9]] runs) of the lower-cased text joined by single spaces. *)

From S2P Require Import Prelude PyStr Regex.

(** The class [[a-z0-9]]. *)
Definition is_word (c : N) : bool := in_range 97 122 c || is_digit c.

Definition is_sep (c : N) : bool := negb (is_word c).

Definition _normalize_text (s : pystr) : pystr :=
  let txt := lower (strip s) in
  let txt := re_sub false (m_run is_sep) [32%N] txt in
  strip (re_sub false (m_run is_space) [32%N] txt).

(** ** Character facts *)

Lemma space_is_sep c : is_space c = true → is_sep c = true.
Proof.
  unfold is_sep, is_word, is_space, is_digit, in_range.
  rewrite !orb_true_iff, !andb_true_iff, !N.leb_le, !N.eqb_eq.
  intros H. apply negb_true_iff, not_true_iff_false.
  rewrite !orb_true_iff, !andb_true_iff, !N.leb_le. lia.
Qed.

Lemma lower_char_space c : is_space c = true → lower_char c = [c].
Proof.
  unfold lower_char, is_space, in_range.
  rewrite !orb_true_iff, !andb_true_iff, !N.leb_le, !N.eqb_eq. intros H.
  repeat match goal with
  | |- context [if ?b then _ else _] => destruct b eqn:?
  end; try done;
  repeat match goal with
  | H : _ = true |- _ => rewrite ?orb_true_iff, ?andb_true_iff, ?N.leb_le, ?N.eqb_eq in H
  end; lia.
Qed.

Lemma lower_app x y : lower (x ++ y) = lower x ++ lower y.
Proof. apply bind_app. Qed.

Lemma lower_spaces w : all_space w → lower w = w.
Proof.
  induction 1 as [|c w Hc _ IH]; [done|].
  change (lower (c :: w)) with (lower_char c ++ lower w). by rewrite lower_char_space, IH.
Qed.

(** ** The one-pass collapse *)

Definition run_state (p : N → bool) (b : bool) (x : pystr) : bool :=
  match last x with Some c => p c | None => b end.

Lemma run_state_cons p b c x : run_state p b (c :: x) = run_state p (p c) x.
Proof.
  unfold run_state. destruct x as [|n x]; simpl; [done|].
  destruct (last (n :: x)) eqn:E; [done|]. by apply last_None in E.
Qed.

Lemma collapse_go_app p rep b x y :
  collapse_go p rep b (x ++ y) =
  collapse_go p rep b x ++ collapse_go p rep (run_state p b x) y.
Proof.
  revert b; induction x as [|c x IH]; intros b; [done|]. simpl.
  rewrite run_state_cons. destruct (p c); rewrite IH; [by rewrite app_assoc | done].
Qed.

(** After the [[^a-z0-9]+] pass, the [\s+] pass changes nothing. *)
Lemma collapse_space_id b y :
  collapse_go is_space [32%N] b (collapse_go is_sep [32%N] b y) = collapse_go is_sep [32%N] b y.
Proof.
  revert b; induction y as [|c y IH]; intros b; [done|]. simpl.
  destruct (is_sep c) eqn:Hc.
  - destruct b; simpl; [apply IH|]. by rewrite IH.
  - simpl. destruct (is_space c) eqn:Hs; [by rewrite space_is_sep in Hc|].
    by rewrite IH.
Qed.

Lemma normalize_collapse s :
  _normalize_text s = strip (collapse_go is_sep [32%N] false (lower (strip s))).
Proof.
  unfold _normalize_text. rewrite !re_sub_run_collapse. by rewrite collapse_space_id.
Qed.

(** ** [strip] around the collapse *)

Lemma lstrip_spaces w : all_space w → lstrip w = [].
Proof. intros Hw. rewrite <- (app_nil_r w). by rewrite lstrip_app_spaces. Qed.

Lemma strip_app_spaces_r x w : all_space w → strip (x ++ w) = strip x.
Proof.
  intros Hw. unfold strip.
  destruct (lstrip_app x w) as [[Hx ->] | ->].
  - by rewrite !lstrip_spaces.
  - by apply rstrip_app_spaces.
Qed.

Lemma strip_decomp s : ∃ w1 w2, all_space w1 ∧ all_space w2 ∧ s = w1 ++ strip s ++ w2.
Proof.
  destruct (lstrip_suffix s) as (w1 & Hw1 & Hs1).
  destruct (lstrip_suffix (reverse (lstrip s))) as (v & Hv & Hsv).
  exists w1, (reverse v). split; [done|]. split; [by apply Forall_reverse|].
  rewrite Hw1 at 1. f_equal. unfold strip, rstrip.
  rewrite <- reverse_app, <- Hv. by rewrite reverse_involutive.
Qed.

Lemma collapse_seps_in_run w :
  Forall (λ c, is_sep c = true) w → collapse_go is_sep [32%N] true w = [].
Proof. induction 1 as [|c w Hc _ IH]; simpl; [done|]. by rewrite Hc. Qed.

Lemma collapse_seps b w :
  Forall (λ c, is_sep c = true) w →
  collapse_go is_sep [32%N] b w = [] ∨ collapse_go is_sep [32%N] b w = [32%N].
Proof.
  intros Hw. destruct b; [left; by apply collapse_seps_in_run|].
  destruct Hw as [|c w Hc Hw]; simpl; [by left|]. rewrite Hc. right.
  by rewrite collapse_seps_in_run.
Qed.

Lemma all_space_seps w : all_space w → Forall (λ c, is_sep c = true) w.
Proof. intros Hw. eapply Forall_impl; [exact Hw|]. intros c. apply space_is_sep. Qed.

Lemma space32 : all_space [32%N].
Proof. by repeat constructor. Qed.

Lemma collapse_seps_space b w :
  all_space w → all_space (collapse_go is_sep [32%N] b w).
Proof.
  intros Hw. destruct (collapse_seps b w) as [-> | ->];
    [by apply all_space_seps | constructor | apply space32].
Qed.

Lemma strip_collapse_flag b m :
  strip (collapse_go is_sep [32%N] b m) = strip (collapse_go is_sep [32%N] false m).
Proof.
  destruct b; [|done]. destruct m as [|c m]; [done|]. simpl.
  destruct (is_sep c); [|done]. simpl. symmetry. apply (strip_app_spaces_l [32%N]), space32.
Qed.

Lemma strip_around w1 x w2 : all_space w1 → all_space w2 → strip (w1 ++ x ++ w2) = strip x.
Proof. intros. by rewrite strip_app_spaces_l, strip_app_spaces_r. Qed.

(** [_normalize_text] needs no initial [strip]. *)
Lemma normalize_alt s :
  _normalize_text s = strip (collapse_go is_sep [32%N] false (lower s)).
Proof.
  rewrite normalize_collapse.
  destruct (strip_decomp s) as (w1 & w2 & H1 & H2 & Hs).
  rewrite Hs at 2. rewrite !lower_app, (lower_spaces w1 H1), (lower_spaces w2 H2).
  rewrite !collapse_go_app, strip_around by (by apply collapse_seps_space).
  symmetry. apply strip_collapse_flag.
Qed.

Lemma rstrip_prefix x : ∃ w, x = rstrip x ++ w.
Proof.
  destruct (lstrip_suffix (reverse x)) as (v & Hv & _). exists (reverse v).
  unfold rstrip. rewrite <- reverse_app, <- Hv. by rewrite reverse_involutive.
Qed.

Lemma strip_head s c m : strip s = c :: m → is_space c = false.
Proof.
  unfold strip. intros H. destruct (rstrip_prefix (lstrip s)) as [w Hw].
  rewrite H in Hw. simpl in Hw. by eapply lstrip_head.
Qed.

Lemma strip_last s d : last (strip s) = Some d → is_space d = false.
Proof.
  unfold strip, rstrip. rewrite last_reverse.
  destruct (lstrip (reverse (lstrip s))) as [|c r] eqn:E; simpl; [discriminate|].
  intros [= <-]. by eapply lstrip_head.
Qed.

(** Normalising a substring gives a substring of the normalised whole. *)
Lemma normalize_infix pre t post :
  infix (_normalize_text t) (_normalize_text (pre ++ t ++ post)).
Proof.
  rewrite !normalize_alt, !lower_app, !collapse_go_app.
  rewrite <- (strip_collapse_flag (run_state is_sep false (lower pre)) (lower t)).
  destruct (strip (collapse_go is_sep [32%N] (run_state is_sep false (lower pre)) (lower t)))
    as [|c m] eqn:Hu; [apply infix_nil|].
  destruct (last (c :: m)) as [d|] eqn:Hl; [|by rewrite last_cons in Hl; destruct (last m)].
  eapply infix_strip; [done | by eapply strip_head | done | by eapply strip_last; rewrite Hu |].
  rewrite <- Hu. eapply infix_trans; [apply strip_infix|].
  apply infix_app_l, infix_app_r, infix_refl.
Qed.

Lemma length_rstrip s : length (rstrip s) ≤ length s.
Proof. destruct (rstrip_prefix s) as [w Hw]. rewrite Hw at 2. rewrite length_app. lia. Qed.

Lemma rstrip_idemp s : rstrip (rstrip s) = rstrip s.
Proof. unfold rstrip. by rewrite reverse_involutive, lstrip_idemp. Qed.

Lemma strip_idemp s : strip (strip s) = strip s.
Proof.
  unfold strip. assert (lstrip (rstrip (lstrip s)) = rstrip (lstrip s)) as ->.
  { destruct (rstrip (lstrip s)) as [|c m] eqn:E; [done|].
    destruct (rstrip_prefix (lstrip s)) as [w Hw]. rewrite E in Hw.
    rewrite lstrip_nonspace; [done|]. by eapply lstrip_head. }
  apply rstrip_idemp.
Qed.

Lemma normalize_strip s : _normalize_text (strip s) = _normalize_text s.
Proof. by rewrite !normalize_collapse, strip_idemp. Qed.

Lemma normalize_mono u v : infix u v → infix (_normalize_text u) (_normalize_text v).
Proof. intros (a & b & ->). apply normalize_infix. Qed.

(** ** The reference: [" ".join(re.findall(r"[a-z0-9]+", s.lower()))]

    The three passes of [_normalize_text] (strip, collapse separator runs,
    collapse whitespace runs, strip) compute the words of the lower-cased
    text joined by single spaces. *)

Definition words (s : pystr) : list pystr := filter (λ w, w ≠ []) (split_on is_sep s).

Definition normalize_ref (s : pystr) : pystr := join [32%N] (words (lower s)).

Lemma word_nonspace c : is_sep c = false → is_space c = false.
Proof. intros Hc. destruct (is_space c) eqn:Hs; [|done]. by rewrite space_is_sep in Hc. Qed.

Lemma rstrip_nil y : rstrip y = [] → all_space y.
Proof.
  unfold rstrip. intros Hy. apply (f_equal reverse) in Hy.
  rewrite reverse_involutive in Hy. destruct (lstrip_suffix (reverse y)) as (w & Hw & Hsp).
  rewrite Hy, app_nil_r in Hw. rewrite <- (reverse_involutive y), Hw. by apply Forall_reverse.
Qed.

Lemma rstrip_all_space y : all_space y → rstrip y = [].
Proof. intros Hy. by rewrite <- (app_nil_l y), rstrip_app_spaces. Qed.

Lemma rstrip_cons_nonspace c z : is_space c = false → rstrip (c :: z) = c :: rstrip z.
Proof.
  intros Hc. destruct (rstrip_app [c] z) as [[Hz Hr] | Hr]; simpl in Hr; [|done].
  rewrite Hr, (rstrip_all_space z) by done. exact (rstrip_nonspace [] c Hc).
Qed.

Lemma rstrip_space_cons y :
  rstrip (32%N :: y) = match rstrip y with [] => [] | r => 32%N :: r end.
Proof.
  destruct (rstrip y) as [|r rs] eqn:Hy.
  - apply rstrip_all_space. constructor; [done|]. by apply rstrip_nil.
  - destruct (rstrip_app [32%N] y) as [[Hsp _] | Hr]; [|by cbn [app] in Hr; rewrite Hr, Hy].
    by rewrite rstrip_all_space in Hy.
Qed.

Lemma collapse_run_lstrip x :
  lstrip (collapse_go is_sep [32%N] true x) = collapse_go is_sep [32%N] true x.
Proof.
  induction x as [|c x IH]; [done|]. simpl. destruct (is_sep c) eqn:Hc; [exact IH|].
  by apply lstrip_nonspace, word_nonspace.
Qed.

Lemma split_on_cons_word (p : N → bool) c x :
  p c = false →
  split_on p (c :: x) = match split_on p x with w :: ws => (c :: w) :: ws | [] => [[c]] end.
Proof. intros Hc. simpl. by rewrite Hc. Qed.

Lemma split_on_word (p : N → bool) c x :
  p c = false → ∃ w ws, split_on p (c :: x) = (c :: w) :: ws.
Proof. intros Hc. simpl. rewrite Hc. destruct (split_on p x); eauto. Qed.

Lemma words_sep c x : is_sep c = true → words (c :: x) = words x.
Proof. intros Hc. unfold words. cbn [split_on]. rewrite Hc, filter_cons_False; [done|]. by intros []. Qed.

Lemma strip_collapse_words b x :
  strip (collapse_go is_sep [32%N] b x) = join [32%N] (words x).
Proof.
  revert b; induction x as [|c x IH]; intros b; [done|].
  destruct (is_sep c) eqn:Hc.
  - rewrite words_sep by done. simpl. rewrite Hc, <- (IH true).
    destruct b; [done|]. apply (strip_app_spaces_l [32%N]), space32.
  - simpl. rewrite Hc. unfold strip. rewrite lstrip_nonspace, rstrip_cons_nonspace
      by (by apply word_nonspace).
    destruct x as [|d x].
    { unfold words. cbn [split_on]. rewrite Hc, filter_cons_True by done. done. }
    cbn [collapse_go]. destruct (is_sep d) eqn:Hd.
    + specialize (IH true). cbn [collapse_go app] in IH. rewrite Hd, words_sep in IH by done.
      unfold strip in IH. rewrite collapse_run_lstrip in IH.
      cbn [app]. rewrite rstrip_space_cons, IH.
      unfold words. cbn [split_on]. rewrite Hc, Hd, filter_cons_True by done.
      change (filter (λ w, w ≠ []) (split_on is_sep x)) with (words x).
      destruct (words x) as [|w ws] eqn:Hw; [done|].
      assert (w ≠ []) as Hne.
      { assert (w ∈ words x) as Hin by (rewrite Hw; constructor).
        unfold words in Hin. apply list_elem_of_filter in Hin. by destruct Hin. }
      destruct w as [|n w]; [done|]. by rewrite !join_cons.
    + specialize (IH b). cbn [collapse_go] in IH. rewrite Hd in IH. unfold strip in IH.
      rewrite lstrip_nonspace in IH by (by apply word_nonspace). rewrite IH.
      destruct (split_on_word is_sep d x Hd) as (w & ws & Hs).
      unfold words. rewrite (split_on_cons_word is_sep c), Hs, !filter_cons_True by done.
      by rewrite !join_cons.
Qed.

(** [C31]: [_normalize_text] computes the reference: the maximal runs of
    [[a-z0-9]] characters of the lower-cased text, joined by single
    spaces. *)
Theorem normalize_text_words s : _normalize_text s = normalize_ref s.
Proof. unfold normalize_ref. rewrite normalize_alt. apply strip_collapse_words. Qed.
