(* ===== verification/Intent.v ===== *)
(** * Intent classifier: [_user_wants_single] (atlas_chat.py, lines 277-291)

    A substring heuristic over the normalised user text.  The abstract
    specification [wants_single_spec] lists the triggers as data (substring
    triggers and prefix triggers); [wants_single_refines] shows the code's
    chain of tests decides exactly that specification. *)

From S2P Require Import Prelude PyStr Regex Text.

Definition _user_wants_single (user_text : pystr) : bool :=
  let q := _normalize_text user_text in
  if bool_decide (q = []) then false
  else if contains (lit "top rec") q || contains (lit "top recommendation") q then true
  else if contains (lit "just one") q || contains (lit "only one") q
          || contains (lit "one book") q then true
  else if contains (lit "one recommendation") q || contains (lit "one rec") q then true
  else if contains (lit "single recommendation") q || contains (lit "single rec") q then true
  else if starts_with (lit "give me a book") q || starts_with (lit "recommend a book") q then true
  else false.

(** ** Specification *)

Definition substring_triggers : list pystr :=
  [lit "top rec"; lit "top recommendation"; lit "just one"; lit "only one";
   lit "one book"; lit "one recommendation"; lit "one rec";
   lit "single recommendation"; lit "single rec"].

Definition prefix_triggers : list pystr := [lit "give me a book"; lit "recommend a book"].

Definition wants_single_spec (q : pystr) : Prop :=
  (∃ t, t ∈ substring_triggers ∧ infix t q) ∨ (∃ t, t ∈ prefix_triggers ∧ t `prefix_of` q).

Lemma triggers_nonempty t : t ∈ substring_triggers ++ prefix_triggers → t ≠ [].
Proof.
  intros Ht. apply list_elem_of_In in Ht.
  repeat (destruct Ht as [<- | Ht]; [by vm_compute|]). destruct Ht.
Qed.

Lemma user_wants_single_bool s :
  _user_wants_single s =
  let q := _normalize_text s in
  negb (bool_decide (q = []))
  && (existsb (λ t, contains t q) substring_triggers
      || existsb (λ t, starts_with t q) prefix_triggers).
Proof.
  unfold _user_wants_single. cbn zeta. generalize (_normalize_text s) as q. intros q.
  case_bool_decide; [done|].
  cbn [existsb orb andb negb substring_triggers prefix_triggers].
  repeat match goal with
  | |- context [contains ?t q] => destruct (contains t q); cbn [orb]
  | |- context [starts_with ?t q] => destruct (starts_with t q); cbn [orb]
  end; done.
Qed.

(** [C4]: the code's chain of tests decides the trigger specification. *)
Theorem wants_single_refines s :
  _user_wants_single s = true ↔ wants_single_spec (_normalize_text s).
Proof.
  rewrite user_wants_single_bool. cbn zeta. generalize (_normalize_text s) as q. intros q.
  unfold wants_single_spec.
  rewrite andb_true_iff, negb_true_iff, bool_decide_eq_false, orb_true_iff, !existsb_exists.
  setoid_rewrite contains_spec. setoid_rewrite starts_with_spec.
  setoid_rewrite list_elem_of_In. split; [tauto|].
  intros Hspec. split; [|tauto]. intros ->.
  destruct Hspec as [(t & Ht & (a & b & Hab)) | (t & Ht & (k & Hk))].
  - symmetry in Hab. apply app_nil in Hab as [_ [Ht0 _]%app_nil].
    apply (triggers_nonempty t); [apply list_elem_of_In; apply in_or_app; by left | done].
  - symmetry in Hk. apply app_nil in Hk as [Ht0 _].
    apply (triggers_nonempty t); [apply list_elem_of_In; apply in_or_app; by right | done].
Qed.
