(* ===== verification/Geo.v ===== *)
(** * Geo normalizer (atlas_chat.py, lines 61-145)

    [_country_string_to_iso2], [_extract_iso2_candidates] and
    [_iso2_to_country_name].  The optional [pycountry] module is a section
    variable [pycountry : option pycountry_db]: [None] when the import failed,
    otherwise the three operations the code calls on [pycountry.countries],
    each of which may raise (the code catches every exception they raise).
    The class [CountryTableWF] states what the code expects of the table:
    every country it returns has a two-letter upper-case ASCII [alpha_2].

    The theorems: the candidate extraction is the de-duplication of the
    conversions of the values it probes ([extract_iso2_collect]), so it has
    no duplicates; on ASCII input every code it returns is an ISO2 code; and
    two departures from the specification: a two-letter alphabetic string
    is upper-cased without checking the result ("ßa" gives "SSA"), and the
    free-text lookup is given the raw string, not the one with [_]/[-]
    normalised to spaces. *)

From S2P Require Import Prelude PyStr PyVal.

(** A [pycountry] country: the attributes the code reads. *)
Record country := { alpha_2 : pystr; alpha_3 : pystr; name : pystr }.

(** [pycountry.countries.get(alpha_3=...)], [.get(alpha_2=...)] and
    [.lookup(...)]: [get] answers [None] on a miss, [lookup] raises. *)
Record pycountry_db := {
  countries_get_alpha_3 : pystr → py (option country);
  countries_get_alpha_2 : pystr → py (option country);
  countries_lookup : pystr → py country
}.

(** An ISO2 code: two upper-case ASCII letters. *)
Definition iso2_b (s : pystr) : bool := (length s =? 2) && forallb is_ascii_upper s.

Abbreviation is_iso2 s := (iso2_b s = true).

Definition is_ascii (s : pystr) : bool := forallb (λ c, (c <? 128)%N) s.

Class CountryTableWF (db : pycountry_db) := {
  get_alpha_3_wf t c : countries_get_alpha_3 db t = Ok (Some c) → is_iso2 (alpha_2 c);
  lookup_wf t c : countries_lookup db t = Ok c → is_iso2 (alpha_2 c)
}.

(** The separators of [re.split(r"[,;|/]", val)]. *)
Definition is_list_sep (c : N) : bool :=
  (c =? 44)%N || (c =? 59)%N || (c =? 124)%N || (c =? 47)%N.

(** The keys probed first in a dict value. *)
Definition probe_keys : list pystr :=
  [lit "iso2"; lit "code"; lit "country"; lit "value"; lit "name"].

Section geo.
Context (pycountry : option pycountry_db).

(** [try: c = ...; if c and getattr(c, "alpha_2", None): return
    str(c.alpha_2).upper() except Exception: pass] *)
Definition alpha_2_of (r : py (option country)) : option pystr :=
  match r with
  | Ok (Some c) => if nonempty (alpha_2 c) then Some (upper (alpha_2 c)) else None
  | _ => None
  end.

(** [t.replace("_", " ").replace("-", " ").strip()] after [raw.strip()] *)
Definition normalize_country_text (raw : pystr) : pystr :=
  strip (replace_char 45 32 (replace_char 95 32 (strip raw))).

(** From [if not raw: return None] on, for [raw = str(val).strip()]. *)
Definition country_text_to_iso2 (raw : pystr) : option pystr :=
  if negb (nonempty raw) then None else
  let t := normalize_country_text raw in
  if (length t =? 2) && isalpha t then Some (upper t) else
  let by_alpha_3 :=
    match pycountry with
    | Some db =>
        if (length t =? 3) && isalpha t
        then alpha_2_of (countries_get_alpha_3 db (upper t)) else None
    | None => None
    end in
  match by_alpha_3 with
  | Some c => Some c
  | None =>
      match pycountry with
      | Some db => alpha_2_of (Some <$> countries_lookup db raw)
      | None => None
      end
  end.

Definition _country_string_to_iso2 (val : pyval) : option pystr :=
  match val with
  | PNone => None
  | _ => country_text_to_iso2 (strip (py_str val))
  end.

(** The nested [_add]: append the conversion when it is truthy. *)
Definition _add (out : list pystr) (x : pyval) : list pystr :=
  match _country_string_to_iso2 x with
  | Some iso2 => if nonempty iso2 then out ++ [iso2] else out
  | None => out
  end.

(** [for v in val.values(): if str: _add(v) elif list: for vv in v: _add(vv)] *)
Definition add_value (out : list pystr) (v : pyval) : list pystr :=
  match v with
  | PStr _ => _add out v
  | PList vs => fold_left _add vs out
  | _ => out
  end.

Definition _extract_iso2_candidates (val : pyval) : list pystr :=
  let out :=
    match val with
    | PDict d =>
        let out := fold_left (λ out key, if has_key d key then _add out (dict_get d key) else out)
                     probe_keys [] in
        fold_left add_value (map snd d) out
    | PList items => fold_left _add items []
    | PStr s => fold_left _add (map PStr (filter nonempty (map strip (split_on is_list_sep s)))) []
    | _ => _add [] val
    end in
  uniq_first out.

Definition _iso2_to_country_name (iso2 : pystr) : pystr :=
  let code := upper (strip iso2) in
  if negb ((length code =? 2) && isalpha code) then [] else
  match pycountry with
  | Some db =>
      match countries_get_alpha_2 db code with
      | Ok (Some c) => if nonempty (name c) then name c else code
      | _ => code
      end
  | None => code
  end.

(** ** The values the extraction probes, in order *)

Definition value_probes (v : pyval) : list pyval :=
  match v with PStr _ => [v] | PList vs => vs | _ => [] end.

Definition probes (val : pyval) : list pyval :=
  match val with
  | PDict d =>
      omap (λ key, if has_key d key then Some (dict_get d key) else None) probe_keys
      ++ (map snd d ≫= value_probes)
  | PList items => items
  | PStr s => map PStr (filter nonempty (map strip (split_on is_list_sep s)))
  | _ => [val]
  end.

(** The truthy conversion [_add] appends. *)
Definition to_iso2_truthy (x : pyval) : option pystr :=
  match _country_string_to_iso2 x with
  | Some iso2 => if nonempty iso2 then Some iso2 else None
  | None => None
  end.

End geo.

Definition table_wf (pycountry : option pycountry_db) : Prop :=
  match pycountry with Some db => CountryTableWF db | None => True end.

(** ** Characters *)

Lemma upper_char_ascii_alpha c :
  (c <? 128)%N = true → is_alpha_char c = true →
  ∃ c', upper_char c = [c'] ∧ is_ascii_upper c' = true.
Proof.
  unfold upper_char, is_alpha_char, is_ascii_upper, in_range. intros Hc Ha.
  char_cases; eexists; (split; [reflexivity|]); rewrite andb_true_iff, !N.leb_le; lia.
Qed.

Lemma upper_ascii_alpha t :
  is_ascii t = true → forallb is_alpha_char t = true →
  length (upper t) = length t ∧ forallb is_ascii_upper (upper t) = true.
Proof.
  induction t as [|c t IH]; [done|]. unfold is_ascii. cbn [forallb].
  rewrite !andb_true_iff. intros [Hc Ht] [Ha Hat].
  destruct (upper_char_ascii_alpha c Hc Ha) as (c' & Hu & Hc').
  change (upper (c :: t)) with (upper_char c ++ upper t). rewrite Hu.
  destruct (IH Ht Hat) as [IHl IHf]. cbn. by rewrite IHl, Hc', IHf.
Qed.

Lemma upper_iso2 s : is_iso2 s → upper s = s.
Proof.
  unfold iso2_b. rewrite andb_true_iff, Nat.eqb_eq. intros [_ Hs].
  induction s as [|c s IH]; [done|]. cbn [forallb] in Hs. apply andb_true_iff in Hs as [Hc Hs].
  change (upper (c :: s)) with (upper_char c ++ upper s). rewrite IH by done.
  unfold upper_char, in_range. unfold is_ascii_upper, in_range in Hc. by char_cases.
Qed.

Lemma is_ascii_app u v : is_ascii (u ++ v) = is_ascii u && is_ascii v.
Proof. apply forallb_app. Qed.

Lemma is_ascii_infix u v : infix u v → is_ascii v = true → is_ascii u = true.
Proof.
  intros (a & b & ->). rewrite !is_ascii_app, !andb_true_iff. by intros (_ & ? & _).
Qed.

Lemma is_ascii_replace a b s :
  (b <? 128)%N = true → is_ascii s = true → is_ascii (replace_char a b s) = true.
Proof.
  intros Hb. unfold is_ascii, replace_char. induction s as [|c s IH]; [done|]. cbn.
  rewrite !andb_true_iff. intros [Hc Hs]. split; [by destruct (c =? a)%N | auto].
Qed.

Lemma normalize_ascii raw : is_ascii raw = true → is_ascii (normalize_country_text raw) = true.
Proof.
  intros Ha. unfold normalize_country_text. eapply is_ascii_infix; [apply strip_infix|].
  apply is_ascii_replace; [done|]. apply is_ascii_replace; [done|].
  eapply is_ascii_infix; [apply strip_infix | done].
Qed.

(** ** Conversion of one value *)

Lemma alpha_2_of_iso2 r c :
  alpha_2_of r = Some c → (∀ k, r = Ok (Some k) → is_iso2 (alpha_2 k)) → is_iso2 c.
Proof.
  destruct r as [[k|]|]; simpl; try discriminate.
  destruct (nonempty (alpha_2 k)); [|discriminate]. intros [= <-] H. rewrite upper_iso2; auto.
Qed.

Lemma to_iso2_text pycountry x c :
  _country_string_to_iso2 pycountry x = Some c →
  x ≠ PNone ∧ country_text_to_iso2 pycountry (strip (py_str x)) = Some c.
Proof. destruct x; intros H; [discriminate|..]; (split; [discriminate | exact H]). Qed.

Lemma text_to_iso2_ascii pycountry raw c :
  table_wf pycountry → is_ascii raw = true →
  country_text_to_iso2 pycountry raw = Some c → is_iso2 c.
Proof.
  intros Hwf Ha. unfold country_text_to_iso2.
  destruct (nonempty raw); [|discriminate]. cbn [negb].
  pose proof (normalize_ascii raw Ha) as Ht.
  set (t := normalize_country_text raw) in *.
  destruct ((length t =? 2) && isalpha t) eqn:E2.
  - intros [= <-]. apply andb_true_iff in E2 as [Hl Hal]. apply Nat.eqb_eq in Hl.
    unfold isalpha in Hal. apply andb_true_iff in Hal as [_ Hal].
    destruct (upper_ascii_alpha t Ht Hal) as [Hul Huf]. unfold iso2_b. by rewrite Hul, Hl, Huf.
  - destruct pycountry as [db|]; [|discriminate]. cbn iota zeta. cbn [table_wf] in Hwf.
    assert (∀ c', alpha_2_of (Some <$> countries_lookup db raw) = Some c' → is_iso2 c') as Hlk.
    { intros c' Hl. eapply alpha_2_of_iso2; [exact Hl|]. intros k Hk.
      destruct (countries_lookup db raw) eqn:El; simplify_eq/=. by eapply lookup_wf. }
    destruct ((length t =? 3) && isalpha t); [|apply Hlk].
    destruct (alpha_2_of (countries_get_alpha_3 db (upper t))) eqn:E3; [|apply Hlk].
    intros [= <-]. eapply alpha_2_of_iso2; [exact E3|]. intros k Hk. by eapply get_alpha_3_wf.
Qed.

Lemma to_iso2_ascii_iso2 pycountry x c :
  table_wf pycountry → is_ascii (py_str x) = true →
  to_iso2_truthy pycountry x = Some c → is_iso2 c.
Proof.
  intros Hwf Ha. unfold to_iso2_truthy.
  destruct (_country_string_to_iso2 pycountry x) as [c'|] eqn:E; [|discriminate].
  destruct (nonempty c'); [intros [= <-]|discriminate].
  apply to_iso2_text in E as [_ E]. eapply text_to_iso2_ascii; [done| |exact E].
  eapply is_ascii_infix; [apply strip_infix | done].
Qed.

(** ** The extraction loop collects the conversions of the probes *)

Section collect.
Context (pycountry : option pycountry_db).
Local Abbreviation conv := (to_iso2_truthy pycountry).

Lemma add_collect out x : _add pycountry out x = out ++ option_list (conv x).
Proof.
  unfold _add, to_iso2_truthy. destruct (_country_string_to_iso2 pycountry x) as [c|];
    [destruct (nonempty c)|]; simpl; by rewrite ?app_nil_r.
Qed.

Lemma fold_add xs out : fold_left (_add pycountry) xs out = out ++ omap conv xs.
Proof. rewrite omap_bind. apply fold_left_collect, add_collect. Qed.

Lemma add_value_collect out v : add_value pycountry out v = out ++ omap conv (value_probes v).
Proof.
  destruct v; cbn [add_value value_probes]; rewrite ?fold_add, ?add_collect; try done;
    by rewrite app_nil_r.
Qed.

Lemma fold_probe_keys d keys out :
  fold_left (λ out key, if has_key d key then _add pycountry out (dict_get d key) else out)
    keys out
  = out ++ omap conv (omap (λ key, if has_key d key then Some (dict_get d key) else None) keys).
Proof.
  revert out; induction keys as [|k keys IH]; intros out; simpl; [by rewrite app_nil_r|].
  destruct (has_key d k); simpl; rewrite IH; [|done].
  rewrite add_collect. destruct (conv _); simpl; by rewrite <- app_assoc.
Qed.
End collect.

Lemma extract_collect pycountry val :
  _extract_iso2_candidates pycountry val
  = uniq_first (omap (to_iso2_truthy pycountry) (probes val)).
Proof.
  unfold _extract_iso2_candidates, probes. f_equal.
  destruct val as [| | | | s | items | d]; cbn zeta; rewrite ?fold_add; try done;
    try by rewrite add_collect, omap_bind, bind_singleton.
  rewrite fold_probe_keys, (fold_left_collect _ (λ v, omap (to_iso2_truthy pycountry) (value_probes v)))
    by apply add_value_collect.
  by rewrite omap_app, omap_list_bind.
Qed.

Lemma to_iso2_not_none pycountry x :
  x ≠ PNone → _country_string_to_iso2 pycountry x = country_text_to_iso2 pycountry (strip (py_str x)).
Proof. by destruct x. Qed.

(** ** An example table *)

Definition ex_za : country :=
  {| alpha_2 := lit "ZA"; alpha_3 := lit "ZAF"; name := lit "South Africa" |}.

Definition ex_db : pycountry_db := {|
  countries_get_alpha_3 t := if decide (t = lit "ZAF") then Ok (Some ex_za) else Ok None;
  countries_get_alpha_2 t := if decide (t = lit "ZA") then Ok (Some ex_za) else Ok None;
  countries_lookup t := if decide (t = lit "South Africa") then Ok ex_za else Err LookupError
|}.

#[export] Instance ex_db_wf : CountryTableWF ex_db.
Proof.
  split; intros t c; cbn; case_decide; intros; simplify_eq; by vm_compute.
Qed.

(** ** The theorems *)

(** [C5]: [_extract_iso2_candidates] returns each code once, and exactly
    the truthy conversions of the values it probes (the keys [iso2], [code],
    [country], [value], [name] and then every string or list value of a
    dict; the items of a list; the non-blank [,;|/]-separated segments of a
    string; a scalar itself). *)
Theorem extract_iso2_spec pycountry val :
  NoDup (_extract_iso2_candidates pycountry val) ∧
  ∀ c, c ∈ _extract_iso2_candidates pycountry val ↔
       ∃ x, x ∈ probes val ∧ to_iso2_truthy pycountry x = Some c.
Proof.
  rewrite extract_collect. split; [apply uniq_first_NoDup|].
  intros c. rewrite uniq_first_elem, list_elem_of_omap. naive_solver.
Qed.

(** [C6]: when the country table returns ISO2 codes and the values probed
    are ASCII text, every code [_extract_iso2_candidates] returns is two
    upper-case ASCII letters, and none is repeated. *)
Theorem extract_iso2_codes pycountry val :
  table_wf pycountry → Forall (λ x, is_ascii (py_str x) = true) (probes val) →
  NoDup (_extract_iso2_candidates pycountry val) ∧
  Forall (λ c, is_iso2 c) (_extract_iso2_candidates pycountry val).
Proof.
  intros Hwf Hpr. rewrite extract_collect. split; [apply uniq_first_NoDup|].
  apply uniq_first_Forall, Forall_forall. intros c (x & Hc & Hx)%list_elem_of_omap.
  rewrite Forall_forall in Hpr. eapply to_iso2_ascii_iso2; eauto.
Qed.

Lemma extract_iso2_codes_witness :
  table_wf (Some ex_db) ∧ Forall (λ x, is_ascii (py_str x) = true) (probes (PStr (lit "ng; ZAF / South Africa"))) ∧
  Forall (λ c, is_iso2 c) (_extract_iso2_candidates (Some ex_db) (PStr (lit "ng; ZAF / South Africa"))).
Proof.
  assert (Hw : table_wf (Some ex_db)) by exact ex_db_wf.
  assert (Ha : Forall (λ x, is_ascii (py_str x) = true) (probes (PStr (lit "ng; ZAF / South Africa"))))
    by (vm_compute; repeat constructor).
  split; [exact Hw|]. split; [exact Ha|]. apply (extract_iso2_codes (Some ex_db) _ Hw Ha).
Defined.

(** A counterexample to the specification, kept beside the model: a
    two-letter alphabetic string is upper-cased without checking the
    result, so "ßa" becomes "SSA", which is not an ISO2 code (the
    specification promises exactly two upper-case letters). *)
Example to_iso2_sharp_s pycountry :
  _country_string_to_iso2 pycountry (PStr (lit "ßa")) = Some (lit "SSA") ∧ iso2_b (lit "SSA") = false.
Proof. split; by vm_compute. Qed.

(** [C7]: without [pycountry], a value converts exactly when its
    normalised text is two letters, and then to that text upper-cased: the
    alpha-3 and free-text lookups are skipped. *)
Theorem to_iso2_without_pycountry x c :
  _country_string_to_iso2 None x = Some c ↔
  x ≠ PNone ∧
  let t := normalize_country_text (strip (py_str x)) in
  length t = 2 ∧ isalpha t = true ∧ c = upper t.
Proof.
  split.
  - intros (Hx & H)%to_iso2_text. split; [done|]. revert H. unfold country_text_to_iso2.
    destruct (nonempty _); [|discriminate]. cbn [negb].
    destruct ((length _ =? 2) && isalpha _) eqn:E; [|discriminate].
    apply andb_true_iff in E as [E1 E2]. apply Nat.eqb_eq in E1. by intros [= <-].
  - intros (Hx & Hl & Ha & ->). rewrite to_iso2_not_none by done.
    unfold country_text_to_iso2. rewrite Hl, Ha. cbn -[upper].
    destruct (nonempty (strip (py_str x))) eqn:E; [done|].
    apply nonempty_false in E. rewrite E in Hl. discriminate.
Qed.

(** [C8]: the free-text lookup is given the raw string, not the text with
    [_] and [-] normalised to spaces: when the normalised text is neither a
    two- nor a three-letter word, the result is the lookup of the raw text. *)
Theorem to_iso2_lookup_raw db x :
  x ≠ PNone → strip (py_str x) ≠ [] →
  let t := normalize_country_text (strip (py_str x)) in
  ((length t =? 2) && isalpha t) = false → ((length t =? 3) && isalpha t) = false →
  _country_string_to_iso2 (Some db) x = alpha_2_of (Some <$> countries_lookup db (strip (py_str x))).
Proof.
  intros Hx Hne t H2 H3. rewrite to_iso2_not_none by done. unfold country_text_to_iso2.
  apply nonempty_true in Hne. rewrite Hne. cbn [negb]. fold t. by rewrite H2, H3.
Qed.

(** With a table that knows "South Africa", "South_Africa" is not found. *)
Lemma to_iso2_lookup_raw_witness :
  normalize_country_text (lit "South_Africa") = lit "South Africa" ∧
  countries_lookup ex_db (lit "South Africa") = Ok ex_za ∧
  _country_string_to_iso2 (Some ex_db) (PStr (lit "South_Africa")) = None.
Proof.
  split; [by vm_compute|]. split; [by vm_compute|].
  rewrite (to_iso2_lookup_raw ex_db (PStr (lit "South_Africa"))); by vm_compute.
Defined.

(** [C9]: [_iso2_to_country_name] returns the empty string exactly when the
    upper-cased, stripped input is not two letters; otherwise the table's
    non-empty name for it, or the code itself. *)
Theorem iso2_to_country_name_spec pycountry iso2 :
  let code := upper (strip iso2) in
  (_iso2_to_country_name pycountry iso2 = [] ↔ ¬ (length code = 2 ∧ isalpha code = true)) ∧
  (length code = 2 → isalpha code = true →
   _iso2_to_country_name pycountry iso2 = code ∨
   ∃ db c, pycountry = Some db ∧ countries_get_alpha_2 db code = Ok (Some c) ∧
           name c ≠ [] ∧ _iso2_to_country_name pycountry iso2 = name c).
Proof.
  intros code. unfold _iso2_to_country_name. fold code.
  destruct ((length code =? 2) && isalpha code) eqn:E; cbn [negb].
  - apply andb_true_iff in E as [E1 E2]. apply Nat.eqb_eq in E1.
    assert (code ≠ []) by (intros Hc; rewrite Hc in E1; discriminate).
    destruct pycountry as [db|]; [|split; [naive_solver | auto]].
    destruct (countries_get_alpha_2 db code) as [[c|]|] eqn:Eg; [|split; [naive_solver | auto]..].
    destruct (nonempty (name c)) eqn:En; [apply nonempty_true in En|split; [naive_solver | auto]].
    split; [naive_solver|]. intros _ _. right. eauto 10.
  - split; [|intros E1 E2; by rewrite E2, E1 in E].
    split; [intros _ [E1 E2]; by rewrite E2, E1 in E | done].
Qed.

Lemma iso2_to_country_name_spec_witness :
  _iso2_to_country_name (Some ex_db) (lit " za") = lit "South Africa" ∧
  _iso2_to_country_name None (lit "USA") = [].
Proof.
  pose proof (iso2_to_country_name_spec (Some ex_db) (lit " za")) as [_ H1].
  pose proof (iso2_to_country_name_spec None (lit "USA")) as [H2 _].
  split.
  - destruct (H1 eq_refl eq_refl) as [H | (db & c & [= <-] & Hg & _ & ->)]; [by vm_compute in H|].
    vm_compute in Hg. by injection Hg as <-.
  - apply H2. vm_compute. lia.
Defined.
