(* ===== verification/Catalog.v ===== *)
(** * Catalog indexer (atlas_chat.py, lines 148-274)

    A Firestore document becomes a typed catalog record ([coerce_fields],
    the dict literal of [_load_atlas_books_cached]); [_places_for_book],
    [_iso2_sets_for_book] and [_build_book_search_blob] annotate it.  The
    process-wide cache (the four globals [_ATLAS_BOOK_CACHE_TS],
    [_ATLAS_BOOK_CACHE], [_ATLAS_BOOK_BY_ID],
    [_ATLAS_AVAILABLE_COUNTRIES_CACHE]) is the record [cache];
    [_load_atlas_books_cached] is a function of the TTL, the clock, the
    outcome of [db.collection("atlasBooks").stream()] and the cache, and
    [cache_step] is the step relation its calls induce.

    A record is seen by the validator through [RecordView] ([b.get(key)]).
    The pycountry table is the section variable of [Geo]. *)

From stdpp Require Import sorting.
From S2P Require Import Prelude PyStr PyVal Regex Text Geo.

(** ** Python's string order: code points, lexicographically *)

Fixpoint str_leb (a b : pystr) : bool :=
  match a, b with
  | [], _ => true
  | _ :: _, [] => false
  | x :: a', y :: b' => (x <? y)%N || ((x =? y)%N && str_leb a' b')
  end.

Definition str_le (a b : pystr) : Prop := str_leb a b = true.

#[export] Instance str_le_dec : RelDecision str_le := λ a b, decide (str_leb a b = true).

(** ** Records *)

(** [{"iso2": iso2, "name": name or iso2}] *)
Record place := { place_iso2 : pystr; place_name : pystr }.

(** The dict [_places_for_book] returns. *)
Record places := {
  pl_override : list place;
  pl_setting : list place;
  pl_author_country : list place;
  pl_author_origin : list place
}.

(** The dict of sets [_iso2_sets_for_book] returns. *)
Record iso2_sets := {
  set_override : gset pystr;
  set_setting : gset pystr;
  set_author : gset pystr;
  set_any : gset pystr
}.

(** The fields of the dict literal [rec] built for each document. *)
Record book_fields := {
  b_id : pystr;
  title : pystr;
  author : pystr;
  summary : pystr;
  description : pystr;
  year : pystr;
  page_count : Z;
  tags : list pyval;
  categories : list pyval;
  country_override : pyval;
  setting_country : pyval;
  author_country : pyval;
  author_origin : pyval;
  cover_url : pystr;
  bookshop_url : pystr
}.

(** A catalog record: the fields and the three annotations. *)
Record atlas_book := {
  fields : book_fields;
  _places : places;
  _iso2_sets : iso2_sets;
  _blob : pystr
}.

(** A Firestore document: its id and [doc.to_dict()], which may raise or
    return [None]. *)
Record doc := { doc_id : pystr; to_dict : py (option pydict) }.

(** ** Coercion of a document *)

(** [str(data.get(k) or "").strip()] *)
Definition str_get (data : pydict) (k : pystr) : pystr :=
  strip (py_str (py_or (dict_get data k) (PStr []))).

(** [x if isinstance(x, list) else []] *)
Definition list_or_empty (v : pyval) : list pyval :=
  match v with PList l => l | _ => [] end.

(** [x if x is not None else default] *)
Definition not_none_or (v default : pyval) : pyval :=
  match v with PNone => default | _ => v end.

(** [data = doc.to_dict() or {}], an exception counting as [{}]. *)
Definition doc_data (d : doc) : pydict :=
  match to_dict d with Ok (Some data) => data | _ => [] end.

(** The dict literal; [int(data.get("page_count") or 0)] can raise. *)
Definition coerce_fields (bid : pystr) (data : pydict) : py book_fields :=
  pc ← py_int (py_or (dict_get data (lit "page_count")) (PInt 0));
  Ok {| b_id := bid;
        title := str_get data (lit "title");
        author := str_get data (lit "author");
        summary := str_get data (lit "summary");
        description := str_get data (lit "description");
        year := str_get data (lit "year");
        page_count := pc;
        tags := list_or_empty (dict_get data (lit "tags"));
        categories := list_or_empty (dict_get data (lit "categories"));
        country_override := not_none_or (dict_get data (lit "country_override")) (PStr []);
        setting_country := not_none_or (dict_get data (lit "setting_country")) (PList []);
        author_country := not_none_or (dict_get data (lit "author_country")) (PList []);
        author_origin := not_none_or (dict_get data (lit "author_origin")) (PList []);
        cover_url := str_get data (lit "cover_url");
        bookshop_url := str_get data (lit "bookshop_url") |}.

Section indexing.
Context (pycountry : option pycountry_db).

(** ** Annotations *)

(** [{"iso2": iso2, "name": name or iso2}] for [name = _iso2_to_country_name(iso2)] *)
Definition place_of (iso2 : pystr) : place :=
  let nm := _iso2_to_country_name pycountry iso2 in
  {| place_iso2 := iso2; place_name := if nonempty nm then nm else iso2 |}.

(** The nested [build(field_name)] of [_places_for_book]. *)
Definition build_places (v : pyval) : list place :=
  map place_of (_extract_iso2_candidates pycountry v).

Definition _places_for_book (f : book_fields) : places := {|
  pl_override := build_places (country_override f);
  pl_setting := build_places (setting_country f);
  pl_author_country := build_places (author_country f);
  pl_author_origin := build_places (author_origin f)
|}.

(** The nested [as_set(key)]: the upper-cased [iso2] of each entry. *)
Definition as_set (l : list place) : gset pystr := list_to_set (map (λ p, upper (place_iso2 p)) l).

Definition _iso2_sets_for_book (pl : places) : iso2_sets :=
  let override := as_set (pl_override pl) in
  let setting := as_set (pl_setting pl) in
  let author := as_set (pl_author_country pl) ∪ as_set (pl_author_origin pl) in
  {| set_override := override; set_setting := setting; set_author := author;
     set_any := override ∪ setting ∪ author |}.

(** [parts.extend([str(x) for x in v if str(x).strip()])] *)
Definition list_parts (v : list pyval) : list pystr :=
  map py_str (filter (λ x, nonempty (strip (py_str x))) v).

(** Each extracted code, followed by its name when that differs. *)
Definition geo_parts (v : pyval) : list pystr :=
  _extract_iso2_candidates pycountry v ≫= λ iso2,
    let nm := _iso2_to_country_name pycountry iso2 in
    iso2 :: (if nonempty nm && negb (bool_decide (nm = iso2)) then [nm] else []).

Definition blob_parts (f : book_fields) : list pystr :=
  filter nonempty [title f; author f; summary f; description f; year f]
  ++ list_parts (tags f) ++ list_parts (categories f)
  ++ geo_parts (country_override f) ++ geo_parts (setting_country f)
  ++ geo_parts (author_country f) ++ geo_parts (author_origin f).

Definition _build_book_search_blob (f : book_fields) : pystr :=
  _normalize_text (join [32%N] (blob_parts f)).

(** [rec["_places"]], [rec["_iso2_sets"]], [rec["_blob"]] *)
Definition annotate (f : book_fields) : atlas_book :=
  let pl := _places_for_book f in
  {| fields := f; _places := pl; _iso2_sets := _iso2_sets_for_book pl;
     _blob := _build_book_search_blob f |}.

(** One iteration of the [for doc in docs] loop, up to the appends. *)
Definition build_rec (d : doc) : py atlas_book :=
  f ← coerce_fields (doc_id d) (doc_data d); Ok (annotate f).

End indexing.

(** ** The record as the dict it is *)

Definition place_val (p : place) : pyval :=
  PDict [(lit "iso2", PStr (place_iso2 p)); (lit "name", PStr (place_name p))].

Definition places_val (pl : places) : pyval :=
  PDict [(lit "override", PList (map place_val (pl_override pl)));
         (lit "setting", PList (map place_val (pl_setting pl)));
         (lit "author_country", PList (map place_val (pl_author_country pl)));
         (lit "author_origin", PList (map place_val (pl_author_origin pl)))].

(** The keys of [rec] ([_iso2_sets] holds Python sets, which no reader of
    the view asks for). *)
Definition book_dict (b : atlas_book) : pydict :=
  let f := fields b in
  [(lit "id", PStr (b_id f)); (lit "title", PStr (title f)); (lit "author", PStr (author f));
   (lit "summary", PStr (summary f)); (lit "description", PStr (description f));
   (lit "year", PStr (year f)); (lit "page_count", PInt (page_count f));
   (lit "tags", PList (tags f)); (lit "categories", PList (categories f));
   (lit "country_override", country_override f); (lit "setting_country", setting_country f);
   (lit "author_country", author_country f); (lit "author_origin", author_origin f);
   (lit "cover_url", PStr (cover_url f)); (lit "bookshop_url", PStr (bookshop_url f));
   (lit "_places", places_val (_places b)); (lit "_blob", PStr (_blob b))].

#[export] Instance atlas_book_view : RecordView atlas_book := λ b k, dict_get (book_dict b) k.

(** ** The cache *)

(** Iterating [stream()]: the documents it yields, then the exception the
    iterator raises, if any. *)
Record doc_stream := { ds_docs : list doc; ds_error : option exn }.

(** The four globals. *)
Record cache := {
  cache_ts : Z;
  cache_books : list atlas_book;
  cache_by_id : gmap pystr atlas_book;
  cache_available : list place
}.

Definition cache_init : cache :=
  {| cache_ts := 0; cache_books := []; cache_by_id := ∅; cache_available := [] |}.

(** The triple the function returns. *)
Abbreviation snapshot := (list atlas_book * gmap pystr atlas_book * list place)%type.

Definition snap_of (st : cache) : snapshot :=
  (cache_books st, cache_by_id st, cache_available st).

Section loading.
Context (pycountry : option pycountry_db) (ATLAS_CHAT_CACHE_TTL_SEC : Z).

(** [by_id[bid] = rec] for each record in turn: a later id overwrites. *)
Definition index_by_id (items : list atlas_book) : gmap pystr atlas_book :=
  fold_left (λ m r, <[b_id (fields r) := r]> m) items ∅.

(** [iso_set |= set(sets.get("any") or set())] over the records *)
Definition iso_set_of (items : list atlas_book) : gset pystr :=
  fold_left (λ s b, s ∪ set_any (_iso2_sets b)) items ∅.

(** [sorted([x for x in iso_set if isinstance(x, str) and len(x) == 2])],
    each with its name *)
Definition available_of (items : list atlas_book) : list place :=
  map (place_of pycountry)
    (merge_sort str_le (filter (λ x, length x = 2) (elements (iso_set_of items)))).

(** The four assignments at the end of a refresh. *)
Definition refreshed (now : Z) (items : list atlas_book) : cache :=
  {| cache_ts := now; cache_books := items; cache_by_id := index_by_id items;
     cache_available := available_of items |}.

Definition _load_atlas_books_cached (now : Z) (stream : py doc_stream) (st : cache)
    : py (snapshot * cache) :=
  if nonempty (cache_books st) && bool_decide (now - cache_ts st < ATLAS_CHAT_CACHE_TTL_SEC)%Z
  then Ok (snap_of st, st)
  else
    match stream with
    | Err _ => Ok (snap_of st, st)
    | Ok ds =>
        items ← mapM_res (build_rec pycountry) (ds_docs ds);
        match ds_error ds with
        | Some e => Err e
        | None => let st' := refreshed now items in Ok (snap_of st', st')
        end
    end.

(** A call either returns, leaving the cache it computed, or raises before
    any global is assigned. *)
Inductive cache_step : cache → cache → Prop :=
| step_return now stream st snap st' :
    _load_atlas_books_cached now stream st = Ok (snap, st') → cache_step st st'
| step_raise now stream st e :
    _load_atlas_books_cached now stream st = Err e → cache_step st st.

End loading.

(** ** The string order is a total order *)

Lemma str_leb_refl a : str_leb a a = true.
Proof. induction a as [|x a IH]; [done|]. simpl. rewrite N.eqb_refl, IH. apply orb_true_r. Qed.

Lemma str_leb_total a b : str_leb a b = true ∨ str_leb b a = true.
Proof.
  revert b; induction a as [|x a IH]; intros [|y b]; simpl; auto.
  destruct (IH b); destruct (N.lt_trichotomy x y) as [Hxy|[->|Hxy]];
    rewrite ?N.eqb_refl; N_bool_hyps; simpl;
    rewrite ?orb_true_iff, ?andb_true_iff, ?N.ltb_lt, ?N.eqb_eq; naive_solver lia.
Qed.

Lemma str_leb_trans a b c : str_leb a b = true → str_leb b c = true → str_leb a c = true.
Proof.
  revert b c; induction a as [|x a IH]; intros [|y b] [|z c]; simpl; try done.
  rewrite !orb_true_iff, !andb_true_iff, !N.ltb_lt, !N.eqb_eq.
  intros [Hxy|[-> Hab]] [Hyz|[<- Hbc]]; [left; lia | left; lia | left; lia |].
  right. split; [done|]. eauto.
Qed.

Lemma str_leb_antisymm a b : str_leb a b = true → str_leb b a = true → a = b.
Proof.
  revert b; induction a as [|x a IH]; intros [|y b]; simpl; try done.
  rewrite !orb_true_iff, !andb_true_iff, !N.ltb_lt, !N.eqb_eq.
  intros [Hxy|[-> Hab]] [Hyx|[Hyx Hba]]; try lia. f_equal. auto.
Qed.

#[export] Instance str_le_total : Total str_le := str_leb_total.
#[export] Instance str_le_trans : Transitive str_le.
Proof. intros a b c. apply str_leb_trans. Qed.
#[export] Instance str_le_antisymm : AntiSymm (=) str_le.
Proof. intros a b. apply str_leb_antisymm. Qed.

(** ** The indexes of a refresh *)

Lemma fold_index_lookup (items : list atlas_book) (m : gmap pystr atlas_book) (k : pystr) :
  fold_left (λ m r, <[b_id (fields r) := r]> m) items m !! k
  = match last (filter (λ b, b_id (fields b) = k) items) with Some b => Some b | None => m !! k end.
Proof.
  revert m; induction items as [|r rs IH]; intros m; [done|]. simpl. rewrite IH, filter_cons.
  destruct (last (filter _ rs)) as [b|] eqn:E.
  - case_decide; [rewrite last_cons|]; by rewrite E.
  - case_decide as Hk.
    + rewrite last_cons, E. by rewrite Hk, lookup_insert_eq.
    + rewrite E. by rewrite lookup_insert_ne.
Qed.

(** [by_id[k]] is the last record with id [k]. *)
Lemma index_by_id_lookup (items : list atlas_book) (k : pystr) :
  index_by_id items !! k = last (filter (λ b, b_id (fields b) = k) items).
Proof. unfold index_by_id. rewrite fold_index_lookup. by destruct (last _). Qed.

Lemma fold_iso_set (items : list atlas_book) (s : gset pystr) (c : pystr) :
  c ∈ fold_left (λ s b, s ∪ set_any (_iso2_sets b)) items s ↔
  c ∈ s ∨ ∃ b, b ∈ items ∧ c ∈ set_any (_iso2_sets b).
Proof.
  revert s; induction items as [|b bs IH]; intros s; simpl.
  - split; [by left | intros [? | (? & Hb & _)]; [done | by apply not_elem_of_nil in Hb]].
  - rewrite IH, elem_of_union. setoid_rewrite elem_of_cons. naive_solver.
Qed.

Lemma iso_set_of_elem (items : list atlas_book) (c : pystr) :
  c ∈ iso_set_of items ↔ ∃ b, b ∈ items ∧ c ∈ set_any (_iso2_sets b).
Proof. unfold iso_set_of. rewrite fold_iso_set. set_solver. Qed.

Section available.
Context (pycountry : option pycountry_db).

Lemma available_codes (items : list atlas_book) :
  map place_iso2 (available_of pycountry items)
  = merge_sort str_le (filter (λ x, length x = 2) (elements (iso_set_of items))).
Proof. unfold available_of. rewrite map_map. apply map_id. Qed.

Lemma available_spec (items : list atlas_book) :
  let codes := map place_iso2 (available_of pycountry items) in
  StronglySorted str_le codes ∧ NoDup codes ∧
  ∀ c, c ∈ codes ↔ length c = 2 ∧ ∃ b, b ∈ items ∧ c ∈ set_any (_iso2_sets b).
Proof.
  cbn zeta. rewrite available_codes. split; [apply (StronglySorted_merge_sort str_le)|]. split.
  - rewrite merge_sort_Permutation. apply NoDup_filter, NoDup_elements.
  - intros c. rewrite merge_sort_Permutation, list_elem_of_filter, elem_of_elements,
      iso_set_of_elem. naive_solver.
Qed.
End available.

(** ** Calls of [_load_atlas_books_cached] *)

Section load_lemmas.
Context (pycountry : option pycountry_db) (ttl : Z).
Local Abbreviation load := (_load_atlas_books_cached pycountry ttl).

(** The cache is fresh: non-empty and younger than the TTL. *)
Definition cache_fresh (now : Z) (st : cache) : bool :=
  nonempty (cache_books st) && bool_decide (now - cache_ts st < ttl)%Z.

Lemma load_miss now stream st :
  cache_fresh now st = false →
  load now stream st =
    match stream with
    | Err _ => Ok (snap_of st, st)
    | Ok ds =>
        items ← mapM_res (build_rec pycountry) (ds_docs ds);
        match ds_error ds with
        | Some e => Err e
        | None => Ok (snap_of (refreshed pycountry now items), refreshed pycountry now items)
        end
    end.
Proof. intros H. unfold _load_atlas_books_cached. unfold cache_fresh in H. by rewrite H. Qed.

Lemma load_returns now stream st snap st' :
  load now stream st = Ok (snap, st') →
  snap = snap_of st' ∧
  (st' = st ∨ ∃ items, st' = refreshed pycountry now items).
Proof.
  unfold _load_atlas_books_cached.
  destruct (nonempty _ && _); [intros [= <- <-]; auto|].
  destruct stream as [ds|e]; [|intros [= <- <-]; auto].
  destruct (mapM_res _ _) as [items|]; simpl; [|discriminate].
  destruct (ds_error ds); [discriminate|]. intros [= <- <-]. eauto.
Qed.

(** The consistency of the snapshot the globals hold. *)
Definition cache_inv (st : cache) : Prop :=
  cache_by_id st = index_by_id (cache_books st) ∧
  cache_available st = available_of pycountry (cache_books st).

Lemma cache_inv_init : cache_inv cache_init.
Proof. split; reflexivity. Qed.

Lemma cache_inv_refreshed now items : cache_inv (refreshed pycountry now items).
Proof. split; reflexivity. Qed.

Lemma cache_step_inv st st' : cache_step pycountry ttl st st' → cache_inv st → cache_inv st'.
Proof.
  destruct 1 as [now stream st snap st' Hl | ]; [|done].
  destruct (load_returns _ _ _ _ _ Hl) as [_ [-> | [items ->]]]; [done|].
  intros _. apply cache_inv_refreshed.
Qed.

(** The invariant holds along every sequence of calls (rule induction on
    the closure of [cache_step]). *)
Lemma rtc_cache_inv st0 st :
  rtc (cache_step pycountry ttl) st0 st → cache_inv st0 → cache_inv st.
Proof. induction 1 as [|x y z Hxy _ IH]; [done|]. intros. apply IH. by eapply cache_step_inv. Qed.

End load_lemmas.

(** ** The record's view and an example record *)

Lemma book_view_title b : record_get b (lit "title") = PStr (title (fields b)).
Proof. by vm_compute. Qed.

Lemma book_view_author b : record_get b (lit "author") = PStr (author (fields b)).
Proof. by vm_compute. Qed.

Definition ex_data : pydict :=
  [(lit "title", PStr (lit " Things Fall Apart")); (lit "author", PStr (lit "Chinua Achebe"));
   (lit "page_count", PInt 209); (lit "setting_country", PStr (lit "NG"))].

Definition ex_doc : doc := {| doc_id := lit "b1"; to_dict := Ok (Some ex_data) |}.

Definition ex_bad_doc : doc :=
  {| doc_id := lit "b9"; to_dict := Ok (Some [(lit "page_count", PStr (lit "300 pages"))]) |}.

(** ** The theorems *)

(** [C10]: a fresh cache (non-empty, younger than the TTL) is returned as
    it is, whatever the store would answer: the store is not read. *)
Theorem load_fresh_hit pycountry ttl now stream st :
  cache_books st ≠ [] → (now - cache_ts st < ttl)%Z →
  _load_atlas_books_cached pycountry ttl now stream st = Ok (snap_of st, st).
Proof.
  intros Hne Ht. unfold _load_atlas_books_cached.
  apply nonempty_true in Hne. by rewrite Hne, bool_decide_eq_true_2.
Qed.

Definition ex_fields : book_fields := {|
  b_id := lit "b1"; title := lit "Things Fall Apart"; author := lit "Chinua Achebe";
  summary := []; description := []; year := []; page_count := 209; tags := []; categories := [];
  country_override := PStr []; setting_country := PStr (lit "NG");
  author_country := PList []; author_origin := PList []; cover_url := []; bookshop_url := [] |}.

Definition ex_cache : cache :=
  {| cache_ts := 100; cache_books := [annotate None ex_fields]; cache_by_id := ∅;
     cache_available := [] |}.

Lemma load_fresh_hit_witness :
  _load_atlas_books_cached None 600 250 (Err StoreError) ex_cache = Ok (snap_of ex_cache, ex_cache).
Proof. apply load_fresh_hit; [discriminate | simpl; lia]. Defined.

(** [C11]: when [stream()] raises, the previous snapshot is returned and
    kept, even an empty one (stale-but-available). *)
Theorem load_stream_failure pycountry ttl now e st :
  _load_atlas_books_cached pycountry ttl now (Err e) st = Ok (snap_of st, st).
Proof. unfold _load_atlas_books_cached. by destruct (_ && _). Qed.

(** [C12]: on a refresh the loader raises to its caller when the document
    iterator fails part-way or when a document's [page_count] is not an
    integer ([int("300 pages")]): neither is caught. *)
Theorem load_raises pycountry ttl now ds st :
  cache_fresh ttl now st = false →
  is_Some (ds_error ds) ∨
  (∃ d e, d ∈ ds_docs ds ∧
          py_int (py_or (dict_get (doc_data d) (lit "page_count")) (PInt 0)) = Err e) →
  ∃ e, _load_atlas_books_cached pycountry ttl now (Ok ds) st = Err e.
Proof.
  intros Hm Hr. rewrite load_miss by done.
  destruct (mapM_res _ _) as [items|e] eqn:E; simpl; [|eauto].
  destruct Hr as [[e He] | (d & e & Hd & Hp)]; [rewrite He; eauto|].
  destruct (mapM_res_elem _ _ _ _ E Hd) as [b Hb].
  unfold build_rec, coerce_fields in Hb. by rewrite Hp in Hb.
Qed.

Lemma load_raises_witness :
  ∃ e, _load_atlas_books_cached None 600 0 (Ok {| ds_docs := [ex_doc; ex_bad_doc]; ds_error := None |})
         cache_init = Err e.
Proof.
  apply load_raises; [reflexivity|]. right. exists ex_bad_doc, ValueError.
  split; [right; left | by vm_compute].
Defined.

(** [C13]: in every state reachable from the initial globals by calls of
    [_load_atlas_books_cached], [by_id[k]] is the last cached record with
    id [k], and the available countries are strictly sorted, each once, and
    exactly the two-character codes of the records' [any] sets. *)
Theorem cache_reachable_consistent pycountry ttl st :
  rtc (cache_step pycountry ttl) cache_init st →
  (∀ k, cache_by_id st !! k = last (filter (λ b, b_id (fields b) = k) (cache_books st))) ∧
  let codes := map place_iso2 (cache_available st) in
  StronglySorted str_le codes ∧ NoDup codes ∧
  ∀ c, c ∈ codes ↔ length c = 2 ∧ ∃ b, b ∈ cache_books st ∧ c ∈ set_any (_iso2_sets b).
Proof.
  intros Hr. destruct (rtc_cache_inv pycountry ttl _ _ Hr (cache_inv_init pycountry)) as [Hb Ha].
  split; [intros k; rewrite Hb; apply index_by_id_lookup|]. rewrite Ha. apply available_spec.
Qed.

Lemma cache_reachable_consistent_witness :
  let st := refreshed None 0 [annotate None ex_fields] in
  rtc (cache_step None 600) cache_init st ∧ map place_iso2 (cache_available st) = [lit "NG"].
Proof.
  assert (Hr : rtc (cache_step None 600) cache_init (refreshed None 0 [annotate None ex_fields])).
  { eapply rtc_l; [|apply rtc_refl].
    apply (step_return None 600 0 (Ok {| ds_docs := [ex_doc]; ds_error := None |}) _
             (snap_of (refreshed None 0 [annotate None ex_fields]))).
    vm_compute. reflexivity. }
  split; [exact Hr|].
  destruct (cache_reachable_consistent None 600 _ Hr) as [_ [_ [_ Hc]]]. by vm_compute.
Defined.

(** [C14]: a record's [any] set is the union of its [override], [setting]
    and [author] sets, and holds exactly the upper-cased codes extracted
    from its four geography fields. *)
Theorem iso2_sets_any pycountry f c :
  set_any (_iso2_sets (annotate pycountry f))
  = set_override (_iso2_sets (annotate pycountry f)) ∪ set_setting (_iso2_sets (annotate pycountry f))
    ∪ set_author (_iso2_sets (annotate pycountry f)) ∧
  (c ∈ set_any (_iso2_sets (annotate pycountry f)) ↔
   ∃ v x, v ∈ [country_override f; setting_country f; author_country f; author_origin f] ∧
          x ∈ _extract_iso2_candidates pycountry v ∧ c = upper x).
Proof.
  split; [done|]. cbn -[upper]. unfold as_set, build_places.
  rewrite !elem_of_union, !elem_of_list_to_set, !map_map. cbn -[upper].
  repeat setoid_rewrite elem_of_cons. setoid_rewrite elem_of_nil.
  setoid_rewrite list_elem_of_fmap. split.
  - intros [[(x & -> & Hx) | (x & -> & Hx)] | [(x & -> & Hx) | (x & -> & Hx)]];
      eexists _, x; (split; [|split; [exact Hx | done]]); auto.
  - intros (v & x & Hv & Hx & ->). destruct Hv as [-> | [-> | [-> | [-> | []]]]]; eauto 6.
Qed.

Lemma blob_part_indexed pycountry f p :
  p ∈ blob_parts pycountry f → infix (_normalize_text p) (_blob (annotate pycountry f)).
Proof. intros Hp. apply normalize_mono, join_infix, Hp. Qed.

Lemma normalize_nil : _normalize_text [] = [].
Proof. reflexivity. Qed.

(** [C15]: the search blob indexes the record: the normalised title,
    author, summary, description and year, each non-blank tag and
    category, and each code extracted from the four geography fields
    together with its country name occur in the normalised blob. *)
Theorem search_blob_indexes pycountry f :
  let blob := _blob (annotate pycountry f) in
  (∀ s, s ∈ [title f; author f; summary f; description f; year f] →
        infix (_normalize_text s) blob) ∧
  (∀ x, x ∈ tags f ++ categories f → strip (py_str x) ≠ [] →
        infix (_normalize_text (py_str x)) blob) ∧
  (∀ v c, v ∈ [country_override f; setting_country f; author_country f; author_origin f] →
          c ∈ _extract_iso2_candidates pycountry v →
          infix (_normalize_text c) blob ∧
          infix (_normalize_text (_iso2_to_country_name pycountry c)) blob).
Proof.
  cbn zeta. split_and!.
  - intros s Hs. destruct s as [|c s]; [rewrite normalize_nil; apply infix_nil|].
    apply blob_part_indexed. unfold blob_parts. apply elem_of_app. left.
    apply list_elem_of_filter. by split.
  - intros x Hx Hne. apply blob_part_indexed. unfold blob_parts.
    assert (py_str x ∈ list_parts (tags f) ++ list_parts (categories f)) as Hin.
    { apply elem_of_app in Hx as [Hx | Hx]; apply elem_of_app; [left | right];
        apply list_elem_of_fmap_2, list_elem_of_filter; split; try done;
        by rewrite (proj2 (nonempty_true _) Hne). }
    apply elem_of_app. right. rewrite app_assoc. apply elem_of_app. by left.
  - intros v c Hv Hc.
    assert (∀ p, p ∈ geo_parts pycountry v → p ∈ blob_parts pycountry f) as Hg.
    { intros p Hp. unfold blob_parts. rewrite !elem_of_app.
      rewrite !elem_of_cons, elem_of_nil in Hv.
      destruct Hv as [-> | [-> | [-> | [-> | []]]]];
        [do 3 right; left | do 4 right; left | do 5 right; left | do 6 right]; done. }
    assert (c ∈ geo_parts pycountry v) as Hcg.
    { apply list_elem_of_bind. exists c. split; [by left | done]. }
    split; [by apply blob_part_indexed, Hg|].
    destruct (nonempty (_iso2_to_country_name pycountry c)) eqn:Hn;
      [|apply nonempty_false in Hn; rewrite Hn, normalize_nil; apply infix_nil].
    destruct (decide (_iso2_to_country_name pycountry c = c)) as [-> | Hneq];
      [by apply blob_part_indexed, Hg|].
    apply blob_part_indexed, Hg, list_elem_of_bind. exists c. split; [|done].
    cbn zeta. rewrite Hn, bool_decide_eq_false_2 by done. right. by left.
Qed.

Lemma search_blob_indexes_witness :
  infix (_normalize_text (title ex_fields)) (_blob (annotate None ex_fields)) ∧
  infix (_normalize_text (lit "NG")) (_blob (annotate None ex_fields)).
Proof.
  destruct (search_blob_indexes None ex_fields) as (Hs & _ & Hg). split.
  - apply Hs. left.
  - refine (proj1 (Hg (setting_country ex_fields) (lit "NG") _ _)); [right; left|].
    vm_compute. left.
Defined.

