(* ===== verification/Requester.v ===== *)
(** * Recommendation requester (atlas_chat.py, lines 294-455)

    [_recommend_with_llm] projects the candidates to a compact list, writes
    the instructions, the strict output schema and the input items (a
    context block, a candidates block, then the last twelve history turns),
    posts the payload through [_call_openai] and parses the reply with
    [_parse_output_text_json].

    The collaborators are section variables: [json_dumps] and [json_loads]
    (the [json] module; [json_loads] may raise), and [http_post]
    ([requests.post] with its URL, headers, body and timeout, answering a
    status, a body text and [r.json()], which may raise).  [ATLAS_CHAT_MODEL]
    is the environment setting. *)

From S2P Require Import Prelude PyStr PyVal Text Intent Geo Catalog.

(** The response of [requests.post]: [r.status_code], [r.text], [r.json()]. *)
Record http_response := { status_code : Z; resp_text : pystr; resp_json : py pyval }.

(** [0.35] *)
Definition float_0_35 : pyfloat := {| fl_repr := lit "0.35"; fl_nonzero := true; fl_int := Some 0%Z |}.

(** One line of a string literal, with its ["\n"]. *)
Definition line (s : string) : pystr := lit s ++ [10%N].

Definition instructions (wants_single : bool) : pystr :=
  line "You are Atlas, a book recommender."
  ++ line "Your only hard constraint is: recommend ONLY books that exist in CANDIDATES." ++ [10%N]
  ++ line "Geography behavior:"
  ++ line "- The user's prompt is authoritative."
  ++ line "- If the user mentions a country/continent/region (e.g., Africa, South America), you must satisfy that request."
  ++ line "- Use AVAILABLE_COUNTRIES as the set of ISO2 codes that exist in the catalog."
  ++ line "- Use your world knowledge to map continents/regions to ISO2 codes, then choose only ISO2 codes that are present in AVAILABLE_COUNTRIES."
  ++ line "- Match the user's requested geography primarily using places.override (country_override). If override is missing, fall back to setting/author."
  ++ line "- selected_iso2 is a UI hint ONLY when the user did not specify a location."
  ++ line "- If you cannot find any matching book(s) in CANDIDATES for the user's geography constraint, return recommendations as an empty list and explain briefly in assistant_markdown." ++ [10%N]
  ++ line "Output requirements:"
  ++ line "- assistant_markdown must be prose only (1–3 sentences). No headings, no bullet points, no numbered lists."
  ++ line "- Each mentioned book must be formatted as: **Title** by Author."
  ++ lit "- Return " ++ (if wants_single then lit "exactly 1" else lit "up to 3")
  ++ line " recommendation(s)."
  ++ line "- assistant_markdown must mention ALL recommended books (and only those books)."
  ++ line "- Each recommendations[i].reason must be exactly 1 sentence grounded in metadata."
  ++ line "- follow_up_questions should usually be empty."
  ++ line "- actions must be an empty list.".

Definition str_v (s : string) : pyval := PStr (lit s).

Definition schema : pyval :=
  PDict [(lit "type", str_v "object");
         (lit "additionalProperties", PBool false);
         (lit "properties", PDict [
            (lit "assistant_markdown", PDict [(lit "type", str_v "string")]);
            (lit "recommendations", PDict [
               (lit "type", str_v "array");
               (lit "items", PDict [
                  (lit "type", str_v "object");
                  (lit "additionalProperties", PBool false);
                  (lit "properties", PDict [
                     (lit "book_id", PDict [(lit "type", str_v "string")]);
                     (lit "reason", PDict [(lit "type", str_v "string")])]);
                  (lit "required", PList [str_v "book_id"; str_v "reason"])])]);
            (lit "follow_up_questions", PDict [
               (lit "type", str_v "array"); (lit "items", PDict [(lit "type", str_v "string")])]);
            (lit "actions", PDict [
               (lit "type", str_v "array"); (lit "maxItems", PInt 0);
               (lit "items", PDict [
                  (lit "type", str_v "object"); (lit "additionalProperties", PBool false);
                  (lit "properties", PDict []); (lit "required", PList [])])])]);
         (lit "required", PList [str_v "assistant_markdown"; str_v "recommendations";
                                 str_v "follow_up_questions"; str_v "actions"])].

(** The compact projection of a candidate. *)
Definition compact_book (b : atlas_book) : pyval :=
  let f := fields b in
  PDict [(lit "id", PStr (b_id f)); (lit "title", PStr (title f)); (lit "author", PStr (author f));
         (lit "year", PStr (year f)); (lit "page_count", PInt (page_count f));
         (lit "tags", PList (take 16 (tags f))); (lit "categories", PList (take 16 (categories f)));
         (lit "places", places_val (_places b));
         (lit "summary", PStr (take 650 (if nonempty (summary f) then summary f
                                         else if nonempty (description f) then description f
                                         else [])))].

(** The input item of one history turn, if it is kept. *)
Definition history_item (m : pystr * pystr) : option pyval :=
  let role := lower (strip m.1) in
  let content := strip m.2 in
  if bool_decide (role = lit "user") && nonempty content then
    Some (PDict [(lit "role", str_v "user");
                 (lit "content", PList [PDict [(lit "type", str_v "input_text"); (lit "text", PStr content)]])])
  else if bool_decide (role = lit "assistant") && nonempty content then
    Some (PDict [(lit "role", str_v "assistant");
                 (lit "content", PList [PDict [(lit "type", str_v "output_text"); (lit "text", PStr content)]])])
  else None.

Section requester.
Context (json_dumps : pyval → pystr) (json_loads : pystr → py pyval).
Context (http_post : pystr → list (pystr * pystr) → pystr → Z → py http_response).
Context (ATLAS_CHAT_MODEL : pystr).

Definition developer_item (text : pystr) : pyval :=
  PDict [(lit "role", str_v "developer");
         (lit "content", PList [PDict [(lit "type", str_v "input_text"); (lit "text", PStr text)]])].

Definition input_items (history : list (pystr * pystr)) (user_text : pystr)
    (selected_iso2 : option pystr) (available_countries : list place)
    (candidates : list atlas_book) : list pyval :=
  let context_obj :=
    PDict [(lit "user_text", PStr user_text);
           (lit "selected_iso2", PStr (default [] selected_iso2));
           (lit "available_countries", PList (map place_val available_countries))] in
  [developer_item (lit "CONTEXT:" ++ [10%N] ++ json_dumps context_obj);
   developer_item (lit "CANDIDATES:" ++ [10%N] ++ json_dumps (PList (map compact_book candidates)))]
  ++ omap history_item (last_n 12 history).

Definition payload (history : list (pystr * pystr)) (user_text : pystr)
    (selected_iso2 : option pystr) (available_countries : list place)
    (candidates : list atlas_book) : pyval :=
  PDict [(lit "model", PStr ATLAS_CHAT_MODEL);
         (lit "instructions", PStr (instructions (_user_wants_single user_text)));
         (lit "input", PList (input_items history user_text selected_iso2 available_countries candidates));
         (lit "text", PDict [(lit "format", PDict [
            (lit "type", str_v "json_schema"); (lit "name", str_v "atlas_chat_response");
            (lit "strict", PBool true); (lit "schema", schema)])]);
         (lit "temperature", PFloat float_0_35);
         (lit "max_output_tokens", PInt 900)].

Definition openai_url : pystr := lit "https://api.openai.com/v1/responses".

Definition openai_headers (api_key : pystr) : list (pystr * pystr) :=
  [(lit "Authorization", lit "Bearer " ++ api_key); (lit "Content-Type", lit "application/json")].

Definition _call_openai (api_key : pystr) (p : pyval) : py pyval :=
  r ← http_post openai_url (openai_headers api_key) (json_dumps p) 45;
  if (400 <=? status_code r)%Z
  then Err (RuntimeError (lit "OpenAI HTTP " ++ show_Z (status_code r) ++ lit ": " ++ resp_text r))
  else resp_json r.

(** [try: return json.loads(s) except Exception: return {}] *)
Definition loads_or_empty (s : pystr) : pyval :=
  match json_loads s with Ok v => v | Err _ => PDict [] end.

(** [for c in content: ...]: [Some v] when the loop returns [v]. *)
Fixpoint scan_content (cs : list pyval) : py (option pyval) :=
  match cs with
  | [] => Ok None
  | c :: cs' =>
      ty ← get c (lit "type");
      if is_str_eq ty (lit "output_text") then
        tx ← get c (lit "text");
        match tx with
        | PStr s => if nonempty (strip s) then Ok (Some (loads_or_empty s)) else scan_content cs'
        | _ => scan_content cs'
        end
      else scan_content cs'
  end.

(** [for item in out: ...] *)
Fixpoint scan_output (items : list pyval) : py (option pyval) :=
  match items with
  | [] => Ok None
  | item :: rest =>
      ty ← get item (lit "type");
      (if is_str_eq ty (lit "message")
       then ro ← get item (lit "role"); Ok (is_str_eq ro (lit "assistant"))
       else Ok false) ≫= λ is_msg : bool,
      if is_msg then
        content ← get item (lit "content");
        cs ← py_iter (py_or content (PList []));
        r ← scan_content cs;
        match r with Some v => Ok (Some v) | None => scan_output rest end
      else scan_output rest
  end.

(** The [try] block over [resp_json.get("output")], every exception
    falling through to [return {}]. *)
Definition parse_output_array (resp : pyval) : pyval :=
  match out ← get resp (lit "output"); items ← py_iter (py_or out (PList [])); scan_output items with
  | Ok (Some v) => v
  | _ => PDict []
  end.

Definition _parse_output_text_json (resp : pyval) : py pyval :=
  txt ← get resp (lit "output_text");
  match txt with
  | PStr s => if nonempty (strip s) then Ok (loads_or_empty s) else Ok (parse_output_array resp)
  | _ => Ok (parse_output_array resp)
  end.

Definition _recommend_with_llm (api_key : pystr) (history : list (pystr * pystr))
    (user_text : pystr) (selected_iso2 : option pystr) (available_countries : list place)
    (candidates : list atlas_book) : py pyval :=
  resp ← _call_openai api_key (payload history user_text selected_iso2 available_countries candidates);
  _parse_output_text_json resp.

End requester.

(** ** Replies *)

(** The two shapes of a reply carrying the text [s]. *)
Definition reply_output_text (s : pystr) : pyval := PDict [(lit "output_text", PStr s)].

Definition reply_output_array (s : pystr) : pyval :=
  PDict [(lit "output", PList [PDict [
    (lit "type", str_v "message"); (lit "role", str_v "assistant");
    (lit "content", PList [PDict [(lit "type", str_v "output_text"); (lit "text", PStr s)]])]])].

Section reply_lemmas.
Context (json_loads : pystr → py pyval).

Lemma parse_reply_output_text s :
  _parse_output_text_json json_loads (reply_output_text s)
  = Ok (if nonempty (strip s) then loads_or_empty json_loads s else PDict []).
Proof. cbv -[strip nonempty loads_or_empty]. by destruct (nonempty (strip s)). Qed.

Lemma parse_reply_output_array s :
  _parse_output_text_json json_loads (reply_output_array s)
  = Ok (if nonempty (strip s) then loads_or_empty json_loads s else PDict []).
Proof. cbv -[strip nonempty loads_or_empty]. by destruct (nonempty (strip s)). Qed.
End reply_lemmas.

(** ** The theorems *)

Definition ex_reply_value : pyval :=
  PDict [(lit "assistant_markdown", str_v "Try **Americanah** by Chimamanda Ngozi Adichie.")].

Definition ex_dumps (_ : pyval) : pystr := lit "{...}".

Definition ex_loads (s : pystr) : py pyval :=
  if decide (s = lit "{...}") then Ok ex_reply_value else Err ValueError.

(** [C16]: what the model serialised is what the requester returns, in
    both shapes of a reply ([output_text], or an assistant message whose
    content holds an [output_text] item), whenever [json.loads] reads back
    what [json.dumps] wrote and the text is not blank. *)
Theorem parse_reply_roundtrip (json_dumps : pyval → pystr) (json_loads : pystr → py pyval) v :
  json_loads (json_dumps v) = Ok v → strip (json_dumps v) ≠ [] →
  _parse_output_text_json json_loads (reply_output_text (json_dumps v)) = Ok v ∧
  _parse_output_text_json json_loads (reply_output_array (json_dumps v)) = Ok v.
Proof.
  intros Hl Hne. rewrite parse_reply_output_text, parse_reply_output_array.
  apply nonempty_true in Hne. rewrite Hne. unfold loads_or_empty. by rewrite Hl.
Qed.

Lemma parse_reply_roundtrip_witness :
  _parse_output_text_json ex_loads (reply_output_array (ex_dumps ex_reply_value)) = Ok ex_reply_value.
Proof. apply (parse_reply_roundtrip ex_dumps ex_loads); by vm_compute. Defined.

(** [C17]: [_parse_output_text_json] raises only when the reply is not a
    dict, and then [AttributeError] (from [resp_json.get]); on every dict
    it returns a value, malformed output text giving [{}]. *)
Theorem parse_reply_raises (json_loads : pystr → py pyval) resp :
  (∀ e, _parse_output_text_json json_loads resp = Err e → e = AttributeError) ∧
  (is_Some (as_dict resp) ↔ ∃ v, _parse_output_text_json json_loads resp = Ok v).
Proof.
  destruct resp as [| | | | | |d]; unfold _parse_output_text_json; cbn [get mbind result_bind];
    try (split; [by intros e [= <-] | split; [by intros [? ?] | by intros [? ?]]]).
  destruct (dict_get d (lit "output_text")); try destruct (nonempty _);
    (split; [discriminate | split; [eauto | done]]).
Qed.

(** [C18]: a reply status of 400 or more is a hard failure: [_call_openai]
    raises a [RuntimeError] whose message embeds the response body. *)
Theorem call_openai_http_error (json_dumps : pyval → pystr)
    (http_post : pystr → list (pystr * pystr) → pystr → Z → py http_response) api_key p r :
  http_post openai_url (openai_headers api_key) (json_dumps p) 45%Z = Ok r →
  (400 <= status_code r)%Z →
  ∃ msg, _call_openai json_dumps http_post api_key p = Err (RuntimeError msg) ∧ infix (resp_text r) msg.
Proof.
  intros Hp Hs. unfold _call_openai. rewrite Hp. cbn [mbind result_bind].
  apply Z.leb_le in Hs. rewrite Hs. eexists. split; [reflexivity|].
  apply infix_app_l, infix_app_l, infix_app_l, infix_refl.
Qed.

Definition ex_response : http_response :=
  {| status_code := 429; resp_text := lit "rate limited"; resp_json := Ok (PDict []) |}.

Definition ex_post (_ : pystr) (_ : list (pystr * pystr)) (_ : pystr) (_ : Z) : py http_response :=
  Ok ex_response.

Lemma call_openai_http_error_witness :
  ∃ msg, _call_openai ex_dumps ex_post (lit "sk") ex_reply_value = Err (RuntimeError msg)
         ∧ infix (lit "rate limited") msg.
Proof.
  apply (call_openai_http_error ex_dumps ex_post (lit "sk") ex_reply_value ex_response);
    [reflexivity | simpl; lia].
Defined.

Lemma history_item_spec m t :
  history_item m = Some t →
  (lower (strip m.1) = lit "user" ∨ lower (strip m.1) = lit "assistant") ∧ strip m.2 ≠ [].
Proof.
  unfold history_item. intros H.
  destruct (nonempty (strip m.2)) eqn:Hc; [|by rewrite !andb_false_r in H].
  apply nonempty_true in Hc. split; [|done]. rewrite !andb_true_r in H.
  case_bool_decide; [by left|]. case_bool_decide; [by right | discriminate].
Qed.

Lemma last_n_suffix {A} n (l : list A) : last_n n l `suffix_of` l ∧ length (last_n n l) ≤ n.
Proof. unfold last_n. split; [apply suffix_drop | rewrite length_drop; lia]. Qed.

(** [C19]: the model's input is the context block, the candidates block,
    then at most twelve turns, each a user or assistant message among the
    last twelve of the history, with non-empty stripped content. *)
Theorem input_items_shape (json_dumps : pyval → pystr) history user_text sel avail cands :
  let items := input_items json_dumps history user_text sel avail cands in
  length items ≤ 14 ∧
  take 2 items = [developer_item (lit "CONTEXT:" ++ [10%N] ++ json_dumps
                    (PDict [(lit "user_text", PStr user_text);
                            (lit "selected_iso2", PStr (default [] sel));
                            (lit "available_countries", PList (map place_val avail))]));
                  developer_item (lit "CANDIDATES:" ++ [10%N] ++
                    json_dumps (PList (map compact_book cands)))] ∧
  ∀ t, t ∈ drop 2 items →
    ∃ m, m ∈ last_n 12 history ∧ history_item m = Some t ∧
         (lower (strip m.1) = lit "user" ∨ lower (strip m.1) = lit "assistant") ∧ strip m.2 ≠ [].
Proof.
  cbn zeta. unfold input_items. cbn zeta.
  destruct (last_n_suffix 12 history) as [_ Hl].
  split; [pose proof (length_omap_le history_item (last_n 12 history)); simpl; lia|].
  split; [done|]. cbn [drop]. intros t (m & Ht & Hm)%list_elem_of_omap.
  exists m. split; [done|]. split; [done|]. by eapply history_item_spec.
Qed.

