(* ===== verification/Validator.v ===== *)
(** * Response validator/repairer (atlas_chat.py, lines 458-581)

    [_sanitize_assistant_markdown], [_build_synced_markdown] and
    [_validate_payload], over any JSON value [parsed] (the model's output,
    possibly malformed) and the catalog's [by_id] map.  The validator sees a
    catalog record only through [RecordView] ([b.get(field)]), the interface
    the catalog indexer implements.  [ATLAS_CHAT_BUILD] (an environment
    setting) is a section variable.  The last section shows, by
    well-founded induction over the scan of [re.sub], that the sanitised
    prose holds no run of three newlines. *)

From S2P Require Import Prelude PyStr PyVal Regex Text Intent.

(** ** The line-anchored patterns of [_sanitize_assistant_markdown] *)

Definition is_hash (c : N) : bool := (c =? 35)%N.
Definition is_bullet (c : N) : bool := (c =? 45)%N || (c =? 42)%N || (c =? 8226)%N.
Definition is_newline (c : N) : bool := (c =? 10)%N.

(** [^\s*#{1,6}\s*] *)
Definition m_heading : matcher := λ s,
  let '(w, r1) := span is_space s in
  match run_len is_hash r1 with
  | O => None
  | h => let k := min h 6 in Some (length w + k + run_len is_space (drop k r1))
  end.

(** [^\s*[-*•]\s+] *)
Definition m_bullet : matcher := λ s,
  let '(w, r1) := span is_space s in
  match r1 with
  | c :: r2 =>
      if is_bullet c then
        match run_len is_space r2 with O => None | n => Some (length w + 1 + n) end
      else None
  | [] => None
  end.

(** [^\s*\d+\.\s+] *)
Definition m_numbered : matcher := λ s,
  let '(w, r1) := span is_space s in
  match run_len is_digit r1 with
  | O => None
  | d =>
      match drop d r1 with
      | c :: r2 =>
          if (c =? 46)%N then
            match run_len is_space r2 with O => None | n => Some (length w + d + 1 + n) end
          else None
      | [] => None
      end
  end.

(** [\n{3,}] *)
Definition m_newlines : matcher := λ s,
  let n := run_len is_newline s in if 3 <=? n then Some n else None.

Definition _sanitize_assistant_markdown (md : pyval) : pystr :=
  let text := strip (py_str (py_or md (PStr []))) in
  if bool_decide (text = []) then [] else
  let text := re_sub true m_heading [] text in
  let text := re_sub true m_bullet [] text in
  let text := re_sub true m_numbered [] text in
  let text := strip (re_sub false m_newlines [10%N; 10%N] text) in
  if 900 <? length text then rstrip (take 900 text) else text.

(** ** Envelope *)

Record rec_item := { book_id : pystr; reason : pystr }.

Record envelope := {
  assistant_markdown : pystr;
  recommendations : list rec_item;
  follow_up_questions : list pystr;
  actions : list pyval;
  build : pystr
}.

Definition MSG_NO_MATCH : pystr :=
  lit "I couldn’t find a match for that in the Atlas catalog yet. Try a different country/region or tell me a different vibe, and I’ll stick to what’s in the list.".

Definition MSG_PROMPT : pystr :=
  lit "Tell me what kind of book you're looking for — vibe, setting, themes, anything. I’ll only recommend from the Atlas list.".

Section Validator.
Context `{RecordView B}.
Context (ATLAS_CHAT_BUILD : pystr).
Implicit Types (by_id : gmap pystr B).

(** [str(x or "").strip()] *)
Definition str_field (v : pyval) : pystr := strip (py_str (py_or v (PStr []))).

(** [_fmt(bid)]: [b = by_id.get(bid) or {}], then title and author. *)
Definition _fmt by_id (bid : pystr) : pystr * pystr :=
  match by_id !! bid with
  | Some b => (str_field (record_get b (lit "title")), str_field (record_get b (lit "author")))
  | None => ([], [])
  end.

Definition _build_synced_markdown by_id (clean_recs : list rec_item) : pystr :=
  match clean_recs with
  | [] => []
  | [r] =>
      let '(title, author) := _fmt by_id (book_id r) in
      let rsn := strip (reason r) in
      if nonempty title && nonempty author then
        if nonempty rsn then
          _sanitize_assistant_markdown (PStr (lit "I recommend **" ++ title ++ lit "** by "
                                              ++ author ++ lit ". " ++ rsn))
        else _sanitize_assistant_markdown (PStr (lit "I recommend **" ++ title ++ lit "** by "
                                                   ++ author ++ lit "."))
      else []
  | r1 :: r2 :: rest =>
      let '(t1, a1) := _fmt by_id (book_id r1) in
      let '(t2, a2) := _fmt by_id (book_id r2) in
      match rest with
      | [] =>
          if nonempty t1 && nonempty a1 && nonempty t2 && nonempty a2 then
            _sanitize_assistant_markdown (PStr (lit "Two good picks: **" ++ t1 ++ lit "** by "
                ++ a1 ++ lit " and **" ++ t2 ++ lit "** by " ++ a2 ++ lit "."))
          else if nonempty t1 && nonempty a1 then
            _sanitize_assistant_markdown (PStr (lit "My top pick is **" ++ t1 ++ lit "** by "
                ++ a1 ++ lit "."))
          else []
      | r3 :: _ =>
          let '(t3, a3) := _fmt by_id (book_id r3) in
          if nonempty t1 && nonempty a1 && nonempty t2 && nonempty a2
             && nonempty t3 && nonempty a3 then
            _sanitize_assistant_markdown (PStr (lit "Three picks: **" ++ t1 ++ lit "** by "
                ++ a1 ++ lit ", **" ++ t2 ++ lit "** by " ++ a2 ++ lit ", and **" ++ t3
                ++ lit "** by " ++ a3 ++ lit "."))
          else if nonempty t1 && nonempty a1 then
            _sanitize_assistant_markdown (PStr (lit "My top pick is **" ++ t1 ++ lit "** by "
                ++ a1 ++ lit "."))
          else []
      end
  end.

(** The [for r in recs] loop with its [seen_ids] set. *)
Fixpoint clean_recs_go by_id (seen_ids : gset pystr) (recs : list pyval) : list rec_item :=
  match recs with
  | [] => []
  | r :: rs =>
      match r with
      | PDict d =>
          match dict_get d (lit "book_id") with
          | PStr bid =>
              if bool_decide (is_Some (by_id !! bid)) && negb (bool_decide (bid ∈ seen_ids))
              then {| book_id := bid;
                      reason := take 240 (str_field (dict_get d (lit "reason"))) |}
                     :: clean_recs_go by_id ({[bid]} ∪ seen_ids) rs
              else clean_recs_go by_id seen_ids rs
          | _ => clean_recs_go by_id seen_ids rs
          end
      | _ => clean_recs_go by_id seen_ids rs
      end
  end.

(** [for q in fups[:2]: if isinstance(q, str) and q.strip(): ...] *)
Definition clean_fups (fups : list pyval) : list pystr :=
  omap (λ q, match q with
             | PStr s => if nonempty (strip s) then Some (take 180 (strip s)) else None
             | _ => None
             end) (take 2 fups).

(** The consistency check: every non-empty title occurs in the prose. *)
Definition titles_ok by_id (clean_recs : list rec_item) (md_norm : pystr) : bool :=
  forallb (λ r, let title := (_fmt by_id (book_id r)).1 in
                negb (nonempty title) || contains (_normalize_text title) md_norm)
    clean_recs.

(** [parsed.get(key) if isinstance(parsed, dict) and isinstance(..., list) else []] *)
Definition list_field (parsed : pyval) (key : pystr) : list pyval :=
  match parsed with
  | PDict d => match dict_get d key with PList l => l | _ => [] end
  | _ => []
  end.

Definition _validate_payload (parsed : pyval) by_id (user_text : pystr) : envelope :=
  let wants_single := _user_wants_single user_text in
  let md := _sanitize_assistant_markdown
              (match parsed with PDict d => dict_get d (lit "assistant_markdown")
                               | _ => PStr [] end) in
  let recs := list_field parsed (lit "recommendations") in
  let fups := list_field parsed (lit "follow_up_questions") in
  let cr := clean_recs_go by_id ∅ recs in
  let cr := if wants_single && (1 <? length cr) then take 1 cr else cr in
  let cr := if negb wants_single && (3 <? length cr) then take 3 cr else cr in
  let cf := clean_fups fups in
  match cr with
  | [] =>
      {| assistant_markdown := if nonempty md then md else MSG_NO_MATCH;
         recommendations := []; follow_up_questions := cf; actions := [];
         build := ATLAS_CHAT_BUILD |}
  | _ =>
      let md :=
        if nonempty md then
          if titles_ok by_id cr (_normalize_text md) then md
          else let fb := _build_synced_markdown by_id cr in if nonempty fb then fb else md
        else let fb := _build_synced_markdown by_id cr in if nonempty fb then fb else md in
      {| assistant_markdown := if nonempty md then md else MSG_PROMPT;
         recommendations := cr; follow_up_questions := cf; actions := [];
         build := ATLAS_CHAT_BUILD |}
  end.
End Validator.

(** ** Lemmas on [_sanitize_assistant_markdown] *)

Lemma sanitize_length md : length (_sanitize_assistant_markdown md) ≤ 900.
Proof.
  unfold _sanitize_assistant_markdown. cbn zeta.
  case_bool_decide; [simpl; lia|].
  match goal with |- context [if 900 <? length ?t then _ else _] =>
    destruct (Nat.ltb_spec 900 (length t)) end; [|lia].
  etrans; [apply length_rstrip|]. rewrite length_take. lia.
Qed.

Abbreviation no_newline s := (Forall (λ d, d ≠ 10%N) s).

Lemma re_sub_go_anch_quiet m rep s : no_newline s → re_sub_go true m rep 0 false s = s.
Proof.
  induction 1 as [|c s Hc _ IH]; [done|]. simpl.
  by rewrite (proj2 (N.eqb_neq c 10) Hc), IH.
Qed.

(** A line-anchored substitution changes nothing on a single line whose
    start the pattern does not match. *)
Lemma re_sub_anch_id m rep c s :
  no_newline (c :: s) → m (c :: s) = None → re_sub true m rep (c :: s) = c :: s.
Proof.
  intros Hnl Hm. inversion Hnl as [|? ? Hc Hs]; subst. unfold re_sub. simpl.
  rewrite Hm, (proj2 (N.eqb_neq c 10) Hc). by rewrite re_sub_go_anch_quiet.
Qed.

Lemma re_sub_newlines_id rep b s : no_newline s → re_sub_go false m_newlines rep 0 b s = s.
Proof.
  intros Hnl. revert b; induction Hnl as [|c s Hc _ IH]; intros b; [done|]. simpl.
  unfold m_newlines. rewrite run_len_cons.
  unfold is_newline. rewrite (proj2 (N.eqb_neq c 10) Hc). simpl. by rewrite IH.
Qed.

(** A character at which no markdown marker can start. *)
Definition plain_start (c : N) : bool :=
  negb (is_space c || is_hash c || is_bullet c || is_digit c).

Lemma plain_start_inv c :
  plain_start c = true →
  is_space c = false ∧ is_hash c = false ∧ is_bullet c = false ∧ is_digit c = false.
Proof. unfold plain_start. rewrite negb_true_iff, !orb_false_iff. tauto. Qed.

Lemma markers_none c s :
  plain_start c = true →
  m_heading (c :: s) = None ∧ m_bullet (c :: s) = None ∧ m_numbered (c :: s) = None.
Proof.
  intros (Hs & Hh & Hb & Hd)%plain_start_inv.
  unfold m_heading, m_bullet, m_numbered. cbn [span]. rewrite Hs.
  by rewrite !run_len_cons, Hh, Hd, Hb.
Qed.

Lemma strip_cons_nonspace c s : is_space c = false → ∃ t, strip (c :: s) = c :: t.
Proof.
  intros Hc. unfold strip. rewrite lstrip_nonspace by done.
  change (c :: s) with ([c] ++ s).
  destruct (rstrip_app [c] s) as [[_ ->] | ->]; [|by eexists].
  exists []. by apply (rstrip_nonspace []).
Qed.

Lemma Forall_infix {A} (P : A → Prop) u v : infix u v → Forall P v → Forall P u.
Proof. intros (a & b & ->). rewrite !Forall_app. tauto. Qed.

(** On one line that starts with a plain character and fits the length
    limit, sanitising is stripping. *)
Lemma sanitize_plain c s :
  plain_start c = true → no_newline (c :: s) → length (strip (c :: s)) ≤ 900 →
  _sanitize_assistant_markdown (PStr (c :: s)) = strip (c :: s).
Proof.
  intros Hp Hnl Hlen.
  destruct (plain_start_inv c Hp) as (Hs & _).
  destruct (strip_cons_nonspace c s Hs) as [t Ht].
  assert (no_newline (c :: t)) as Hnl' by (rewrite <- Ht; eapply Forall_infix; [apply strip_infix|done]).
  unfold _sanitize_assistant_markdown. cbn zeta.
  assert (py_or (PStr (c :: s)) (PStr []) = PStr (c :: s)) as -> by done.
  cbn [py_str]. rewrite Ht.
  rewrite bool_decide_eq_false_2 by done.
  destruct (markers_none c t Hp) as (H1 & H2 & H3).
  rewrite !re_sub_anch_id by done.
  unfold re_sub. rewrite re_sub_newlines_id by done.
  rewrite <- Ht, strip_idemp.
  destruct (Nat.ltb_spec 900 (length (strip (c :: s)))); [lia|done].
Qed.

(** ** Lemmas on the filtering steps *)

Section validator_lemmas.
Context `{RecordView B}.
Implicit Types (by_id : gmap pystr B).

Definition rec_ok by_id (r : rec_item) : Prop :=
  is_Some (by_id !! book_id r) ∧ length (reason r) ≤ 240.

Lemma clean_recs_go_spec by_id seen recs :
  Forall (λ r, rec_ok by_id r ∧ book_id r ∉ seen) (clean_recs_go by_id seen recs) ∧
  NoDup (map book_id (clean_recs_go by_id seen recs)).
Proof.
  revert seen; induction recs as [|r rs IH]; intros seen; simpl; [split; constructor|].
  destruct r as [| | | | |l|d]; try apply IH.
  destruct (dict_get d (lit "book_id")) as [| | | |bid| |]; try apply IH.
  destruct (bool_decide (is_Some (by_id !! bid))) eqn:E1; simpl; [|apply IH].
  destruct (bool_decide (bid ∈ seen)) eqn:E2; simpl; [apply IH|].
  apply bool_decide_eq_true in E1. apply bool_decide_eq_false in E2.
  destruct (IH ({[bid]} ∪ seen)) as [HF HN]. split.
  - constructor.
    + split; [split; [done|apply firstn_le_length]|done].
    + eapply Forall_impl; [exact HF|]. intros x [? Hx]. split; [done|set_solver].
  - constructor; [|done]. intros Hin. apply list_elem_of_In, in_map_iff in Hin as (x & Hx & Hxin).
    apply list_elem_of_In in Hxin.
    rewrite Forall_forall in HF. destruct (HF x Hxin) as [_ Hns]. set_solver.
Qed.

(** The cardinality cap of [_validate_payload] keeps the invariant. *)
Lemma cap_spec (single : bool) (P : rec_item → Prop) (l : list rec_item) :
  Forall P l → NoDup (map book_id l) →
  let l1 := if single && (1 <? length l) then take 1 l else l in
  let l2 := if negb single && (3 <? length l1) then take 3 l1 else l1 in
  Forall P l2 ∧ NoDup (map book_id l2) ∧ length l2 ≤ (if single then 1 else 3).
Proof.
  intros HP HN. cbn zeta.
  assert (∀ k, Forall P (take k l) ∧ NoDup (map book_id (take k l))) as Ht.
  { intros k. split; [by apply Forall_take|].
    rewrite <- firstn_map. eapply sublist_NoDup; [exact HN|apply sublist_take]. }
  destruct single; simpl.
  - destruct (Nat.ltb_spec 1 (length l)); simpl.
    + destruct (Ht 1) as [? ?]. rewrite length_take. repeat split; auto; lia.
    + repeat split; auto.
  - destruct (Nat.ltb_spec 3 (length l)); simpl.
    + destruct (Ht 3) as [? ?]. rewrite length_take. repeat split; auto; lia.
    + repeat split; auto.
Qed.

Lemma clean_fups_spec fups :
  length (clean_fups fups) ≤ 2 ∧ Forall (λ q, q ≠ [] ∧ length q ≤ 180) (clean_fups fups).
Proof.
  unfold clean_fups. split.
  - etrans; [apply length_omap_le|]. apply firstn_le_length.
  - apply Forall_forall. intros q (x & _ & Hx)%list_elem_of_omap.
    destruct x as [| | | |s| |]; try discriminate.
    destruct (nonempty (strip s)) eqn:Hn; [|discriminate]. injection Hx as <-.
    unfold nonempty in Hn. apply negb_true_iff, bool_decide_eq_false in Hn.
    split; [|apply firstn_le_length].
    destruct (strip s); [done|]. discriminate.
Qed.

Lemma synced_length by_id cr : length (_build_synced_markdown by_id cr) ≤ 900.
Proof.
  unfold _build_synced_markdown.
  repeat case_match; try apply sanitize_length; simpl; lia.
Qed.
End validator_lemmas.

Lemma messages_length : length MSG_NO_MATCH ≤ 900 ∧ length MSG_PROMPT ≤ 900.
Proof. split; apply Nat.leb_le; by vm_compute. Qed.

Lemma messages_nonempty : MSG_NO_MATCH ≠ [] ∧ MSG_PROMPT ≠ [].
Proof. split; by vm_compute. Qed.

(** [x if x else y], when [y] is a non-empty message within the limit. *)
Lemma fallback_ok (x y : pystr) :
  length x ≤ 900 → y ≠ [] → length y ≤ 900 →
  (if nonempty x then x else y) ≠ [] ∧ length (if nonempty x then x else y) ≤ 900.
Proof. intros. destruct (nonempty x) eqn:E; [apply nonempty_true in E|]; auto. Qed.

(** The shape every envelope of the validator has. *)
Definition envelope_wf `{RecordView B} (by_id : gmap pystr B) (single : bool)
    (build_id : pystr) (e : envelope) : Prop :=
  assistant_markdown e ≠ [] ∧ length (assistant_markdown e) ≤ 900 ∧
  Forall (rec_ok by_id) (recommendations e) ∧ NoDup (map book_id (recommendations e)) ∧
  length (recommendations e) ≤ (if single then 1 else 3) ∧
  length (follow_up_questions e) ≤ 2 ∧
  Forall (λ q, q ≠ [] ∧ length q ≤ 180) (follow_up_questions e) ∧
  actions e = [] ∧ build e = build_id.

(** The common opening of the proofs about [_validate_payload]: name the
    filtered recommendations and record their invariant. *)
Ltac validate_setup by_id parsed user_text :=
  unfold _validate_payload; cbn zeta;
  let HF := fresh "HF" in let HN := fresh "HN" in let HF' := fresh "HF'" in
  let Hcap := fresh "Hcap" in
  destruct (clean_recs_go_spec by_id ∅ (list_field parsed (lit "recommendations"))) as [HF HN];
  assert (Forall (rec_ok by_id) (clean_recs_go by_id ∅ (list_field parsed (lit "recommendations"))))
    as HF' by (eapply Forall_impl; [exact HF|]; by intros ? []);
  pose proof (cap_spec (_user_wants_single user_text) (rec_ok by_id) _ HF' HN) as Hcap;
  cbn zeta in Hcap;
  set (cr1 := if _user_wants_single user_text && (1 <? length _) then take 1 _ else _) in *;
  set (cr2 := if negb (_user_wants_single user_text) && (3 <? length cr1)
              then take 3 cr1 else cr1) in *;
  destruct Hcap as (HP & HND & HL); clearbody cr2;
  set (md := _sanitize_assistant_markdown _).

Lemma validate_envelope_wf `{RecordView B} (build_id : pystr) (parsed : pyval)
    (by_id : gmap pystr B) (user_text : pystr) :
  envelope_wf by_id (_user_wants_single user_text) build_id
    (_validate_payload build_id parsed by_id user_text).
Proof.
  validate_setup by_id parsed user_text.
  destruct (clean_fups_spec (list_field parsed (lit "follow_up_questions"))) as [HfL HfF].
  destruct messages_length as [Hm1 Hm2]. destruct messages_nonempty as [Hn1 Hn2].
  assert (length md ≤ 900) as Hmd by apply sanitize_length.
  destruct cr2 as [|r rs].
  - destruct (fallback_ok md MSG_NO_MATCH Hmd Hn1 Hm1) as [? ?].
    repeat split; cbn [assistant_markdown recommendations follow_up_questions actions build
      map length]; auto using NoDup_nil_2; lia.
  - pose proof (synced_length by_id (r :: rs)) as Hfb.
    match goal with |- context [if nonempty ?x then ?x else MSG_PROMPT] =>
      assert (length x ≤ 900) as Hx by (repeat case_match; auto);
      destruct (fallback_ok x MSG_PROMPT Hx Hn2 Hm2) as [? ?] end.
    repeat split; cbn [assistant_markdown recommendations follow_up_questions actions build];
      auto.
Qed.

(** [C1]: whatever the model returned, the envelope is well formed: prose
    non-empty and at most 900 characters, every recommendation a distinct
    catalog book with a reason of at most 240 characters, at most one
    recommendation when the user asked for one and at most three otherwise,
    at most two non-empty follow-up questions of at most 180 characters, no
    actions. *)
Theorem validate_payload_wf `{RecordView B} (build_id : pystr) (parsed : pyval)
    (by_id : gmap pystr B) (user_text : pystr) :
  envelope_wf by_id (_user_wants_single user_text) build_id
    (_validate_payload build_id parsed by_id user_text).
Proof. apply validate_envelope_wf. Qed.

(** ** The synthesised prose names every recommended title *)

Definition no_newline_b (s : pystr) : bool := forallb (λ d, negb (d =? 10)%N) s.

Lemma no_newline_b_spec s : no_newline_b s = true → no_newline s.
Proof.
  unfold no_newline_b. rewrite forallb_forall, Forall_forall. intros H d Hd. apply list_elem_of_In, H in Hd.
  apply negb_true_iff, N.eqb_neq in Hd. done.
Qed.

(** Replace the length of each literal by its value. *)
Ltac eval_lit_lengths :=
  repeat match goal with |- context [length (lit ?s)] =>
    let n := eval vm_compute in (length (lit s)) in change (length (lit s)) with n end.

Ltac synth_side :=
  first [ by vm_compute
        | repeat (apply Forall_app; split); first [assumption | apply no_newline_b_spec; by vm_compute]
        | rewrite !length_app; eval_lit_lengths; lia ].

Lemma sanitize_synth (pre : string) (rest : pystr) :
  plain_start (hd 0%N (lit pre)) = true → lit pre ≠ [] →
  no_newline (lit pre ++ rest) → length (lit pre ++ rest) ≤ 900 →
  _sanitize_assistant_markdown (PStr (lit pre ++ rest)) = strip (lit pre ++ rest)
  ∧ strip (lit pre ++ rest) ≠ [].
Proof.
  destruct (lit pre) as [|c l] eqn:E; [done|]. simpl. intros Hp _ Hnl Hlen.
  split; [apply sanitize_plain; [done|done|etrans; [apply length_strip|done]]|].
  destruct (plain_start_inv c Hp) as [Hs _].
  destruct (strip_cons_nonspace c (l ++ rest) Hs) as [t ->]. done.
Qed.

(** The prose the repairer writes for [pre ++ rest] names every [t] in it. *)
Lemma synth_mentions (pre : string) (rest t : pystr) :
  plain_start (hd 0%N (lit pre)) = true → lit pre ≠ [] →
  no_newline (lit pre ++ rest) → length (lit pre ++ rest) ≤ 900 →
  infix t (lit pre ++ rest) →
  infix (_normalize_text t) (_normalize_text (_sanitize_assistant_markdown (PStr (lit pre ++ rest)))).
Proof.
  intros Hp Hne Hnl Hlen Hin. destruct (sanitize_synth pre rest) as [-> _]; [done..|].
  rewrite normalize_strip. by apply normalize_mono.
Qed.

Section synced.
Context `{RecordView B}.
Implicit Types (by_id : gmap pystr B).

(** What the repairer needs of a recommended book: a title and an author,
    each on one line and of reasonable length, and a one-line reason. *)
Definition synth_ready by_id (r : rec_item) : Prop :=
  let '(t, a) := _fmt by_id (book_id r) in
  t ≠ [] ∧ a ≠ [] ∧ no_newline t ∧ no_newline a ∧ no_newline (reason r)
  ∧ length t ≤ 200 ∧ length a ≤ 80.
End synced.

(** Close one template of [_build_synced_markdown]: the prose is non-empty
    and names each listed title. *)
Ltac synth_case :=
  match goal with |- context [_sanitize_assistant_markdown (PStr (lit ?p ++ ?r))] =>
    let Heq := fresh "Heq" in let Hne := fresh "Hne" in let Hin := fresh "Hin" in
    destruct (sanitize_synth p r) as [Heq Hne]; [synth_side..|];
    split; [rewrite Heq; exact Hne|];
    intros ? Hin; apply list_elem_of_In in Hin; simpl in Hin;
    repeat destruct Hin as [<- | Hin]; try contradiction;
    repeat match goal with E : _fmt ?m ?i = _ |- context [_fmt ?m ?i] => rewrite E end;
    cbn [fst]; apply synth_mentions; first [solve_infix | synth_side]
  end.

Lemma synced_mentions `{RecordView B} (by_id : gmap pystr B) (cr : list rec_item) :
  cr ≠ [] → length cr ≤ 3 → Forall (synth_ready by_id) cr → Forall (rec_ok by_id) cr →
  _build_synced_markdown by_id cr ≠ [] ∧
  ∀ r, r ∈ cr → infix (_normalize_text (_fmt by_id (book_id r)).1)
                      (_normalize_text (_build_synced_markdown by_id cr)).
Proof.
  intros Hne Hlen Hsr Hok.
  destruct cr as [|r1 [|r2 [|r3 [|r4 rest]]]]; [done| | | |simpl in Hlen; lia].
  all: unfold _build_synced_markdown; repeat rewrite Forall_cons in Hsr, Hok;
    unfold synth_ready, rec_ok in *.
  - destruct Hsr as [Hs1 _]. destruct Hok as [[_ Hl1] _].
    destruct (_fmt by_id (book_id r1)) as [t1 a1] eqn:E1.
    destruct Hs1 as (Ht & Ha & Nt & Na & Nr & Lt & La).
    rewrite (proj2 (nonempty_true t1) Ht), (proj2 (nonempty_true a1) Ha). cbn [andb].
    assert (no_newline (strip (reason r1))) by (eapply Forall_infix; [apply strip_infix|done]).
    pose proof (length_strip (reason r1)).
    destruct (nonempty (strip (reason r1))); synth_case.
  - destruct Hsr as [Hs1 [Hs2 _]].
    destruct (_fmt by_id (book_id r1)) as [t1 a1] eqn:E1.
    destruct (_fmt by_id (book_id r2)) as [t2 a2] eqn:E2.
    destruct Hs1 as (Ht1 & Ha1 & Nt1 & Na1 & _ & Lt1 & La1).
    destruct Hs2 as (Ht2 & Ha2 & Nt2 & Na2 & _ & Lt2 & La2).
    rewrite (proj2 (nonempty_true t1) Ht1), (proj2 (nonempty_true a1) Ha1),
      (proj2 (nonempty_true t2) Ht2), (proj2 (nonempty_true a2) Ha2). cbn [andb].
    synth_case.
  - destruct Hsr as [Hs1 [Hs2 [Hs3 _]]].
    destruct (_fmt by_id (book_id r1)) as [t1 a1] eqn:E1.
    destruct (_fmt by_id (book_id r2)) as [t2 a2] eqn:E2.
    destruct (_fmt by_id (book_id r3)) as [t3 a3] eqn:E3.
    destruct Hs1 as (Ht1 & Ha1 & Nt1 & Na1 & _ & Lt1 & La1).
    destruct Hs2 as (Ht2 & Ha2 & Nt2 & Na2 & _ & Lt2 & La2).
    destruct Hs3 as (Ht3 & Ha3 & Nt3 & Na3 & _ & Lt3 & La3).
    rewrite (proj2 (nonempty_true t1) Ht1), (proj2 (nonempty_true a1) Ha1),
      (proj2 (nonempty_true t2) Ht2), (proj2 (nonempty_true a2) Ha2),
      (proj2 (nonempty_true t3) Ht3), (proj2 (nonempty_true a3) Ha3). cbn [andb].
    synth_case.
Qed.

(** [C2]: after the consistency repair, the prose names every recommended
    book: the normalised title of each recommendation occurs in the
    normalised prose, whenever the recommended books have a one-line title
    and author of reasonable length and one-line reasons. *)
Theorem validate_titles_mentioned `{RecordView B} (build_id : pystr) (parsed : pyval)
    (by_id : gmap pystr B) (user_text : pystr) :
  let e := _validate_payload build_id parsed by_id user_text in
  Forall (synth_ready by_id) (recommendations e) →
  ∀ r, r ∈ recommendations e →
    infix (_normalize_text (_fmt by_id (book_id r)).1) (_normalize_text (assistant_markdown e)).
Proof.
  validate_setup by_id parsed user_text.
  destruct cr2 as [|r0 rs]; cbn [recommendations assistant_markdown].
  { intros _ r Hr. by apply not_elem_of_nil in Hr. }
  intros Hsr r Hr.
  assert (length (r0 :: rs) ≤ 3) by (destruct (_user_wants_single user_text); lia).
  destruct (synced_mentions by_id (r0 :: rs)) as [Hfb Hm]; [done..|].
  apply nonempty_true in Hfb.
  destruct (nonempty md) eqn:Hmd; cbv iota.
  - destruct (titles_ok by_id (r0 :: rs) (_normalize_text md)) eqn:Hok; cbv iota.
    + rewrite Hmd. cbv iota. unfold titles_ok in Hok. rewrite forallb_forall in Hok.
      apply list_elem_of_In in Hr as Hr'. specialize (Hok r Hr'). cbn beta in Hok.
      rewrite Forall_forall in Hsr. specialize (Hsr r Hr). unfold synth_ready in Hsr.
      destruct (_fmt by_id (book_id r)) as [t a]. destruct Hsr as [Ht _]. cbn [fst] in *.
      rewrite (proj2 (nonempty_true t) Ht) in Hok. by apply contains_spec.
    + rewrite Hfb. cbv iota. rewrite Hfb. by apply Hm.
  - rewrite Hfb. cbv iota. rewrite Hfb. by apply Hm.
Qed.

(** ** The recommendations, functionally *)

(** The [book_id] strings of the dict entries of [recs], in order. *)
Definition candidate_ids (recs : list pyval) : list pystr :=
  omap (λ r, match r with PDict d => as_str (dict_get d (lit "book_id")) | _ => None end) recs.

Lemma clean_recs_go_ids `{RecordView B} (by_id : gmap pystr B) seen recs :
  map book_id (clean_recs_go by_id seen recs)
  = uniq_go seen (filter (λ b, is_Some (by_id !! b)) (candidate_ids recs)).
Proof.
  revert seen; induction recs as [|r rs IH]; intros seen; [done|].
  change (candidate_ids (r :: rs))
    with (match (match r with PDict d => as_str (dict_get d (lit "book_id")) | _ => None end) with
          | Some y => y :: candidate_ids rs | None => candidate_ids rs end).
  destruct r as [| | | | | |d]; simpl; try apply IH.
  destruct (dict_get d (lit "book_id")) as [| | | |bid| |]; simpl; try apply IH.
  rewrite filter_cons.
  destruct (decide (is_Some (by_id !! bid))) as [Hin|Hout].
  - rewrite (bool_decide_eq_true_2 _ Hin). simpl. case_decide as Hs; simpl.
    + rewrite (bool_decide_eq_true_2 _ Hs). apply IH.
    + rewrite (bool_decide_eq_false_2 _ Hs). simpl. by rewrite IH.
  - rewrite (bool_decide_eq_false_2 _ Hout). apply IH.
Qed.

Lemma cap_take (single : bool) (l : list rec_item) :
  (let l1 := if single && (1 <? length l) then take 1 l else l in
   if negb single && (3 <? length l1) then take 3 l1 else l1)
  = take (if single then 1 else 3) l.
Proof.
  cbn zeta. destruct single; simpl.
  - destruct (Nat.ltb_spec 1 (length l)); [done|]. by rewrite take_ge.
  - destruct (Nat.ltb_spec 3 (length l)); [done|]. by rewrite take_ge.
Qed.

Lemma validate_ids `{RecordView B} (build_id : pystr) (parsed : pyval)
    (by_id : gmap pystr B) (user_text : pystr) :
  map book_id (recommendations (_validate_payload build_id parsed by_id user_text))
  = take (if _user_wants_single user_text then 1 else 3)
      (uniq_first (filter (λ b, is_Some (by_id !! b))
                     (candidate_ids (list_field parsed (lit "recommendations"))))).
Proof.
  unfold _validate_payload. cbn zeta. rewrite (cap_take (_user_wants_single user_text)).
  unfold uniq_first. rewrite <- clean_recs_go_ids, firstn_map.
  by destruct (take _ (clean_recs_go _ _ _)).
Qed.

(** [C3]: the recommendations are the first one (when the user asked for a
    single book) or first three of the distinct catalog ids among the
    model's dict entries, in the model's order. *)
Theorem validate_recommendations_ids `{RecordView B} (build_id : pystr) (parsed : pyval)
    (by_id : gmap pystr B) (user_text : pystr) :
  map book_id (recommendations (_validate_payload build_id parsed by_id user_text))
  = take (if _user_wants_single user_text then 1 else 3)
      (uniq_first (filter (λ b, is_Some (by_id !! b))
                     (candidate_ids (list_field parsed (lit "recommendations"))))).
Proof. apply validate_ids. Qed.

(** ** Deciding the repairer's precondition *)

Definition synth_ready_b `{RecordView B} (by_id : gmap pystr B) (r : rec_item) : bool :=
  let '(t, a) := _fmt by_id (book_id r) in
  nonempty t && nonempty a && no_newline_b t && no_newline_b a && no_newline_b (reason r)
  && (length t <=? 200) && (length a <=? 80).

Lemma Forall_synth_ready_b `{RecordView B} (by_id : gmap pystr B) l :
  forallb (synth_ready_b by_id) l = true → Forall (synth_ready by_id) l.
Proof.
  rewrite forallb_forall, Forall_forall. intros Hl r Hr.
  apply list_elem_of_In, Hl in Hr. unfold synth_ready_b, synth_ready in *.
  destruct (_fmt by_id (book_id r)) as [t a].
  rewrite !andb_true_iff, !nonempty_true, !Nat.leb_le in Hr.
  destruct Hr as ((((((? & ?) & ?) & ?) & ?) & ?) & ?).
  repeat split; try done; by apply no_newline_b_spec.
Qed.

(** ** A catalog record as the Python dict it is *)

#[export] Instance dict_record_view : RecordView pydict := dict_get.

Definition ex_by_id : gmap pystr pydict :=
  {[ lit "b1" := [(lit "title", PStr (lit "Things Fall Apart"));
                  (lit "author", PStr (lit "Chinua Achebe"))];
     lit "b2" := [(lit "title", PStr (lit "Americanah"));
                  (lit "author", PStr (lit "Chimamanda Ngozi Adichie"))] ]}.

Definition ex_rec (bid rsn : string) : pyval :=
  PDict [(lit "book_id", PStr (lit bid)); (lit "reason", PStr (lit rsn))].

Lemma validate_titles_mentioned_witness :
  let e := _validate_payload (lit "build") (PDict
             [(lit "assistant_markdown", PStr (lit "Here is something set in Lagos."));
              (lit "recommendations", PList [ex_rec "b1" "A classic."; ex_rec "b2" "Modern."])])
             ex_by_id (lit "books set in Nigeria") in
  recommendations e ≠ [] ∧
  ∀ r, r ∈ recommendations e →
    infix (_normalize_text (_fmt ex_by_id (book_id r)).1) (_normalize_text (assistant_markdown e)).
Proof.
  split; [by vm_compute|].
  apply validate_titles_mentioned. apply Forall_synth_ready_b. vm_compute. reflexivity.
Defined.

(** ** Blank lines: the sanitised prose never holds three newlines in a row *)

Definition nl3 : pystr := [10%N; 10%N; 10%N].

(** No window of [s] starts with three newlines. *)
Fixpoint no_nl3 (s : pystr) : bool :=
  match s with
  | [] => true
  | _ :: s' => negb (starts_with nl3 s) && no_nl3 s'
  end.

Lemma no_nl3_spec s : no_nl3 s = true → ¬ infix nl3 s.
Proof.
  induction s as [|c s IH]; intros H (a & b & Hs); [by destruct a|].
  apply andb_true_iff in H as [H1 H2]. destruct a as [|x a].
  - apply negb_true_iff, not_true_iff_false in H1. apply H1, starts_with_spec. by exists b.
  - injection Hs as -> Hs. apply IH; [done|]. by exists a, b.
Qed.

Lemma no_nl3_plain c Y : (c =? 10)%N = false → no_nl3 (c :: Y) = no_nl3 Y.
Proof. intros Hc. cbn [no_nl3 nl3 starts_with]. by rewrite N.eqb_sym, Hc. Qed.

Lemma no_nl3_after1 c Y : (c =? 10)%N = false → no_nl3 (10%N :: c :: Y) = no_nl3 (c :: Y).
Proof. intros Hc. cbn [no_nl3 nl3 starts_with]. by rewrite (N.eqb_sym 10 c), Hc. Qed.

Lemma no_nl3_after2 c Y : (c =? 10)%N = false → no_nl3 (10%N :: 10%N :: c :: Y) = no_nl3 (c :: Y).
Proof. intros Hc. cbn [no_nl3 nl3 starts_with]. by rewrite (N.eqb_sym 10 c), Hc. Qed.

Lemma m_newlines_short c s :
  (c =? 10)%N = false → m_newlines (c :: s) = None ∧ m_newlines (10%N :: c :: s) = None ∧
  m_newlines (10%N :: 10%N :: c :: s) = None.
Proof.
  intros Hc. unfold m_newlines. rewrite !run_len_cons. unfold is_newline. rewrite Hc.
  split_and!; reflexivity.
Qed.

Lemma re_sub_newlines_plain b c s :
  (c =? 10)%N = false →
  re_sub_go false m_newlines [10%N; 10%N] 0 b (c :: s)
  = c :: re_sub_go false m_newlines [10%N; 10%N] 0 false s.
Proof. intros Hc. rewrite re_sub_go_step, (proj1 (m_newlines_short c s Hc)). by rewrite Hc. Qed.

(** A run of at least three newlines is replaced by two, and the scan
    resumes after the run. *)
Lemma re_sub_newlines_run b s :
  ∃ b', re_sub_go false m_newlines [10%N; 10%N] 0 b (10%N :: 10%N :: 10%N :: s)
        = [10%N; 10%N] ++ re_sub_go false m_newlines [10%N; 10%N] 0 b'
                            (span is_newline (10%N :: 10%N :: 10%N :: s)).2.
Proof.
  pose proof (span_app is_newline (10%N :: 10%N :: 10%N :: s)) as Hsp.
  assert (Hr : run_len is_newline (10%N :: 10%N :: 10%N :: s) = S (S (S (run_len is_newline s))))
    by (by rewrite !run_len_cons).
  assert (Hm : m_newlines (10%N :: 10%N :: 10%N :: s) = Some (S (S (S (run_len is_newline s)))))
    by (unfold m_newlines; by rewrite Hr).
  rewrite re_sub_go_step, Hm.
  assert (Hl : length (span is_newline (10%N :: 10%N :: 10%N :: s)).1
               = run_len is_newline (10%N :: 10%N :: 10%N :: s)) by reflexivity.
  rewrite Hr in Hl. destruct (span is_newline (10%N :: 10%N :: 10%N :: s)) as [l t].
  cbn [fst snd] in Hsp, Hl |- *. destruct l as [|x l']; [discriminate|].
  injection Hsp as -> Hsp. injection Hl as Hl.
  rewrite <- Hsp, <- Hl.
  destruct (re_sub_go_skip false m_newlines [10%N; 10%N] l' t (10 =? 10)%N) as [b' Hb'].
  exists b'. by rewrite Hb'.
Qed.

Lemma re_sub_newlines_no_nl3 b s :
  no_nl3 (re_sub_go false m_newlines [10%N; 10%N] 0 b s) = true.
Proof.
  revert b. induction s as [s IH] using (well_founded_induction (Wf_nat.well_founded_ltof _ length)).
  intros b. unfold Wf_nat.ltof in IH.
  destruct s as [|c s]; [done|]. destruct (c =? 10)%N eqn:Hc.
  2:{ rewrite re_sub_newlines_plain, no_nl3_plain by done. apply IH. simpl. lia. }
  apply N.eqb_eq in Hc as ->. destruct s as [|c2 s]; [done|].
  destruct (c2 =? 10)%N eqn:Hc2.
  2:{ rewrite re_sub_go_step, (proj1 (proj2 (m_newlines_short c2 s Hc2))), re_sub_newlines_plain,
        no_nl3_after1, <- (re_sub_newlines_plain false) by done. apply IH. simpl. lia. }
  apply N.eqb_eq in Hc2 as ->. destruct s as [|c3 s]; [done|].
  destruct (c3 =? 10)%N eqn:Hc3.
  2:{ rewrite re_sub_go_step, (proj2 (proj2 (m_newlines_short c3 s Hc3))). cbn [app].
      rewrite re_sub_go_step, (proj1 (proj2 (m_newlines_short c3 s Hc3))), re_sub_newlines_plain,
        no_nl3_after2, <- (re_sub_newlines_plain false) by done. apply IH. simpl. lia. }
  apply N.eqb_eq in Hc3 as ->. destruct (re_sub_newlines_run b s) as [b' ->].
  pose proof (span_app is_newline (10%N :: 10%N :: 10%N :: s)) as Hsp.
  pose proof (span_snd_head is_newline (10%N :: 10%N :: 10%N :: s)) as Hhd.
  destruct (span is_newline (10%N :: 10%N :: 10%N :: s)) as [l t]. cbn [fst snd] in Hsp, Hhd |- *.
  destruct l as [|x l].
  { cbn [app] in Hsp. subst t. specialize (Hhd _ _ eq_refl). vm_compute in Hhd. discriminate. }
  destruct t as [|d t]; [done|].
  assert (Hd : (d =? 10)%N = false) by (exact (Hhd d t eq_refl)).
  rewrite re_sub_newlines_plain by done. cbn [app]. rewrite no_nl3_after2 by done.
  rewrite <- (re_sub_newlines_plain b') by done. apply IH.
  rewrite <- Hsp. cbn [app length]. rewrite length_app. cbn [length]. lia.
Qed.

Lemma infix_rstrip_take n s : infix (rstrip (take n s)) s.
Proof.
  destruct (rstrip_prefix (take n s)) as [w Hw]. exists [], (w ++ drop n s).
  by rewrite app_nil_l, app_assoc, <- Hw, take_drop.
Qed.

(** [C33]: the sanitised prose never contains three newlines in a row:
    every run of three or more was collapsed to one blank line, and
    neither stripping nor truncating creates a new run. *)
Theorem sanitize_no_triple_newline md : ¬ infix [10%N; 10%N; 10%N] (_sanitize_assistant_markdown md).
Proof.
  unfold _sanitize_assistant_markdown. cbn zeta. case_bool_decide; [by intros ([|] & ? & ?)|].
  match goal with |- context [re_sub false m_newlines _ ?x] =>
    pose proof (no_nl3_spec _ (re_sub_newlines_no_nl3 true x)) as Hn end.
  intros Hin. apply Hn. eapply infix_trans; [exact Hin|].
  case_match; [|apply strip_infix].
  eapply infix_trans; [apply infix_rstrip_take | apply strip_infix].
Qed.
