(* ===== verification/Handler.v ===== *)
(** * Request handler [atlasChat] (atlas_chat.py, lines 28-47 and 584-706)

    The module-level settings read from the environment ([config_of_env]),
    [_json_response], and the HTTP function [atlasChat] as one call: from
    the request, the environment, the clock, the outcome of the store's
    [stream()] and the cache globals to the response, the new cache and the
    payloads posted to the model (the collaborator calls), or an exception
    that escapes the function.  [main.py] only re-exports [atlasChat].

    The collaborators are section variables: the [pycountry] table, the
    [json] functions, [requests.post], and the text Python gives an
    exception in the debug block ([f"{type(e).__name__}: {e}"] and
    [traceback.format_exc()]).

    The theorems follow every branch of [atlasChat] (the [handler_path]
    relation enumerates them), bound the model calls, carry the cache
    invariant of [Catalog] over any sequence of requests, and check the
    validator against its own output as the handler serialises it. *)

From S2P Require Import Prelude PyStr PyVal Text Intent Geo Catalog Requester Validator.

(** ** Settings *)

Record config := {
  ATLAS_CHAT_MODEL : pystr;
  ATLAS_CHAT_CACHE_TTL_SEC : Z;
  ATLAS_CHAT_DEBUG : bool;
  ATLAS_CHAT_BUILD : pystr
}.

(** [os.environ.get(k)] *)
Abbreviation environ := (pystr → option pystr).

(** [os.environ.get(k) or default] *)
Definition env_or (env : environ) (k : string) (default : pystr) : pystr :=
  match env (lit k) with Some v => if nonempty v then v else default | None => default end.

(** Lines 28-31, evaluated at import; [int(...)] can raise. *)
Definition config_of_env (env : environ) : py config :=
  ttl ← py_int (PStr (env_or env "ATLAS_CHAT_CACHE_TTL_SEC" (lit "600")));
  Ok {| ATLAS_CHAT_MODEL := env_or env "ATLAS_CHAT_MODEL" (lit "gpt-4o-mini");
        ATLAS_CHAT_CACHE_TTL_SEC := ttl;
        ATLAS_CHAT_DEBUG := bool_decide (strip (env_or env "ATLAS_CHAT_DEBUG" []) = lit "1");
        ATLAS_CHAT_BUILD := env_or env "ATLAS_CHAT_BUILD" (lit "atlas_chat_2026_01_06e") |}.

(** ** Responses *)

Record response := { status : Z; headers : list (pystr * pystr); body : pyval }.

Definition _json_response (b : pyval) (st : Z) : response :=
  {| status := st;
     headers := [(lit "Content-Type", lit "application/json");
                 (lit "Access-Control-Allow-Origin", lit "*");
                 (lit "Access-Control-Allow-Headers", lit "Content-Type");
                 (lit "Access-Control-Allow-Methods", lit "POST, OPTIONS")];
     body := b |}.

Definition rec_val (r : rec_item) : pyval :=
  PDict [(lit "book_id", PStr (book_id r)); (lit "reason", PStr (reason r))].

(** The dict [_validate_payload] returns. *)
Definition envelope_fields (e : envelope) : pydict :=
  [(lit "assistant_markdown", PStr (assistant_markdown e));
   (lit "recommendations", PList (map rec_val (recommendations e)));
   (lit "follow_up_questions", PList (map PStr (follow_up_questions e)));
   (lit "actions", PList (actions e));
   (lit "build", PStr (build e))].

Definition MSG_SORRY : pystr :=
  lit "Sorry — something went wrong talking to the book brain. Try again in a sec.".

(** ** The request *)

(** [req.method] and [req.get_json(silent=True)], which may raise. *)
Record request := { method : pystr; get_json : py pyval }.

(** [context.get("selected_iso2")], kept when it is two letters once
    stripped and upper-cased. *)
Definition selected_of (v : pyval) : option pystr :=
  match v with
  | PStr s => let s' := upper (strip s) in
              if (length s' =? 2) && isalpha s' then Some s' else None
  | _ => None
  end.

(** The [for m in reversed(messages)] loop: the stripped content of the
    last user message with a non-blank string content. *)
Fixpoint last_user_text_go (ms : list pyval) : pystr :=
  match ms with
  | [] => []
  | m :: ms' =>
      match m with
      | PDict d =>
          if is_str_eq (dict_get d (lit "role")) (lit "user") then
            match dict_get d (lit "content") with
            | PStr c => if nonempty (strip c) then strip c else last_user_text_go ms'
            | _ => last_user_text_go ms'
            end
          else last_user_text_go ms'
      | _ => last_user_text_go ms'
      end
  end.

Definition last_user_text (messages : list pyval) : pystr := last_user_text_go (reverse messages).

(** One turn of the [history] loop, if it is kept. *)
Definition history_turn (m : pyval) : option (pystr * pystr) :=
  match m with
  | PDict d =>
      let role := lower (strip (py_str (py_or (dict_get d (lit "role")) (PStr [])))) in
      match dict_get d (lit "content") with
      | PStr c =>
          if (bool_decide (role = lit "user") || bool_decide (role = lit "assistant"))
             && nonempty (strip c)
          then Some (role, strip c) else None
      | _ => None
      end
  | _ => None
  end.

Definition history_of (messages : list pyval) : list (pystr * pystr) :=
  omap history_turn (last_n 12 messages).

(** [req.get_json(silent=True) or {}], an exception counting as [{}]. *)
Definition body_of (req : request) : pyval :=
  match get_json req with Ok v => py_or v (PDict []) | Err _ => PDict [] end.

(** What a call leaves: the response, the cache globals, and the payloads
    posted to the model. *)
Record outcome := { out_response : response; out_cache : cache; out_llm_calls : list pyval }.

Section handler.
Context (pycountry : option pycountry_db).
Context (json_dumps : pyval → pystr) (json_loads : pystr → py pyval).
Context (http_post : pystr → list (pystr * pystr) → pystr → Z → py http_response).
Context (exc_text format_exc : exn → pystr).
Context (cfg : config) (env : environ).

Definition opt_str (o : option pystr) : pyval := match o with Some s => PStr s | None => PNone end.

(** [os.environ.get(a) or os.environ.get(b)] *)
Definition env_or_env (a b : string) : pyval :=
  match env (lit a) with Some v => if nonempty v then PStr v else opt_str (env (lit b)) | None => opt_str (env (lit b)) end.

(** The fixed envelope with the given prose and no recommendations. *)
Definition message_fields (msg : pystr) : pydict :=
  [(lit "assistant_markdown", PStr msg); (lit "recommendations", PList []);
   (lit "follow_up_questions", PList []); (lit "actions", PList []);
   (lit "build", PStr (ATLAS_CHAT_BUILD cfg))].

Definition with_debug (debug : bool) (d : pydict) (dbg : pydict) : pyval :=
  PDict (d ++ if debug then [(lit "debug", PDict dbg)] else []).

Definition atlasChat (req : request) (now : Z) (stream : py doc_stream) (st : cache) : py outcome :=
  let reply r := Ok {| out_response := r; out_cache := st; out_llm_calls := [] |} in
  if bool_decide (method req = lit "OPTIONS")
  then reply (_json_response (PDict [(lit "ok", PBool true)]) 204) else
  if negb (bool_decide (method req = lit "POST"))
  then reply (_json_response (PDict [(lit "error", str_v "method_not_allowed")]) 405) else
  let body := body_of req in
  dbg ← get body (lit "debug");
  let debug := match dbg with PBool true => true | _ => false end || ATLAS_CHAT_DEBUG cfg in
  ctx ← get body (lit "context");
  let context := match ctx with PDict d => d | _ => [] end in
  let selected_iso2 := selected_of (dict_get context (lit "selected_iso2")) in
  msgs ← get body (lit "messages");
  let messages := match msgs with PList l => l | _ => [] end in
  let user_text := last_user_text messages in
  if negb (nonempty user_text)
  then reply (_json_response (PDict (message_fields MSG_PROMPT)) 200) else
  match _load_atlas_books_cached pycountry (ATLAS_CHAT_CACHE_TTL_SEC cfg) now stream st with
  | Err e => Err e
  | Ok ((all_books, by_id, available), st') =>
  let reply' r := Ok {| out_response := r; out_cache := st'; out_llm_calls := [] |} in
  if negb (nonempty all_books) then
    reply' (_json_response
      (with_debug debug [(lit "error", str_v "catalog_unavailable"); (lit "build", PStr (ATLAS_CHAT_BUILD cfg))]
         [(lit "build", PStr (ATLAS_CHAT_BUILD cfg));
          (lit "firestore_emulator_host", opt_str (env (lit "FIRESTORE_EMULATOR_HOST")));
          (lit "gcloud_project", env_or_env "GCLOUD_PROJECT" "GOOGLE_CLOUD_PROJECT")]) 500) else
  let api_key := env_or env "OPENAI_API_KEY" [] in
  if negb (nonempty api_key) then
    reply' (_json_response
      (with_debug debug [(lit "error", str_v "missing_openai_api_key"); (lit "build", PStr (ATLAS_CHAT_BUILD cfg))]
         [(lit "build", PStr (ATLAS_CHAT_BUILD cfg))]) 500) else
  let history := history_of messages in
  let p := payload json_dumps (ATLAS_CHAT_MODEL cfg) history user_text selected_iso2 available all_books in
  let r :=
    match _recommend_with_llm json_dumps json_loads http_post (ATLAS_CHAT_MODEL cfg) api_key history
            user_text selected_iso2 available all_books with
    | Ok parsed =>
        let clean := _validate_payload (ATLAS_CHAT_BUILD cfg) parsed by_id user_text in
        _json_response
          (with_debug debug (envelope_fields clean)
             [(lit "candidates", PInt (Z.of_nat (length all_books)));
              (lit "catalog_total", PInt (Z.of_nat (length all_books)));
              (lit "countries", PInt (Z.of_nat (length available)));
              (lit "selected_iso2", opt_str selected_iso2);
              (lit "model", PStr (ATLAS_CHAT_MODEL cfg));
              (lit "build", PStr (ATLAS_CHAT_BUILD cfg))]) 200
    | Err e =>
        _json_response
          (with_debug debug (message_fields MSG_SORRY)
             [(lit "error", PStr (take 1800 (exc_text e)));
              (lit "trace", PStr (last_n 3000 (format_exc e)));
              (lit "model", PStr (ATLAS_CHAT_MODEL cfg));
              (lit "has_key", PBool true);
              (lit "selected_iso2", opt_str selected_iso2);
              (lit "build", PStr (ATLAS_CHAT_BUILD cfg))]) 200
    end in
  Ok {| out_response := r; out_cache := st'; out_llm_calls := [p] |}
  end.

End handler.

(** ** Lemmas *)

Lemma post_ne_options : lit "POST" ≠ lit "OPTIONS".
Proof. intros H. vm_compute in H. discriminate. Qed.

Lemma py_or_dict d : py_or (PDict d) (PDict []) = PDict d.
Proof. by destruct d. Qed.

(** The fixed envelopes are envelopes with no recommendations. *)
Definition message_envelope (build_id msg : pystr) : envelope :=
  {| assistant_markdown := msg; recommendations := []; follow_up_questions := [];
     actions := []; build := build_id |}.

Lemma message_fields_envelope cfg msg :
  message_fields cfg msg = envelope_fields (message_envelope (ATLAS_CHAT_BUILD cfg) msg).
Proof. reflexivity. Qed.

Lemma message_envelope_wf `{RecordView B} (by_id : gmap pystr B) single build_id msg :
  msg ≠ [] → length msg ≤ 900 → envelope_wf by_id single build_id (message_envelope build_id msg).
Proof.
  intros Hne Hl. repeat split; cbn [message_envelope assistant_markdown recommendations follow_up_questions actions build map length];
    try done; try constructor; try lia; destruct single; lia.
Qed.

Lemma msg_sorry_ok : MSG_SORRY ≠ [] ∧ length MSG_SORRY ≤ 900.
Proof. split; [intros H; vm_compute in H; discriminate | vm_compute; lia]. Qed.

Lemma with_debug_shape debug d dbg :
  ∃ extra, with_debug debug d dbg = PDict (d ++ extra) ∧ (extra = [] ∨ ∃ v, extra = [(lit "debug", v)]).
Proof. destruct debug; eexists; (split; [reflexivity|]); eauto. Qed.

Section handler_lemmas.
Context (pycountry : option pycountry_db).
Context (json_dumps : pyval → pystr) (json_loads : pystr → py pyval).
Context (http_post : pystr → list (pystr * pystr) → pystr → Z → py http_response).
Context (exc_text format_exc : exn → pystr).
Context (cfg : config) (env : environ).

Local Abbreviation handle := (atlasChat pycountry json_dumps json_loads http_post exc_text format_exc cfg env).
Local Abbreviation load := (_load_atlas_books_cached pycountry (ATLAS_CHAT_CACHE_TTL_SEC cfg)).

(** The [messages] of a dict body. *)
Definition body_messages (d : pydict) : list pyval :=
  match dict_get d (lit "messages") with PList l => l | _ => [] end.

(** The paths of a call that returns. *)
Inductive handler_path (req : request) (now : Z) (stream : py doc_stream) (st : cache) : outcome → Prop :=
| path_method r :
    status r = 204%Z ∨ status r = 405%Z →
    handler_path req now stream st {| out_response := r; out_cache := st; out_llm_calls := [] |}
| path_prompt :
    handler_path req now stream st
      {| out_response := _json_response (PDict (message_fields cfg MSG_PROMPT)) 200;
         out_cache := st; out_llm_calls := [] |}
| path_fail snap st' r :
    load now stream st = Ok (snap, st') → status r = 500%Z →
    handler_path req now stream st {| out_response := r; out_cache := st'; out_llm_calls := [] |}
| path_llm d books by_id avail st' p r :
    method req = lit "POST" → body_of req = PDict d →
    last_user_text (body_messages d) ≠ [] →
    load now stream st = Ok ((books, by_id, avail), st') → books ≠ [] →
    env_or env "OPENAI_API_KEY" [] ≠ [] →
    status r = 200%Z →
    ((∃ parsed debug dbg,
        body r = with_debug debug
          (envelope_fields (_validate_payload (ATLAS_CHAT_BUILD cfg) parsed by_id
                              (last_user_text (body_messages d)))) dbg) ∨
     (∃ debug dbg, body r = with_debug debug (message_fields cfg MSG_SORRY) dbg)) →
    handler_path req now stream st {| out_response := r; out_cache := st'; out_llm_calls := [p] |}.

Lemma atlasChat_path req now stream st o :
  handle req now stream st = Ok o → handler_path req now stream st o.
Proof.
  unfold atlasChat. case_bool_decide as Hopt; [intros [= <-]; apply path_method; by left|].
  case_bool_decide as Hpost; cbn [negb]; [|intros [= <-]; apply path_method; by right].
  destruct (body_of req) as [| | | | | |d] eqn:Hb; cbn [get mbind result_bind]; try discriminate.
  fold (body_messages d).
  destruct (nonempty (last_user_text _)) eqn:Hu; cbn [negb]; [|intros [= <-]; apply path_prompt].
  apply nonempty_true in Hu.
  destruct (load now stream st) as [[[[books by_id] avail] st']|e] eqn:Hl; [|discriminate].
  destruct (nonempty books) eqn:Hbk; cbn [negb]; [|intros [= <-]; by eapply path_fail].
  destruct (nonempty (env_or _ _ _)) eqn:Hk; cbn [negb]; [|intros [= <-]; by eapply path_fail].
  apply nonempty_true in Hbk, Hk. intros [= <-].
  eapply path_llm; eauto; destruct (_recommend_with_llm _ _ _ _ _ _ _ _ _ _); eauto 10.
Qed.
End handler_lemmas.

(** The handler opened on a [POST] request. *)
Ltac post_flow Hm :=
  unfold atlasChat; rewrite Hm, (bool_decide_eq_false_2 _ post_ne_options),
    (bool_decide_eq_true_2 (lit "POST" = lit "POST")) by reflexivity; cbn [negb].

Lemma load_snapshot pycountry ttl now stream st books by_id avail st' :
  _load_atlas_books_cached pycountry ttl now stream st = Ok ((books, by_id, avail), st') →
  books = cache_books st' ∧ by_id = cache_by_id st'.
Proof. intros H. apply load_returns in H as [Hs _]. unfold snap_of in Hs. by simplify_eq. Qed.

Lemma load_cache_step pycountry ttl now stream st snap st' :
  _load_atlas_books_cached pycountry ttl now stream st = Ok (snap, st') →
  rtc (cache_step pycountry ttl) st st'.
Proof. intros H. apply rtc_once. by eapply step_return. Qed.

(** ** Examples *)

Definition ex_cfg : config :=
  {| ATLAS_CHAT_MODEL := lit "gpt-4o-mini"; ATLAS_CHAT_CACHE_TTL_SEC := 600;
     ATLAS_CHAT_DEBUG := false; ATLAS_CHAT_BUILD := lit "atlas_chat_2026_01_06e" |}.

Definition ex_env : environ := λ k, if decide (k = lit "OPENAI_API_KEY") then Some (lit "sk") else None.

Definition ex_request (msgs : list pyval) : request :=
  {| method := lit "POST"; get_json := Ok (PDict [(lit "messages", PList msgs)]) |}.

Definition user_msg (s : string) : pyval := PDict [(lit "role", str_v "user"); (lit "content", str_v s)].

Definition ex_stream : py doc_stream := Ok {| ds_docs := [ex_doc]; ds_error := None |}.

Definition ex_timeout (_ : pystr) (_ : list (pystr * pystr)) (_ : pystr) (_ : Z) : py http_response :=
  Err (RuntimeError (lit "Read timed out")).

(** ** The theorems *)

(** [C20]: a [POST] whose messages hold no user text is answered with the
    prompt envelope (status 200) without reading the store or calling the
    model, and the cache is unchanged. *)
Theorem handler_no_user_text pycountry json_dumps json_loads http_post exc_text format_exc cfg env
    req now stream st d :
  method req = lit "POST" → body_of req = PDict d → last_user_text (body_messages d) = [] →
  atlasChat pycountry json_dumps json_loads http_post exc_text format_exc cfg env req now stream st
  = Ok {| out_response := _json_response (PDict (message_fields cfg MSG_PROMPT)) 200;
          out_cache := st; out_llm_calls := [] |}.
Proof.
  intros Hm Hb Hu. post_flow Hm. rewrite Hb. cbn [get mbind result_bind].
  fold (body_messages d). by rewrite Hu.
Qed.

Lemma handler_no_user_text_witness :
  atlasChat None ex_dumps ex_loads ex_post (λ _, []) (λ _, []) ex_cfg ex_env (ex_request []) 0
    ex_stream cache_init
  = Ok {| out_response := _json_response (PDict (message_fields ex_cfg MSG_PROMPT)) 200;
          out_cache := cache_init; out_llm_calls := [] |}.
Proof. apply (handler_no_user_text _ _ _ _ _ _ _ _ _ _ _ _ [(lit "messages", PList [])]); reflexivity. Defined.

(** [C21]: when the model call raises (here: every [requests.post] fails)
    after a non-empty catalog and a key were found, the handler answers 200
    with the apology envelope, having called the model once. *)
Theorem handler_provider_failure pycountry json_dumps json_loads http_post exc_text format_exc cfg env
    req now stream st d books by_id avail st' e :
  method req = lit "POST" → body_of req = PDict d → last_user_text (body_messages d) ≠ [] →
  _load_atlas_books_cached pycountry (ATLAS_CHAT_CACHE_TTL_SEC cfg) now stream st
    = Ok ((books, by_id, avail), st') →
  books ≠ [] → env_or env "OPENAI_API_KEY" [] ≠ [] →
  (∀ u h b t, http_post u h b t = Err e) →
  ∃ o, atlasChat pycountry json_dumps json_loads http_post exc_text format_exc cfg env req now stream st
         = Ok o ∧
       status (out_response o) = 200%Z ∧
       (∃ extra, body (out_response o) = PDict (message_fields cfg MSG_SORRY ++ extra)) ∧
       out_cache o = st' ∧ length (out_llm_calls o) = 1.
Proof.
  intros Hm Hb Hu Hl Hbk Hk Hp. post_flow Hm. rewrite Hb. cbn [get mbind result_bind].
  fold (body_messages d). apply nonempty_true in Hu, Hbk, Hk. rewrite Hu, Hl, Hbk, Hk. cbn [negb].
  unfold _recommend_with_llm, _call_openai. rewrite Hp. cbn [mbind result_bind].
  eexists. split; [reflexivity|]. cbn [out_response out_cache out_llm_calls status body _json_response].
  split; [done|]. split; [|done].
  match goal with |- context [with_debug ?b ?x ?y] => destruct (with_debug_shape b x y) as (ex & -> & _) end.
  eauto.
Qed.

Lemma handler_provider_failure_witness :
  ∃ o, atlasChat None ex_dumps ex_loads ex_timeout (λ _, []) (λ _, []) ex_cfg ex_env
         (ex_request [user_msg "Books set in Nigeria?"]) 0 ex_stream cache_init = Ok o ∧
       status (out_response o) = 200%Z ∧
       (∃ extra, body (out_response o) = PDict (message_fields ex_cfg MSG_SORRY ++ extra)) ∧
       out_cache o = refreshed None 0 [annotate None ex_fields] ∧ length (out_llm_calls o) = 1.
Proof.
  eapply (handler_provider_failure None ex_dumps ex_loads ex_timeout _ _ ex_cfg ex_env
            _ 0 ex_stream cache_init [(lit "messages", PList [user_msg "Books set in Nigeria?"])]
            [annotate None ex_fields]);
    first [reflexivity | discriminate | by vm_compute | by intros].
Defined.

(** [C22]: every status-200 answer is a well-formed envelope, optionally
    with a [debug] entry: prose non-empty and at most 900 characters,
    recommendations distinct books of the catalog the cache now holds, with
    bounded reasons, at most two bounded follow-ups, no actions, the build
    id; the model's own text never reaches the client unvalidated. *)
Theorem handler_200_envelope pycountry json_dumps json_loads http_post exc_text format_exc cfg env
    req now stream st o :
  atlasChat pycountry json_dumps json_loads http_post exc_text format_exc cfg env req now stream st
    = Ok o →
  status (out_response o) = 200%Z →
  ∃ single e extra,
    body (out_response o) = PDict (envelope_fields e ++ extra) ∧
    envelope_wf (cache_by_id (out_cache o)) single (ATLAS_CHAT_BUILD cfg) e ∧
    (extra = [] ∨ ∃ v, extra = [(lit "debug", v)]).
Proof.
  intros Hh Hs. apply atlasChat_path in Hh.
  destruct Hh as [r Hr | | snap st' r _ Hr | d books by_id avail st' p r _ _ _ Hl _ _ _ Hbody].
  - cbn in Hs. destruct Hr as [Hr | Hr]; rewrite Hr in Hs; discriminate.
  - exists false, (message_envelope (ATLAS_CHAT_BUILD cfg) MSG_PROMPT), [].
    split; [cbn [body _json_response]; by rewrite app_nil_r, message_fields_envelope|].
    split; [|by left].
    destruct messages_length, messages_nonempty. by apply message_envelope_wf.
  - cbn in Hs. rewrite Hr in Hs. discriminate.
  - cbn [out_cache out_response]. destruct (load_snapshot _ _ _ _ _ _ _ _ _ Hl) as [_ <-].
    destruct Hbody as [(parsed & debug & dbg & ->) | (debug & dbg & ->)].
    + destruct (with_debug_shape debug (envelope_fields
        (_validate_payload (ATLAS_CHAT_BUILD cfg) parsed by_id (last_user_text (body_messages d)))) dbg)
        as (extra & -> & Hx).
      do 3 eexists. split; [reflexivity|]. split; [apply validate_envelope_wf | exact Hx].
    + destruct (with_debug_shape debug (message_fields cfg MSG_SORRY) dbg) as (extra & -> & Hx).
      exists false, (message_envelope (ATLAS_CHAT_BUILD cfg) MSG_SORRY), extra.
      split; [by rewrite message_fields_envelope|]. split; [|exact Hx].
      destruct msg_sorry_ok. by apply message_envelope_wf.
Qed.

Lemma handler_200_envelope_witness :
  ∃ o, atlasChat None ex_dumps ex_loads ex_post (λ _, []) (λ _, []) ex_cfg ex_env (ex_request [])
         0 ex_stream cache_init = Ok o ∧
       ∃ single e extra,
         body (out_response o) = PDict (envelope_fields e ++ extra) ∧
         envelope_wf (cache_by_id (out_cache o)) single (ATLAS_CHAT_BUILD ex_cfg) e ∧
         (extra = [] ∨ ∃ v, extra = [(lit "debug", v)]).
Proof.
  destruct (atlasChat None ex_dumps ex_loads ex_post (λ _, []) (λ _, []) ex_cfg ex_env (ex_request [])
              0 ex_stream cache_init) as [o|e] eqn:E; [|vm_compute in E; discriminate].
  exists o. split; [done|].
  apply (handler_200_envelope None ex_dumps ex_loads ex_post _ _ ex_cfg ex_env _ _ _ _ o E).
  vm_compute in E. by injection E as <-.
Defined.

(** [C23]: a [POST] whose JSON body is truthy but not an object (a
    non-empty array, a string, a number) makes [body.get("debug")] raise
    [AttributeError] outside any [try]: the exception escapes [atlasChat]. *)
Theorem handler_non_object_body_raises pycountry json_dumps json_loads http_post exc_text format_exc
    cfg env req now stream st v :
  method req = lit "POST" → get_json req = Ok v → truthy v = true → as_dict v = None →
  atlasChat pycountry json_dumps json_loads http_post exc_text format_exc cfg env req now stream st
  = Err AttributeError.
Proof.
  intros Hm Hj Ht Hd. post_flow Hm. unfold body_of, py_or. rewrite Hj, Ht.
  by destruct v.
Qed.

Lemma handler_non_object_body_raises_witness :
  atlasChat None ex_dumps ex_loads ex_post (λ _, []) (λ _, []) ex_cfg ex_env
    {| method := lit "POST"; get_json := Ok (PList [user_msg "hi"]) |} 0 ex_stream cache_init
  = Err AttributeError.
Proof. apply (handler_non_object_body_raises _ _ _ _ _ _ _ _ _ _ _ _ (PList [user_msg "hi"])); reflexivity. Defined.

(** [C24]: [OPTIONS] is answered 204 with [{"ok": true}], any method other
    than [POST] 405 with [{"error": "method_not_allowed"}]; neither touches
    the cache or the model. *)
Theorem handler_methods pycountry json_dumps json_loads http_post exc_text format_exc cfg env
    req now stream st :
  let h := atlasChat pycountry json_dumps json_loads http_post exc_text format_exc cfg env req now stream st in
  (method req = lit "OPTIONS" →
   h = Ok {| out_response := _json_response (PDict [(lit "ok", PBool true)]) 204;
             out_cache := st; out_llm_calls := [] |}) ∧
  (method req ≠ lit "OPTIONS" → method req ≠ lit "POST" →
   h = Ok {| out_response := _json_response (PDict [(lit "error", str_v "method_not_allowed")]) 405;
             out_cache := st; out_llm_calls := [] |}).
Proof.
  split; intros Hm; unfold atlasChat; [by rewrite bool_decide_eq_true_2|].
  intros Hp. by rewrite bool_decide_eq_false_2, bool_decide_eq_false_2.
Qed.

Lemma handler_methods_witness :
  atlasChat None ex_dumps ex_loads ex_post (λ _, []) (λ _, []) ex_cfg ex_env
    {| method := lit "GET"; get_json := Ok PNone |} 0 ex_stream cache_init
  = Ok {| out_response := _json_response (PDict [(lit "error", str_v "method_not_allowed")]) 405;
          out_cache := cache_init; out_llm_calls := [] |}.
Proof.
  apply (handler_methods None ex_dumps ex_loads ex_post (λ _, []) (λ _, []) ex_cfg ex_env
           {| method := lit "GET"; get_json := Ok PNone |} 0 ex_stream cache_init);
    intros H; vm_compute in H; discriminate.
Defined.

Lemma last_n_snoc {A} n (l : list A) x : 0 < n → ∃ l', last_n n (l ++ [x]) = l' ++ [x].
Proof.
  intros Hn. unfold last_n. rewrite length_app. cbn [length].
  rewrite drop_app_le by lia. eauto.
Qed.

Lemma user_turn_parts c rest :
  last_user_text_go (PDict [(lit "role", str_v "user"); (lit "content", PStr c)] :: rest)
    = (if nonempty (strip c) then strip c else last_user_text_go rest) ∧
  history_turn (PDict [(lit "role", str_v "user"); (lit "content", PStr c)])
    = (if nonempty (strip c) then Some (lit "user", strip c) else None).
Proof.
  split; cbv -[strip nonempty]; by destruct (nonempty (strip c)).
Qed.

Lemma last_omap_snoc {A B} (f : A → option B) l x y :
  f x = Some y → last (omap f (l ++ [x])) = Some y.
Proof. intros Hf. rewrite omap_app. simpl. rewrite Hf. by rewrite last_snoc. Qed.

(** [C25]: the turn being answered is also sent as history: when the last
    message is a user message, its stripped text is the user text of the
    context block and also the last history turn (the specification speaks
    of the turns of prior history). *)
Theorem handler_history_has_current messages c :
  strip c ≠ [] →
  let ms := messages ++ [PDict [(lit "role", str_v "user"); (lit "content", PStr c)]] in
  last_user_text ms = strip c ∧ last (history_of ms) = Some (lit "user", strip c).
Proof.
  intros Hc. apply nonempty_true in Hc. cbn zeta. split.
  - unfold last_user_text. rewrite reverse_app, reverse_singleton. cbn [app].
    destruct (user_turn_parts c (reverse messages)) as [-> _]. by rewrite Hc.
  - destruct (last_n_snoc 12 messages (PDict [(lit "role", str_v "user"); (lit "content", PStr c)]))
      as [l' Hl]; [lia|].
    unfold history_of. rewrite Hl. apply last_omap_snoc.
    destruct (user_turn_parts c []) as [_ ->]. by rewrite Hc.
Qed.

Lemma handler_history_has_current_witness :
  let ms := [user_msg "Something set in Lagos"; PDict [(lit "role", str_v "assistant"); (lit "content", str_v "Try Americanah.")];
             PDict [(lit "role", str_v "user"); (lit "content", PStr (lit " Just one, please "))]] in
  last_user_text ms = lit "Just one, please" ∧ last (history_of ms) = Some (lit "user", lit "Just one, please").
Proof.
  pose proof (handler_history_has_current
    [user_msg "Something set in Lagos"; PDict [(lit "role", str_v "assistant"); (lit "content", str_v "Try Americanah.")]]
    (lit " Just one, please ")) as H.
  vm_compute in H. vm_compute. apply H. discriminate.
Defined.

(** [C26]: a call posts to the model at most once, and only for a [POST]
    with user text, once the catalog it loaded is non-empty and an API key
    is set. *)
Theorem handler_llm_calls pycountry json_dumps json_loads http_post exc_text format_exc cfg env
    req now stream st o :
  atlasChat pycountry json_dumps json_loads http_post exc_text format_exc cfg env req now stream st
    = Ok o →
  length (out_llm_calls o) ≤ 1 ∧
  (out_llm_calls o ≠ [] →
   method req = lit "POST" ∧ env_or env "OPENAI_API_KEY" [] ≠ [] ∧ cache_books (out_cache o) ≠ [] ∧
   ∃ d, body_of req = PDict d ∧ last_user_text (body_messages d) ≠ []).
Proof.
  intros H. apply atlasChat_path in H.
  destruct H as [| | | d books by_id avail st' p r Hm Hb Hu Hl Hbk Hk _ _]; cbn [out_llm_calls out_cache];
    [split; [simpl; lia | done]..|].
  split; [simpl; lia|]. intros _. destruct (load_snapshot _ _ _ _ _ _ _ _ _ Hl) as [<- _]. eauto 10.
Qed.

Lemma handler_llm_calls_witness :
  ∃ o, atlasChat None ex_dumps ex_loads ex_timeout (λ _, []) (λ _, []) ex_cfg ex_env
         (ex_request [user_msg "Books set in Nigeria?"]) 0 ex_stream cache_init = Ok o ∧
       length (out_llm_calls o) ≤ 1 ∧ env_or ex_env "OPENAI_API_KEY" [] ≠ [].
Proof.
  destruct (atlasChat None ex_dumps ex_loads ex_timeout (λ _, []) (λ _, []) ex_cfg ex_env
              (ex_request [user_msg "Books set in Nigeria?"]) 0 ex_stream cache_init) as [o|e] eqn:E;
    [|vm_compute in E; discriminate].
  exists o. split; [done|].
  destruct (handler_llm_calls None ex_dumps ex_loads ex_timeout _ _ ex_cfg ex_env _ _ _ _ o E) as [Hle Hc].
  split; [done|]. apply Hc. vm_compute in E. injection E as <-. discriminate.
Defined.

(** [C27]: each call moves the cache globals along [cache_step], so the
    consistency of the catalog snapshot holds after any sequence of
    requests starting from the initial globals. *)
Theorem handler_cache_reachable pycountry json_dumps json_loads http_post exc_text format_exc cfg env
    req now stream st o :
  rtc (cache_step pycountry (ATLAS_CHAT_CACHE_TTL_SEC cfg)) cache_init st →
  atlasChat pycountry json_dumps json_loads http_post exc_text format_exc cfg env req now stream st
    = Ok o →
  rtc (cache_step pycountry (ATLAS_CHAT_CACHE_TTL_SEC cfg)) cache_init (out_cache o).
Proof.
  intros Hr H. apply atlasChat_path in H.
  destruct H as [| | snap st' r Hl _ | d books by_id avail st' p r _ _ _ Hl _ _ _ _];
    cbn [out_cache]; try done; (etrans; [exact Hr | by eapply load_cache_step]).
Qed.

Lemma handler_cache_reachable_witness :
  ∃ o, atlasChat None ex_dumps ex_loads ex_timeout (λ _, []) (λ _, []) ex_cfg ex_env
         (ex_request [user_msg "Books set in Nigeria?"]) 0 ex_stream cache_init = Ok o ∧
       rtc (cache_step None 600) cache_init (out_cache o).
Proof.
  destruct (atlasChat None ex_dumps ex_loads ex_timeout (λ _, []) (λ _, []) ex_cfg ex_env
              (ex_request [user_msg "Books set in Nigeria?"]) 0 ex_stream cache_init) as [o|e] eqn:E;
    [|vm_compute in E; discriminate].
  exists o. split; [done|].
  exact (handler_cache_reachable None ex_dumps ex_loads ex_timeout _ _ ex_cfg ex_env _ _ _ _ o
           (rtc_refl _ _) E).
Defined.

Lemma env_or_some env k d s : env (lit k) = Some s → s ≠ [] → env_or env k d = s.
Proof. unfold env_or. intros -> Hs. by rewrite (proj2 (nonempty_true s) Hs). Qed.

Lemma env_or_none env k d : env (lit k) = None → env_or env k d = d.
Proof. unfold env_or. by intros ->. Qed.

(** [C28]: importing the module raises [ValueError] exactly when the TTL
    setting is present, non-empty and not an integer; otherwise the model
    is the setting (when non-empty) or [gpt-4o-mini], debugging is on
    exactly when the stripped setting is ["1"], and the TTL is the
    setting's integer value or 600 s when unset. *)
Theorem config_of_env_spec env :
  (config_of_env env = Err ValueError ↔
   ∃ s, env (lit "ATLAS_CHAT_CACHE_TTL_SEC") = Some s ∧ s ≠ [] ∧ int_of_str s = None) ∧
  ∀ c, config_of_env env = Ok c →
    (∀ s, env (lit "ATLAS_CHAT_MODEL") = Some s → s ≠ [] → ATLAS_CHAT_MODEL c = s) ∧
    (env (lit "ATLAS_CHAT_MODEL") = None → ATLAS_CHAT_MODEL c = lit "gpt-4o-mini") ∧
    (ATLAS_CHAT_DEBUG c = true ↔ ∃ s, env (lit "ATLAS_CHAT_DEBUG") = Some s ∧ strip s = lit "1") ∧
    (∀ s z, env (lit "ATLAS_CHAT_CACHE_TTL_SEC") = Some s → int_of_str s = Some z →
            ATLAS_CHAT_CACHE_TTL_SEC c = z) ∧
    (env (lit "ATLAS_CHAT_CACHE_TTL_SEC") = None → ATLAS_CHAT_CACHE_TTL_SEC c = 600%Z).
Proof.
  assert (H600 : int_of_str (lit "600") = Some 600%Z) by reflexivity.
  split.
  - unfold config_of_env, env_or. split.
    + destruct (env (lit "ATLAS_CHAT_CACHE_TTL_SEC")) as [s|]; cbn [py_int];
        [destruct (nonempty s) eqn:Hs|]; rewrite ?H600; try discriminate.
      destruct (int_of_str s) eqn:Hi; [discriminate|]. intros _. exists s.
      split_and!; [done | by apply nonempty_true | done].
    + intros (s & Hs & Hne & Hi). rewrite Hs, (proj2 (nonempty_true s) Hne). cbn [py_int].
      by rewrite Hi.
  - intros c Hc. unfold config_of_env in Hc.
    destruct (py_int _) as [ttl|] eqn:Ht; [|discriminate]. injection Hc as <-.
    cbn [ATLAS_CHAT_MODEL ATLAS_CHAT_DEBUG ATLAS_CHAT_CACHE_TTL_SEC]. split_and!.
    + intros s Hs Hne. by apply env_or_some.
    + apply env_or_none.
    + rewrite bool_decide_eq_true. unfold env_or.
      destruct (env (lit "ATLAS_CHAT_DEBUG")) as [d|]; [|split; [discriminate | by intros (? & ? & _)]].
      destruct (nonempty d) eqn:Hd; [split; eauto; by intros (? & [= ->] & ?)|].
      apply nonempty_false in Hd as ->. split; [discriminate | by intros (? & [= <-] & ?)].
    + intros s z Hs Hi. rewrite (env_or_some _ _ _ s Hs) in Ht by (by intros ->).
      cbn [py_int] in Ht. rewrite Hi in Ht. by injection Ht.
    + intros Hn. rewrite env_or_none in Ht by done. cbn [py_int] in Ht. rewrite H600 in Ht.
      by injection Ht.
Qed.

Lemma config_of_env_spec_witness :
  config_of_env (λ k, if decide (k = lit "ATLAS_CHAT_CACHE_TTL_SEC") then Some (lit "10m") else None)
  = Err ValueError.
Proof.
  apply (config_of_env_spec _). exists (lit "10m"). split_and!; [reflexivity | discriminate | reflexivity].
Defined.

Lemma atlasChat_response pycountry json_dumps json_loads http_post exc_text format_exc cfg env
    req now stream st o :
  atlasChat pycountry json_dumps json_loads http_post exc_text format_exc cfg env req now stream st
    = Ok o →
  ∃ d n, out_response o = _json_response (PDict d) n.
Proof.
  unfold atlasChat. case_bool_decide; [intros [= <-]; eauto|].
  case_bool_decide; cbn [negb]; [|intros [= <-]; eauto].
  destruct (body_of req) as [| | | | | |d]; cbn [get mbind result_bind]; try discriminate.
  destruct (nonempty _); cbn [negb]; [|intros [= <-]; eauto].
  destruct (_load_atlas_books_cached _ _ _ _ _) as [[[[books by_id] avail] st']|e]; [|discriminate].
  destruct (nonempty books); cbn [negb]; [|intros [= <-]; unfold with_debug; eauto].
  destruct (nonempty (env_or _ _ _)); cbn [negb]; [|intros [= <-]; unfold with_debug; eauto].
  intros [= <-]. cbn [out_response]. unfold with_debug. case_match; eauto.
Qed.

(** [C29]: the handler answers every request, except when the body of a
    [POST] is not a JSON object or loading the catalog raises: no other
    path raises, the model's failures included. *)
Theorem handler_answers pycountry json_dumps json_loads http_post exc_text format_exc cfg env
    req now stream st :
  (method req ≠ lit "POST" ∨ is_Some (as_dict (body_of req))) →
  (∃ r, _load_atlas_books_cached pycountry (ATLAS_CHAT_CACHE_TTL_SEC cfg) now stream st = Ok r) →
  ∃ o, atlasChat pycountry json_dumps json_loads http_post exc_text format_exc cfg env req now stream st
       = Ok o.
Proof.
  intros Hb [[[[books by_id] avail] st'] Hl]. unfold atlasChat.
  case_bool_decide; [eauto|]. case_bool_decide as Hp; cbn [negb]; [|eauto].
  destruct Hb as [Hb | [d Hd]]; [done|].
  destruct (body_of req) as [| | | | | |d']; try discriminate. cbn [get mbind result_bind].
  destruct (nonempty _); cbn [negb]; [|eauto]. rewrite Hl.
  destruct (nonempty books); cbn [negb]; [|eauto]. destruct (nonempty (env_or _ _ _)); cbn [negb]; eauto.
Qed.

Lemma handler_answers_witness :
  ∃ o, atlasChat None ex_dumps ex_loads ex_timeout (λ _, []) (λ _, []) ex_cfg ex_env
         (ex_request [user_msg "Books set in Nigeria?"]) 0 ex_stream cache_init = Ok o.
Proof.
  apply handler_answers; [right; by eexists|].
  eexists. vm_compute. reflexivity.
Defined.

(** Which status each kind of request gets: 204 for OPTIONS, 405 for the
    other non-POST methods, and 200 or a 500 whose body starts with its
    [error] code for POST. *)
Lemma atlasChat_status pycountry json_dumps json_loads http_post exc_text format_exc cfg env
    req now stream st o :
  atlasChat pycountry json_dumps json_loads http_post exc_text format_exc cfg env req now stream st
    = Ok o →
  (method req = lit "OPTIONS" ∧ status (out_response o) = 204%Z) ∨
  (method req ≠ lit "OPTIONS" ∧ method req ≠ lit "POST" ∧ status (out_response o) = 405%Z) ∨
  (method req = lit "POST" ∧
   (status (out_response o) = 200%Z ∨
    (status (out_response o) = 500%Z ∧
     ∃ code rest, body (out_response o) = PDict ((lit "error", PStr code) :: rest)))).
Proof.
  unfold atlasChat. case_bool_decide as Ho; [intros [= <-]; by left|].
  case_bool_decide as Hp; cbn [negb]; [|intros [= <-]; by right; left].
  intros H; right; right; split; [done|]; revert H.
  destruct (body_of req) as [| | | | | |d]; cbn [get mbind result_bind]; try discriminate.
  destruct (nonempty _); cbn [negb]; [|intros [= <-]; by left].
  destruct (_load_atlas_books_cached _ _ _ _ _) as [[[[books by_id] avail] st']|e]; [|discriminate].
  destruct (nonempty books); cbn [negb];
    [|intros [= <-]; right; split; [done|]; eexists _, _; reflexivity].
  destruct (nonempty (env_or _ _ _)); cbn [negb];
    [|intros [= <-]; right; split; [done|]; eexists _, _; reflexivity].
  intros [= <-]. left. cbn [out_response]. by destruct (_recommend_with_llm _ _ _ _ _ _ _ _ _ _).
Qed.

(** [C30]: every answer is a JSON object carrying the four permissive CORS
    headers; its status is 204 exactly for OPTIONS, 405 exactly for the
    other methods that are not POST, 200 or 500 for POST, and a 500 body
    starts with its machine-readable [error] code. *)
Theorem handler_response_shape pycountry json_dumps json_loads http_post exc_text format_exc cfg env
    req now stream st o :
  atlasChat pycountry json_dumps json_loads http_post exc_text format_exc cfg env req now stream st
    = Ok o →
  headers (out_response o) = [(lit "Content-Type", lit "application/json");
                              (lit "Access-Control-Allow-Origin", lit "*");
                              (lit "Access-Control-Allow-Headers", lit "Content-Type");
                              (lit "Access-Control-Allow-Methods", lit "POST, OPTIONS")] ∧
  (∃ d, body (out_response o) = PDict d) ∧
  (status (out_response o) = 204%Z ↔ method req = lit "OPTIONS") ∧
  (status (out_response o) = 405%Z ↔ method req ≠ lit "OPTIONS" ∧ method req ≠ lit "POST") ∧
  (method req = lit "POST" → status (out_response o) = 200%Z ∨ status (out_response o) = 500%Z) ∧
  (status (out_response o) = 500%Z →
   ∃ code rest, body (out_response o) = PDict ((lit "error", PStr code) :: rest)).
Proof.
  intros H. destruct (atlasChat_response _ _ _ _ _ _ _ _ _ _ _ _ _ H) as (d & n & Hr).
  split; [by rewrite Hr|]. split; [rewrite Hr; eauto|].
  destruct (atlasChat_status _ _ _ _ _ _ _ _ _ _ _ _ _ H)
    as [[Hm Hs] | [(Ho & Hp & Hs) | (Hm & [Hs | (Hs & He)])]]; rewrite Hs;
    split_and!; intros; try (split; intros); try lia; try (by left); try tauto;
    exfalso; apply post_ne_options; congruence.
Qed.

Lemma handler_response_shape_witness :
  ∃ o, atlasChat None ex_dumps ex_loads ex_post (λ _, []) (λ _, []) ex_cfg ex_env (ex_request [])
         0 ex_stream cache_init = Ok o ∧
       (status (out_response o) = 204%Z ↔ method (ex_request []) = lit "OPTIONS").
Proof.
  destruct (atlasChat None ex_dumps ex_loads ex_post (λ _, []) (λ _, []) ex_cfg ex_env (ex_request [])
              0 ex_stream cache_init) as [o|e] eqn:E; [|vm_compute in E; discriminate].
  exists o. split; [done|].
  apply (handler_response_shape None ex_dumps ex_loads ex_post _ _ ex_cfg ex_env _ _ _ _ o E).
Defined.

(** [C32]: with user text to answer, an empty catalog is a 500
    [catalog_unavailable] and, with books loaded, a missing
    [OPENAI_API_KEY] a 500 [missing_openai_api_key]; in both the body is
    the error and the build id (plus a [debug] entry when debugging), the
    cache keeps what the loader computed and the model is not called. *)
Theorem handler_server_errors pycountry json_dumps json_loads http_post exc_text format_exc cfg env
    req now stream st d books by_id avail st' :
  method req = lit "POST" → body_of req = PDict d → last_user_text (body_messages d) ≠ [] →
  _load_atlas_books_cached pycountry (ATLAS_CHAT_CACHE_TTL_SEC cfg) now stream st
    = Ok ((books, by_id, avail), st') →
  books = [] ∨ env_or env "OPENAI_API_KEY" [] = [] →
  ∃ o extra,
    atlasChat pycountry json_dumps json_loads http_post exc_text format_exc cfg env req now stream st
      = Ok o ∧
    status (out_response o) = 500%Z ∧
    body (out_response o)
      = PDict ([(lit "error", str_v (if bool_decide (books = []) then "catalog_unavailable"
                                     else "missing_openai_api_key"));
                (lit "build", PStr (ATLAS_CHAT_BUILD cfg))] ++ extra) ∧
    out_cache o = st' ∧ out_llm_calls o = [].
Proof.
  intros Hm Hb Hu Hl Hk. post_flow Hm. rewrite Hb. cbn [get mbind result_bind].
  fold (body_messages d). apply nonempty_true in Hu. rewrite Hu, Hl. cbn [negb].
  destruct books as [|b bs];
    [rewrite bool_decide_eq_true_2, (proj2 (nonempty_false [])) by done
    |rewrite bool_decide_eq_false_2, (proj2 (nonempty_true (b :: bs))) by done;
     destruct Hk as [Hk | Hk]; [done|]; rewrite (proj2 (nonempty_false _) Hk)];
  cbn [negb];
  match goal with |- context [with_debug ?g ?x ?y] => destruct (with_debug_shape g x y) as (ex & Hd & _) end;
  rewrite Hd; eexists _, ex; split_and!; reflexivity.
Qed.

Lemma handler_server_errors_witness :
  ∃ o extra,
    atlasChat None ex_dumps ex_loads ex_post (λ _, []) (λ _, []) ex_cfg ex_env
      (ex_request [user_msg "Books set in Nigeria?"]) 0
      (Ok {| ds_docs := []; ds_error := None |}) cache_init = Ok o ∧
    status (out_response o) = 500%Z ∧
    body (out_response o)
      = PDict ([(lit "error", str_v (if bool_decide (([] : list atlas_book) = []) then "catalog_unavailable"
                                     else "missing_openai_api_key"));
                (lit "build", PStr (ATLAS_CHAT_BUILD ex_cfg))] ++ extra) ∧
    out_cache o = refreshed None 0 [] ∧ out_llm_calls o = [].
Proof.
  apply (handler_server_errors None ex_dumps ex_loads ex_post _ _ ex_cfg ex_env _ 0 _ cache_init
           [(lit "messages", PList [user_msg "Books set in Nigeria?"])] [] ∅ []);
    first [reflexivity | by vm_compute | by left].
Defined.

(** ** Validating the validator's own output

    The spec asks that running the validator on its own output gives the
    same envelope.  It does not for the prose: each pass removes one layer
    of line markers.  The example below is the counterexample behind the
    corresponding finding. *)

(** The prose is not stable under re-validation: ["1. - x"] is
    sanitised to ["- x"] (the numbered-list marker is removed, which
    exposes a bullet marker), and validating that envelope again yields
    ["x"].  Likewise a heading of seven [#] keeps one: ["####### x"] is
    sanitised to ["# x"]. *)
Example validate_not_idempotent :
  let e1 := _validate_payload (lit "b") (PDict [(lit "assistant_markdown", str_v "1. - x")])
              (∅ : gmap pystr pydict) [] in
  let e2 := _validate_payload (lit "b") (PDict (envelope_fields e1)) (∅ : gmap pystr pydict) [] in
  assistant_markdown e1 = lit "- x" ∧ assistant_markdown e2 = lit "x" ∧
  _sanitize_assistant_markdown (str_v "####### x") = lit "# x".
Proof. split_and!; vm_compute; reflexivity. Qed.

(** ** No diagnostics without a debug request *)

(** A membership test on the keys of a dict literal, decided by evaluation. *)
Ltac keys_closed := refine (bool_decide_unpack _ _); vm_compute; reflexivity.

Lemma envelope_no_debug e : lit "debug" ∉ map fst (envelope_fields e).
Proof. cbn [envelope_fields map fst]. keys_closed. Qed.

(** [C34]: unless the request body asks for [debug: true] or the
    deployment sets [ATLAS_CHAT_DEBUG], no answer carries a [debug] entry:
    the exception text, the traceback and the environment's project
    settings never reach the client. *)
Theorem handler_no_debug_leak pycountry json_dumps json_loads http_post exc_text format_exc cfg env
    req now stream st o :
  ATLAS_CHAT_DEBUG cfg = false →
  (∀ d, body_of req = PDict d → dict_get d (lit "debug") ≠ PBool true) →
  atlasChat pycountry json_dumps json_loads http_post exc_text format_exc cfg env req now stream st
    = Ok o →
  ∃ fs, body (out_response o) = PDict fs ∧ lit "debug" ∉ map fst fs.
Proof.
  intros Hcfg Hdbg. unfold atlasChat.
  case_bool_decide; [intros [= <-]; eexists; split; [reflexivity | keys_closed]|].
  case_bool_decide; cbn [negb]; [|intros [= <-]; eexists; split; [reflexivity | keys_closed]].
  destruct (body_of req) as [| | | | | |d] eqn:Hb; cbn [get mbind result_bind]; try discriminate.
  assert (Hf : (match dict_get d (lit "debug") with PBool true => true | _ => false end
                 || ATLAS_CHAT_DEBUG cfg) = false).
  { pose proof (Hdbg d eq_refl) as Hd. rewrite Hcfg. by destruct (dict_get d _) as [|[]| | | | |]. }
  rewrite Hf.
  destruct (nonempty _); cbn [negb];
    [|intros [= <-]; eexists; split; [reflexivity | rewrite message_fields_envelope; apply envelope_no_debug]].
  destruct (_load_atlas_books_cached _ _ _ _ _) as [[[[books by_id] avail] st']|e]; [|discriminate].
  destruct (nonempty books); cbn [negb]; [|intros [= <-]; eexists; split; [reflexivity | keys_closed]].
  destruct (nonempty (env_or _ _ _)); cbn [negb]; [|intros [= <-]; eexists; split; [reflexivity | keys_closed]].
  intros [= <-]. destruct (_recommend_with_llm _ _ _ _ _ _ _ _ _ _); eexists; split; try reflexivity;
    rewrite app_nil_r, ?message_fields_envelope; apply envelope_no_debug.
Qed.

Lemma handler_no_debug_leak_witness :
  ∃ o, atlasChat None ex_dumps ex_loads ex_timeout (λ _, []) (λ _, []) ex_cfg ex_env
         (ex_request [user_msg "Books set in Nigeria?"]) 0 ex_stream cache_init = Ok o ∧
       ∃ fs, body (out_response o) = PDict fs ∧ lit "debug" ∉ map fst fs.
Proof.
  destruct (atlasChat None ex_dumps ex_loads ex_timeout (λ _, []) (λ _, []) ex_cfg ex_env
              (ex_request [user_msg "Books set in Nigeria?"]) 0 ex_stream cache_init)
    as [o|e] eqn:E; [|vm_compute in E; discriminate].
  exists o. split; [done|].
  apply (handler_no_debug_leak None ex_dumps ex_loads ex_timeout (λ _, []) (λ _, []) ex_cfg ex_env
           (ex_request [user_msg "Books set in Nigeria?"]) 0 ex_stream cache_init o);
    [reflexivity | intros d Hd; vm_compute in Hd; injection Hd as <-; by vm_compute | exact E].
Defined.
